(** * The PR Author Agent: Diff Plan to pull request

    A shallow embedding of [scripts/template_engine.py] and
    [scripts/generate_pr.py], of the command line of the latter and of
    the two VCS clients [scripts/github_client.py] and
    [scripts/gitlab_client.py], followed by the properties of the
    Diff-Plan-to-artifact pipeline and of the clients.

    Conventions of the embedding.
    - A Python [str] is a [string]; case conversion and the regular
      expression class [\w] are modelled on ASCII.
    - A Python [float] is the rational it denotes ([Q]); the order on
      finite floats is the order on those rationals.  Float formatting
      is the interpreter's and is a field of the environment.
    - A [dict] whose values are strings is a [gmap string string]; a dict
      whose iteration order reaches the output is an association list
      updated in place.
    - The Diff Plan is a record of optional fields, one per key the code
      reads: a key is present or absent, and a present key holds a value
      of the type the data model gives it.
    - A method that can raise returns in the monad [M]: an exception or a
      value, together with the trace of effects performed so far. *)

From Stdlib Require Import Ascii String QArith.
From stdpp Require Import base option list strings gmap pretty.

Local Open Scope string_scope.
Local Open Scope list_scope.

(** ** Python string methods *)

Module Str.

Definition nl : string := String (Ascii.ascii_of_nat 10) "".
Definition dq : string := String (Ascii.ascii_of_nat 34) "".

Definition is_upper (c : ascii) : bool :=
  let n := Ascii.nat_of_ascii c in (65 <=? n)%nat && (n <=? 90)%nat.
Definition is_lower (c : ascii) : bool :=
  let n := Ascii.nat_of_ascii c in (97 <=? n)%nat && (n <=? 122)%nat.
Definition is_digit (c : ascii) : bool :=
  let n := Ascii.nat_of_ascii c in (48 <=? n)%nat && (n <=? 57)%nat.
Definition is_cased (c : ascii) : bool := is_upper c || is_lower c.

(** The class [\w]: letters, digits and the underscore. *)
Definition word_char (c : ascii) : bool :=
  is_upper c || is_lower c || is_digit c || Ascii.eqb c "_".

Definition to_upper (c : ascii) : ascii :=
  if is_lower c then Ascii.ascii_of_nat (Ascii.nat_of_ascii c - 32) else c.
Definition to_lower (c : ascii) : ascii :=
  if is_upper c then Ascii.ascii_of_nat (Ascii.nat_of_ascii c + 32) else c.

Fixpoint map (f : ascii → ascii) (s : string) : string :=
  match s with
  | "" => ""
  | String c r => String (f c) (map f r)
  end.

(** [s.lower()] *)
Definition lower : string → string := map to_lower.

(** [s.capitalize()]: first character upper-cased, the rest lower-cased. *)
Definition capitalize (s : string) : string :=
  match s with
  | "" => ""
  | String c r => String (to_upper c) (lower r)
  end.

(** [s.title()]: a cased character is upper-cased when the character
    before it is not cased, lower-cased otherwise. *)
Fixpoint title_from (prev_cased : bool) (s : string) : string :=
  match s with
  | "" => ""
  | String c r =>
      String (if prev_cased then to_lower c else to_upper c)
             (title_from (is_cased c) r)
  end.
Definition title : string → string := title_from false.

(** [s.replace(old, new)] for a one-character [old]. *)
Fixpoint replace (old : ascii) (new : string) (s : string) : string :=
  match s with
  | "" => ""
  | String c r =>
      if Ascii.eqb c old then new +:+ replace old new r
      else String c (replace old new r)
  end.

(** [s.split(sep)] for a one-character [sep]; never the empty list. *)
Fixpoint split (sep : ascii) (s : string) : list string :=
  match s with
  | "" => [""]
  | String c r =>
      if Ascii.eqb c sep then "" :: split sep r
      else match split sep r with
           | w :: ws => String c w :: ws
           | [] => [String c ""]
           end
  end.

(** [sep.join(items)] *)
Definition join (sep : string) (items : list string) : string :=
  String.concat sep items.

(** [c in s] for a character. *)
Fixpoint contains_char (c : ascii) (s : string) : bool :=
  match s with
  | "" => false
  | String d r => Ascii.eqb c d || contains_char c r
  end.

(** [s.startswith(p)] *)
Definition startswith (p s : string) : bool := String.prefix p s.

(** [sub in s] *)
Fixpoint contains (sub s : string) : bool :=
  startswith sub s ||
  match s with
  | "" => false
  | String _ r => contains sub r
  end.

(** [s.endswith(suffix)] *)
Definition endswith (suffix s : string) : bool :=
  startswith (String.rev suffix) (String.rev s).

(** [s.rsplit(sep, 1)] for a one-character [sep]: [None] stands for the
    one-element list returned when [sep] does not occur. *)
Fixpoint rsplit1 (sep : ascii) (s : string) : option (string * string) :=
  match s with
  | "" => None
  | String c r =>
      match rsplit1 sep r with
      | Some (a, b) => Some (String c a, b)
      | None => if Ascii.eqb c sep then Some ("", r) else None
      end
  end.

(** [repr] of a list of strings that hold no quote and no backslash. *)
Definition repr_list (items : list string) : string :=
  "[" +:+ join ", " (List.map (λ s, "'" +:+ s +:+ "'") items) +:+ "]".

End Str.

(** ** The pattern [\$\{(\w+)\}] and [re.sub] *)

Module Re.

(** The longest run of word characters at the head of [s], and the rest. *)
Fixpoint span_word (s : string) : string * string :=
  match s with
  | "" => ("", "")
  | String c r =>
      if Str.word_char c
      then let '(w, t) := span_word r in (String c w, t)
      else ("", s)
  end.

(** One literal character of the pattern: the text after [c]. *)
Definition expect (c : ascii) (s : string) : option string :=
  match s with
  | "" => None
  | String d r => if Ascii.eqb d c then Some r else None
  end.

(** [pattern.match(s)]: the captured name and the text after the match.
    [\w+] is greedy and the character after it must be the closing
    brace, which is no word character, so only the longest run can
    match. *)
Definition match_variable (s : string) : option (string * string) :=
  r ← expect "$" s;
  r ← expect "{" r;
  let '(name, r) := span_word r in
  if decide (name = "") then None
  else r ← expect "}" r; Some (name, r).

(** [pattern.sub(repl, s)]: the leftmost non-overlapping matches are
    replaced; every step consumes at least one character, so a fuel of
    [length s] is enough. *)
Fixpoint sub_from (fuel : nat) (repl : string → string) (s : string) : string :=
  match fuel with
  | O => s
  | S n =>
      match match_variable s with
      | Some (name, rest) => repl name +:+ sub_from n repl rest
      | None =>
          match s with
          | "" => ""
          | String c r => String c (sub_from n repl r)
          end
      end
  end.

Definition sub (repl : string → string) (s : string) : string :=
  sub_from (String.length s) repl s.

(** [pattern.search(s) is not None] *)
Fixpoint search (s : string) : bool :=
  match s with
  | "" => false
  | String _ r => bool_decide (is_Some (match_variable s)) || search r
  end.

(** A name the pattern captures: one or more word characters. *)
Fixpoint all_word (s : string) : bool :=
  match s with
  | "" => true
  | String c r => Str.word_char c && all_word r
  end.
Definition is_name (s : string) : bool :=
  match s with "" => false | _ => all_word s end.

Definition placeholder (name : string) : string := "${" +:+ name +:+ "}".

End Re.

(** ** Exceptions, effects and the monad *)

Inductive exn :=
| ValueError (msg : string)
| KeyError (key : string)
| OSError (msg : string)
| RuntimeError (msg : string)
| AttributeError (msg : string).

(** [str(e)] *)
Definition exn_str (e : exn) : string :=
  match e with
  | ValueError msg | OSError msg | RuntimeError msg | AttributeError msg => msg
  | KeyError key => "'" +:+ key +:+ "'"
  end.

(** What a run does to the outside: lines printed, clock reads, accesses
    to the template directory and the three calls to the VCS client. *)
Inductive event :=
| Print (line : string)
| ClockRead
| TemplateLookup (template_name : string)
| CreateBranch (repo_url branch_name base_branch : string)
| CommitFiles (repo_url branch_name : string) (files : gmap string string)
              (message : string)
| CreatePullRequest (repo_url title body head_branch base_branch : string)
                    (labels : list string).

Definition is_vcs_call (ev : event) : bool :=
  match ev with
  | CreateBranch _ _ _ | CommitFiles _ _ _ _ | CreatePullRequest _ _ _ _ _ _ => true
  | _ => false
  end.

(** A computation raises or returns, and leaves the trace of its effects. *)
Definition M (A : Type) : Type := (exn + A) * list event.

Definition ret {A} (a : A) : M A := (inr a, []).
Definition raise {A} (e : exn) : M A := (inl e, []).
Definition emit (ev : event) : M unit := (inr tt, [ev]).
Definition lift {A} (r : exn + A) : M A := (r, []).

Definition bind {A B} (m : M A) (k : A → M B) : M B :=
  match m with
  | (inl e, t) => (inl e, t)
  | (inr a, t) => let '(r, t') := k a in (r, t ++ t')
  end.

(** [try: m except Exception as e: handler(e)] *)
Definition try_except {A} (m : M A) (handler : exn → M A) : M A :=
  match m with
  | (inl e, t) => let '(r, t') := handler e in (r, t ++ t')
  | (inr a, t) => (inr a, t)
  end.

Global Instance M_ret : MRet M := @ret.
Global Instance M_bind : MBind M := λ A B k m, bind m k.

(** A loop [for x in xs: acc = body(acc, x)] whose body can raise. *)
Fixpoint for_fold {A S} (xs : list A) (body : S → A → M S) (acc : S) : M S :=
  match xs with
  | [] => ret acc
  | x :: r => acc' ← body acc x; for_fold r body acc'
  end.

(** [[f(x) for x in xs]] where [f] can raise. *)
Fixpoint list_comp {A B} (xs : list A) (f : A → exn + B) : exn + list B :=
  match xs with
  | [] => inr []
  | x :: r =>
      match f x with
      | inl e => inl e
      | inr y => match list_comp r f with
                 | inl e => inl e
                 | inr ys => inr (y :: ys)
                 end
      end
  end.

(** [[x for x in xs if p(x)]] where [p] can raise. *)
Fixpoint filter_comp {A} (xs : list A) (p : A → exn + bool) : exn + list A :=
  match xs with
  | [] => inr []
  | x :: r =>
      match p x with
      | inl e => inl e
      | inr b => match filter_comp r p with
                 | inl e => inl e
                 | inr ys => inr (if b then x :: ys else ys)
                 end
      end
  end.

(** [d[key]] on a dict of strings. *)
Definition getitem (d : gmap string string) (key : string) : exn + string :=
  match d !! key with
  | Some v => inr v
  | None => inl (KeyError key)
  end.

(** [d.get(key, default)] *)
Definition get (d : gmap string string) (key dflt : string) : string :=
  default dflt (d !! key).

(** An insertion-ordered dict of strings: [d[k] = v] keeps the position
    of a key that is already there. *)
Fixpoint dict_set (k v : string) (d : list (string * string)) : list (string * string) :=
  match d with
  | [] => [(k, v)]
  | (k', v') :: r =>
      if String.eqb k' k then (k', v) :: r else (k', v') :: dict_set k v r
  end.

(** ** The environment of a run *)

(** The template directory tree.  A file holds its text, or the error
    that reading it raises. *)
#[warnings="-register-all"]
Inductive node :=
| File (text : exn + string)
| Dir (entries : list (string * node)).

(** The dict returned by the VCS client's [create_pull_request]. *)
Record pr_data := { number : option Z; url : option string }.

(** Everything a run reads from outside the two modules: the
    interpreter's float formatting ([format_float spec x] is
    [format(x, spec)], and [str(x)] for the empty spec), the clock, the
    directory at [templates_path] ([None] when it does not exist) and the
    answers of the VCS client. *)
Record Env := {
  format_float : string → Q → string;
  utc_now_isoformat : string;
  now_timestamp : Z;
  templates_root : option node;
  vcs_create_branch : string → string → string → exn + unit;
  vcs_commit_files : string → string → gmap string string → string → exn + unit;
  vcs_create_pull_request :
    string → string → string → string → string → list string → exn + pr_data
}.

(** ** template_engine.py *)

(** The values of the variable mapping: strings, the float [confidence]
    and the list [archetypes]. *)
Inductive scalar := SStr (s : string) | SFloat (x : Q).
Inductive value := VScalar (a : scalar) | VList (items : list scalar).

Definition vstr (s : string) : value := VScalar (SStr s).

(** [str(a)] *)
Definition py_str (env : Env) (a : scalar) : string :=
  match a with
  | SStr s => s
  | SFloat x => format_float env "" x
  end.

Record TemplateContext := {
  service_name : string;
  service_urn : string;
  namespace : string;
  input_topic : string;
  output_topic : string;
  owner_team : string;
  consumer_group : string;
  schema_id : string;
  otel_version : string;
  timestamp : string;
  diff_plan_id : string;
  confidence : Q;
  archetypes : list string;
  language : string
}.

(** [TemplateContext.__post_init__] *)
Definition __post_init__ (c : TemplateContext) : TemplateContext :=
  if decide (consumer_group c = "")
  then {| service_name := service_name c; service_urn := service_urn c;
          namespace := namespace c; input_topic := input_topic c;
          output_topic := output_topic c; owner_team := owner_team c;
          consumer_group := service_name c +:+ "-cg";
          schema_id := schema_id c; otel_version := otel_version c;
          timestamp := timestamp c; diff_plan_id := diff_plan_id c;
          confidence := confidence c; archetypes := archetypes c;
          language := language c |}
  else c.

(** [dataclasses.asdict] *)
Definition asdict (c : TemplateContext) : gmap string value :=
  <["language" := vstr (language c)]> (
  <["archetypes" := VList (SStr <$> archetypes c)]> (
  <["confidence" := VScalar (SFloat (confidence c))]> (
  <["diff_plan_id" := vstr (diff_plan_id c)]> (
  <["timestamp" := vstr (timestamp c)]> (
  <["otel_version" := vstr (otel_version c)]> (
  <["schema_id" := vstr (schema_id c)]> (
  <["consumer_group" := vstr (consumer_group c)]> (
  <["owner_team" := vstr (owner_team c)]> (
  <["output_topic" := vstr (output_topic c)]> (
  <["input_topic" := vstr (input_topic c)]> (
  <["namespace" := vstr (namespace c)]> (
  <["service_urn" := vstr (service_urn c)]> (
  <["service_name" := vstr (service_name c)]> ∅))))))))))))).

(** [TemplateContext.to_dict]; the assignments are applied in source
    order, innermost first. *)
Definition to_dict (env : Env) (c : TemplateContext) : gmap string value :=
  <["MODULE_NAME" := vstr (Str.replace "-" "_" (service_name c))]> (
  <["CLASS_NAME" :=
      vstr (Str.join "" (Str.capitalize <$> Str.split "-" (service_name c)))]> (
  <["PACKAGE_NAME" := vstr (Str.replace "-" "." (service_name c))]> (
  <["LANGUAGE" := vstr (language c)]> (
  <["ARCHETYPES" := vstr (Str.join ", " (archetypes c))]> (
  <["CONFIDENCE" := vstr (format_float env ".0%" (confidence c))]> (
  <["DIFF_PLAN_ID" := vstr (diff_plan_id c)]> (
  <["TIMESTAMP" := vstr (timestamp c)]> (
  <["OTEL_VERSION" := vstr (otel_version c)]> (
  <["SCHEMA_ID" := vstr (schema_id c)]> (
  <["CONSUMER_GROUP" := vstr (consumer_group c)]> (
  <["OWNER_TEAM" := vstr (owner_team c)]> (
  <["OUTPUT_TOPIC" := vstr (output_topic c)]> (
  <["INPUT_TOPIC" := vstr (input_topic c)]> (
  <["NAMESPACE" := vstr (namespace c)]> (
  <["SERVICE_URN" := vstr (service_urn c)]> (
  <["SERVICE_NAME" := vstr (service_name c)]> (asdict c))))))))))))))))).

(** The inner function [replace_var] of [_interpolate]. *)
Definition replace_var (env : Env) (variables : gmap string value)
    (var_name : string) : string :=
  match default (vstr (Re.placeholder var_name)) (variables !! var_name) with
  | VList items => Str.join ", " (py_str env <$> items)
  | VScalar a => py_str env a
  end.

(** [TemplateEngine._interpolate] *)
Definition _interpolate (env : Env) (template : string)
    (variables : gmap string value) : string :=
  Re.sub (replace_var env variables) template.

(** Built-in RUNBOOK.md template. *)
Definition _builtin_runbook_template : string :=
  "# ${SERVICE_NAME} Runbook

## Service Overview

| Attribute | Value |
|-----------|-------|
| **Service URN** | `${SERVICE_URN}` |
| **Owner Team** | ${OWNER_TEAM} |
| **Namespace** | ${NAMESPACE} |
| **Archetypes** | ${ARCHETYPES} |

## Observability

### Metrics

| Metric | Description | Alert Threshold |
|--------|-------------|-----------------|
| `otel_span_count` | Count of OTel spans emitted | < 1/min = warning |
| `kafka_consumer_lag` | Kafka consumer group lag | > 1000 = critical |
| `error_rate` | Error rate (5xx responses) | > 5% = critical |

### Traces

This service emits OpenTelemetry traces for:
- Kafka consumer processing
- Kafka producer sends
- HTTP/gRPC requests

**Trace Attributes:**
- `service.name`: ${SERVICE_NAME}
- `service.namespace`: ${NAMESPACE}
- `x-obs-dataproduct-urn`: ${SERVICE_URN}

### Dashboards

- [Service Dashboard](https://grafana.internal/d/${SERVICE_NAME})
- [Kafka Consumer Lag](https://grafana.internal/d/kafka-lag?var-consumer_group=${CONSUMER_GROUP})

## Common Issues

### High Consumer Lag

**Symptoms:** Kafka consumer lag exceeds threshold

**Investigation:**
1. Check consumer pod health: `kubectl get pods -l app=${SERVICE_NAME}`
2. Check consumer logs: `kubectl logs -l app=${SERVICE_NAME} --tail=100`
3. Verify topic partitions: Check Kafka UI for partition distribution

**Resolution:**
- Scale up consumers if processing is CPU-bound
- Check for slow downstream dependencies
- Verify no poison pill messages

### Missing Traces

**Symptoms:** Spans not appearing in tracing backend

**Investigation:**
1. Check OTel Collector health
2. Verify OTEL_EXPORTER_OTLP_ENDPOINT environment variable
3. Check for sampling configuration

**Resolution:**
- Restart OTel Collector sidecar
- Verify network connectivity to collector

## Contacts

- **On-call Team:** ${OWNER_TEAM}
- **Slack Channel:** #${SERVICE_NAME}-alerts
- **Escalation:** Platform Team

---
*Generated by Instrumentation Autopilot*
*Last Updated: ${TIMESTAMP}*
".

(** Built-in lineage spec template. *)
Definition _builtin_lineage_template : string :=
  "# Lineage Specification for ${SERVICE_NAME}
# Generated by Instrumentation Autopilot

apiVersion: lineage.autopilot.io/v1
kind: LineageSpec
metadata:
  name: ${SERVICE_NAME}
  namespace: ${NAMESPACE}
  labels:
    autopilot.io/managed: "
  +:+ Str.dq +:+ "true"
  +:+ Str.dq +:+ "
    autopilot.io/diff-plan-id: "
  +:+ Str.dq +:+ "${DIFF_PLAN_ID}"
  +:+ Str.dq +:+ "

spec:
  service:
    urn: "
  +:+ Str.dq +:+ "${SERVICE_URN}"
  +:+ Str.dq +:+ "
    name: "
  +:+ Str.dq +:+ "${SERVICE_NAME}"
  +:+ Str.dq +:+ "
    owner: "
  +:+ Str.dq +:+ "${OWNER_TEAM}"
  +:+ Str.dq +:+ "

  inputs:
    - name: input-stream
      type: kafka-topic
      urn: "
  +:+ Str.dq +:+ "urn:kafka:${NAMESPACE}:${INPUT_TOPIC}"
  +:+ Str.dq +:+ "
      schema:
        registry: schema-registry
        subject: "
  +:+ Str.dq +:+ "${INPUT_TOPIC}-value"
  +:+ Str.dq +:+ "

  outputs:
    - name: output-stream
      type: kafka-topic
      urn: "
  +:+ Str.dq +:+ "urn:kafka:${NAMESPACE}:${OUTPUT_TOPIC}"
  +:+ Str.dq +:+ "
      schema:
        registry: schema-registry
        subject: "
  +:+ Str.dq +:+ "${OUTPUT_TOPIC}-value"
  +:+ Str.dq +:+ "

  transformations:
    - name: enrich
      description: "
  +:+ Str.dq +:+ "Enriches input records with additional data"
  +:+ Str.dq +:+ "
      inputs: [input-stream]
      outputs: [output-stream]
      sla:
        latencyP99: 500ms
        throughput: 1000/s
".

(** Built-in data contract template. *)
Definition _builtin_contract_template : string :=
  "# Data Contract for ${SERVICE_NAME}
# Generated by Instrumentation Autopilot

apiVersion: contracts.autopilot.io/v1
kind: DataContract
metadata:
  name: ${SERVICE_NAME}-contract
  namespace: ${NAMESPACE}
  labels:
    autopilot.io/managed: "
  +:+ Str.dq +:+ "true"
  +:+ Str.dq +:+ "
    autopilot.io/diff-plan-id: "
  +:+ Str.dq +:+ "${DIFF_PLAN_ID}"
  +:+ Str.dq +:+ "

spec:
  owner: ${OWNER_TEAM}
  description: "
  +:+ Str.dq +:+ "Data contract for ${SERVICE_NAME} output"
  +:+ Str.dq +:+ "

  dataset:
    urn: "
  +:+ Str.dq +:+ "urn:kafka:${NAMESPACE}:${OUTPUT_TOPIC}"
  +:+ Str.dq +:+ "
    type: kafka-topic

  schema:
    format: avro
    registry: schema-registry
    subject: "
  +:+ Str.dq +:+ "${OUTPUT_TOPIC}-value"
  +:+ Str.dq +:+ "

  slos:
    freshness:
      maxStalenessMinutes: 5
      monitoringWindow: 1h

    volume:
      expectedDailyRecords: 100000
      warningThresholdPercent: 20
      criticalThresholdPercent: 50

    quality:
      nullRateThreshold: 0.01
      duplicateRateThreshold: 0.001

  notifications:
    - channel: slack
      target: "
  +:+ Str.dq +:+ "#${SERVICE_NAME}-alerts"
  +:+ Str.dq +:+ "
      severity: critical

    - channel: pagerduty
      target: ${OWNER_TEAM}-oncall
      severity: critical
".

(** Built-in Java telemetry test template. *)
Definition _builtin_java_test_template : string :=
  "package com.company.${NAMESPACE}.${MODULE_NAME}.otel;

import org.junit.jupiter.api.BeforeEach;
import org.junit.jupiter.api.Test;
import static org.junit.jupiter.api.Assertions.*;

/**
 * Telemetry validation tests for ${SERVICE_NAME}.
 * Generated by: Instrumentation Autopilot
 * Diff Plan ID: ${DIFF_PLAN_ID}
 */
class ${CLASS_NAME}OtelInterceptorTest {

    private static final String TEST_TOPIC = "
  +:+ Str.dq +:+ "${INPUT_TOPIC}"
  +:+ Str.dq +:+ ";
    private static final String TEST_SERVICE = "
  +:+ Str.dq +:+ "${SERVICE_NAME}"
  +:+ Str.dq +:+ ";

    @BeforeEach
    void setUp() {
        // Initialize test tracer
    }

    @Test
    void shouldCreateConsumerSpanForMessage() {
        // Test that consumer span is created with correct attributes
        // messaging.system = "
  +:+ Str.dq +:+ "kafka"
  +:+ Str.dq +:+ "
        // messaging.destination = TEST_TOPIC
        // service.name = TEST_SERVICE
        assertTrue(true, "
  +:+ Str.dq +:+ "Span creation test"
  +:+ Str.dq +:+ ");
    }

    @Test
    void shouldExtractObservabilityHeaders() {
        // Test that x-obs-* headers are extracted as span attributes
        assertTrue(true, "
  +:+ Str.dq +:+ "Header extraction test"
  +:+ Str.dq +:+ ");
    }

    @Test
    void shouldPropagateTraceContext() {
        // Test that trace context is propagated to downstream calls
        assertTrue(true, "
  +:+ Str.dq +:+ "Context propagation test"
  +:+ Str.dq +:+ ");
    }
}
".

(** Built-in Python telemetry test template. *)
Definition _builtin_python_test_template : string :=
  ""
  +:+ Str.dq +:+ ""
  +:+ Str.dq +:+ ""
  +:+ Str.dq +:+ "
Telemetry validation tests for ${SERVICE_NAME}.
Generated by: Instrumentation Autopilot
Diff Plan ID: ${DIFF_PLAN_ID}
"
  +:+ Str.dq +:+ ""
  +:+ Str.dq +:+ ""
  +:+ Str.dq +:+ "

import pytest
from unittest.mock import Mock

TEST_TOPIC = "
  +:+ Str.dq +:+ "${INPUT_TOPIC}"
  +:+ Str.dq +:+ "
TEST_SERVICE = "
  +:+ Str.dq +:+ "${SERVICE_NAME}"
  +:+ Str.dq +:+ "
TEST_CONSUMER_GROUP = "
  +:+ Str.dq +:+ "${CONSUMER_GROUP}"
  +:+ Str.dq +:+ "


class TestOtelKafkaWrapper:
    "
  +:+ Str.dq +:+ ""
  +:+ Str.dq +:+ ""
  +:+ Str.dq +:+ "Test suite for OTel Kafka wrapper instrumentation."
  +:+ Str.dq +:+ ""
  +:+ Str.dq +:+ ""
  +:+ Str.dq +:+ "

    def test_consumer_span_created(self):
        "
  +:+ Str.dq +:+ ""
  +:+ Str.dq +:+ ""
  +:+ Str.dq +:+ "Verify consumer span is created for incoming message."
  +:+ Str.dq +:+ ""
  +:+ Str.dq +:+ ""
  +:+ Str.dq +:+ "
        # Test implementation
        assert True

    def test_trace_context_extraction(self):
        "
  +:+ Str.dq +:+ ""
  +:+ Str.dq +:+ ""
  +:+ Str.dq +:+ "Verify trace context is extracted from Kafka headers."
  +:+ Str.dq +:+ ""
  +:+ Str.dq +:+ ""
  +:+ Str.dq +:+ "
        # Test implementation
        assert True

    def test_correlation_headers_extraction(self):
        "
  +:+ Str.dq +:+ ""
  +:+ Str.dq +:+ ""
  +:+ Str.dq +:+ "Verify x-obs-* headers are extracted as span attributes."
  +:+ Str.dq +:+ ""
  +:+ Str.dq +:+ ""
  +:+ Str.dq +:+ "
        # Test implementation
        assert True

    def test_producer_span_created(self):
        "
  +:+ Str.dq +:+ ""
  +:+ Str.dq +:+ ""
  +:+ Str.dq +:+ "Verify producer span is created when sending message."
  +:+ Str.dq +:+ ""
  +:+ Str.dq +:+ ""
  +:+ Str.dq +:+ "
        # Test implementation
        assert True


if __name__ == "
  +:+ Str.dq +:+ "__main__"
  +:+ Str.dq +:+ ":
    pytest.main([__file__, "
  +:+ Str.dq +:+ "-v"
  +:+ Str.dq +:+ "])
".

(** Built-in Go telemetry test template. *)
Definition _builtin_go_test_template : string :=
  "package otel

import (
	"
  +:+ Str.dq +:+ "context"
  +:+ Str.dq +:+ "
	"
  +:+ Str.dq +:+ "testing"
  +:+ Str.dq +:+ "

	"
  +:+ Str.dq +:+ "github.com/stretchr/testify/assert"
  +:+ Str.dq +:+ "
)

const (
	testTopic         = "
  +:+ Str.dq +:+ "${INPUT_TOPIC}"
  +:+ Str.dq +:+ "
	testService       = "
  +:+ Str.dq +:+ "${SERVICE_NAME}"
  +:+ Str.dq +:+ "
	testConsumerGroup = "
  +:+ Str.dq +:+ "${CONSUMER_GROUP}"
  +:+ Str.dq +:+ "
)

func TestStartConsumerSpan(t *testing.T) {
	// Test that consumer span is created with correct attributes
	ctx := context.Background()
	assert.NotNil(t, ctx)
}

func TestStartProducerSpan(t *testing.T) {
	// Test that producer span is created with correct attributes
	ctx := context.Background()
	assert.NotNil(t, ctx)
}

func TestExtractContext(t *testing.T) {
	// Test that trace context is extracted from headers
	ctx := context.Background()
	assert.NotNil(t, ctx)
}

func TestInjectContext(t *testing.T) {
	// Test that trace context is injected into headers
	ctx := context.Background()
	assert.NotNil(t, ctx)
}
".

(** [TemplateEngine._get_builtin_template] *)
Definition _get_builtin_template (template_type : string) : string :=
  let templates : gmap string string :=
    <["telemetry-test-go" := _builtin_go_test_template]> (
    <["telemetry-test-python" := _builtin_python_test_template]> (
    <["telemetry-test-java" := _builtin_java_test_template]> (
    <["contract-stub" := _builtin_contract_template]> (
    <["lineage-spec" := _builtin_lineage_template]> (
    <["runbook" := _builtin_runbook_template]> ∅))))) in
  get templates template_type "".

(** [TemplateEngine.render_runbook] *)
Definition render_runbook (env : Env) (context : TemplateContext) : string :=
  _interpolate env (_get_builtin_template "runbook") (to_dict env context).

(** [TemplateEngine.render_lineage_spec] *)
Definition render_lineage_spec (env : Env) (context : TemplateContext) : string :=
  _interpolate env (_get_builtin_template "lineage-spec") (to_dict env context).

(** [TemplateEngine.render_contract_stub] *)
Definition render_contract_stub (env : Env) (context : TemplateContext) : string :=
  _interpolate env (_get_builtin_template "contract-stub") (to_dict env context).

(** [TemplateEngine.render_telemetry_test] *)
Definition render_telemetry_test (env : Env) (context : TemplateContext) : string :=
  let template_key := "telemetry-test-" +:+ language context in
  let template := _get_builtin_template template_key in
  let template :=
    if decide (template = "") then _get_builtin_template "telemetry-test-java"
    else template in
  _interpolate env template (to_dict env context).

(** [path / name] on the tree: an empty or [.] component stays in
    place; a name with a separator or [..] is outside the model and
    counts as absent. *)
Definition child (n : node) (name : string) : option node :=
  if decide (name = "" ∨ name = ".") then Some n
  else match n with
       | Dir entries => snd <$> List.find (λ e, String.eqb (fst e) name) entries
       | File _ => None
       end.

Definition is_dir (n : node) : bool :=
  match n with Dir _ => true | File _ => false end.

(** [path.iterdir()]; an [OSError] carries the first words of the message
    of the operating system. *)
Definition iterdir (n : option node) : exn + list (string * node) :=
  match n with
  | Some (Dir entries) => inr entries
  | Some (File _) => inl (OSError "Not a directory")
  | None => inl (OSError "No such file or directory")
  end.

(** [path.glob('*.tmpl')]; nothing is found under a plain file. *)
Definition glob_tmpl (n : node) : list (string * node) :=
  match n with
  | Dir entries => List.filter (λ e, Str.endswith ".tmpl" (fst e)) entries
  | File _ => []
  end.

(** [path.stem] of a name that ends in [.tmpl]: a leading dot starts no
    suffix. *)
Definition stem (name : string) : string :=
  let n := (String.length name - 5)%nat in
  if (n =? 0)%nat then name else String.substring 0 n name.

(** [path.read_text()] *)
Definition read_text (n : node) : exn + string :=
  match n with
  | File text => text
  | Dir _ => inl (OSError "Is a directory")
  end.

(** The second lookup of [_find_template_dir]: the first directory named
    [template_name] inside a language directory. *)
Definition direct_match (lang_dirs : list (string * node)) (template_name : string)
  : option node :=
  head (mjoin ((λ lang_dir,
    match snd lang_dir with
    | Dir template_dirs =>
        snd <$> List.filter
          (λ t, is_dir (snd t) && String.eqb (fst t) template_name) template_dirs
    | File _ => []
    end) <$> lang_dirs)).

(** [TemplateEngine._find_template_dir] *)
Definition _find_template_dir (env : Env) (template_name : string)
  : exn + option node :=
  let root := templates_root env in
  let lang_path :=
    match Str.rsplit1 "-" template_name with
    | Some (base_name, lang) =>
        r ← root; l ← child r lang; child l base_name
    | None => None
    end in
  match lang_path with
  | Some p => inr (Some p)
  | None =>
      match iterdir root with
      | inl e => inl e
      | inr lang_dirs =>
          match direct_match lang_dirs template_name with
          | Some p => inr (Some p)
          | None => inr (r ← root; c ← child r "common"; child c template_name)
          end
      end
  end.

(** [TemplateEngine._get_output_path] *)
Definition _get_output_path (template_name output_name : string)
    (context : TemplateContext) : string :=
  let lang := language context in
  let source_dirs : gmap string string :=
    <["go" := "internal/observability"]> (
    <["python" := "src/" +:+ Str.replace "-" "_" (service_name context)]> (
    <["java" := "src/main/java/com/company/"
                +:+ Str.replace "-" "/" (service_name context)]> ∅)) in
  if Str.endswith ".java" output_name || Str.endswith ".py" output_name
     || Str.endswith ".go" output_name
  then get source_dirs lang "src" +:+ "/" +:+ output_name
  else if Str.endswith ".yaml" output_name || Str.endswith ".yml" output_name
  then if Str.contains "lineage" template_name then "lineage/" +:+ output_name
       else if Str.contains "contract" template_name then "contracts/" +:+ output_name
       else "src/main/resources/" +:+ output_name
  else if Str.endswith ".xml" output_name then output_name
  else if Str.endswith ".mod" output_name then output_name
  else output_name.

(** [TemplateEngine.render_template] *)
Definition render_template (env : Env) (template_name : string)
    (context : TemplateContext) : M (list (string * string)) :=
  emit (TemplateLookup template_name);;
  template_dir ← lift (_find_template_dir env template_name);
  match template_dir with
  | None => raise (ValueError ("Template not found: " +:+ template_name))
  | Some dir =>
      let variables := to_dict env context in
      for_fold (glob_tmpl dir) (λ rendered_files template_file,
        let output_name := _interpolate env (stem (fst template_file)) variables in
        template_content ← lift (read_text (snd template_file));
        let rendered_content := _interpolate env template_content variables in
        let output_path := _get_output_path template_name output_name context in
        ret (dict_set output_path rendered_content rendered_files)) []
  end.

(** ** generate_pr.py *)

Record PRAuthorConfig := {
  templates_path : string;
  default_branch : string;
  branch_prefix : string;
  pr_labels : list string;
  confidence_threshold : Q;
  auto_create_pr : bool;
  require_human_review : bool
}.

(** [PRAuthorConfig()] with the defaults of the dataclass. *)
Definition default_config : PRAuthorConfig :=
  {| templates_path := "./references/templates";
     default_branch := "main";
     branch_prefix := "autopilot/observability";
     pr_labels := ["autopilot"; "observability"];
     confidence_threshold := 7 # 10;
     auto_create_pr := true;
     require_human_review := true |}.

Record GeneratedArtifact := {
  file_path : string;
  content : string;
  action : string;
  template : option string
}.

(** A gap, a patch instruction and the tech-stack descriptor are dicts of
    strings. *)
Abbreviation Gap := (gmap string string).
Abbreviation Patch := (gmap string string).

(** The Diff Plan: a dict with the keys below, each present ([Some]) or
    not, holding a value of the type the data model gives it. *)
Record DiffPlan := {
  dp_repo : option string;
  dp_archetypes : option (list string);
  dp_confidence : option Q;
  dp_tech_stack : option (gmap string string);
  dp_gaps : option (list Gap);
  dp_patch_plan : option (list Patch);
  dp_scan_timestamp : option string;
  dp_diff_plan_id : option string
}.

(** [key in diff_plan] *)
Definition has_key (diff_plan : DiffPlan) (key : string) : bool :=
  if decide (key = "repo") then bool_decide (is_Some (dp_repo diff_plan))
  else if decide (key = "archetypes") then bool_decide (is_Some (dp_archetypes diff_plan))
  else if decide (key = "confidence") then bool_decide (is_Some (dp_confidence diff_plan))
  else if decide (key = "tech_stack") then bool_decide (is_Some (dp_tech_stack diff_plan))
  else if decide (key = "gaps") then bool_decide (is_Some (dp_gaps diff_plan))
  else if decide (key = "patch_plan") then bool_decide (is_Some (dp_patch_plan diff_plan))
  else if decide (key = "scan_timestamp")
       then bool_decide (is_Some (dp_scan_timestamp diff_plan))
  else if decide (key = "diff_plan_id")
       then bool_decide (is_Some (dp_diff_plan_id diff_plan))
  else false.

(** [diff_plan[key]] for a field [field] stored under [key]. *)
Definition plan_getitem {A} (field : option A) (key : string) : exn + A :=
  match field with
  | Some v => inr v
  | None => inl (KeyError key)
  end.

(** The value returned by [process_diff_plan], by its ["status"]:
    ["skipped"], ["dry_run"], ["success"] and ["artifacts_generated"]. *)
Inductive PublishResult :=
| Skipped (reason : string) (plan_id : option string)
| DryRun (plan_id : option string) (artifacts : list (string * string))
         (pr_description : string)
| Published (plan_id : option string) (pr_number : option Z)
            (pr_url : option string) (branch : string) (files_changed : nat)
            (archetypes : list string) (gaps_addressed : list string)
| ArtifactsGenerated (plan_id : option string) (artifacts_count : nat).

(** [x < y] on floats. *)
Definition float_lt (x y : Q) : bool := negb (Qle_bool y x).

Definition required_fields : list string :=
  ["repo"; "archetypes"; "confidence"; "tech_stack"; "gaps"].

(** [PRAuthorAgent._validate_diff_plan] *)
Definition _validate_diff_plan (diff_plan : DiffPlan) : exn + unit :=
  let missing := List.filter (λ f, negb (has_key diff_plan f)) required_fields in
  match missing with
  | _ :: _ =>
      inl (ValueError ("Invalid Diff Plan: missing fields " +:+ Str.repr_list missing))
  | [] =>
      match plan_getitem (dp_archetypes diff_plan) "archetypes" with
      | inl e => inl e
      | inr [] => inl (ValueError "Diff Plan has no archetypes detected")
      | inr (_ :: _) => inr tt
      end
  end.

(** [PRAuthorAgent._get_owner_team] *)
Definition _get_owner_team (repo_url : string) : string := "platform-team".

(** [PRAuthorAgent._get_otel_version] *)
Definition _get_otel_version (language : string) : string :=
  let versions : gmap string string :=
    <["go" := "1.24.0"]> (<["python" := "1.22.0"]> (<["java" := "1.32.0"]> ∅)) in
  get versions language "1.32.0".

(** [PRAuthorAgent._build_template_context] *)
Definition _build_template_context (env : Env) (diff_plan : DiffPlan)
    (repo_url : string) : M TemplateContext :=
  repo_name ← lift (plan_getitem (dp_repo diff_plan) "repo");
  let tech_stack := default ∅ (dp_tech_stack diff_plan) in
  let kafka :=
    existsb (λ gap : Gap, Str.contains "kafka" (Str.lower (get gap "template" "")))
            (default [] (dp_gaps diff_plan)) in
  let input_topic := if kafka then repo_name +:+ "_input" else "" in
  let output_topic := if kafka then repo_name +:+ "_output" else "" in
  emit ClockRead;;
  confidence ← lift (plan_getitem (dp_confidence diff_plan) "confidence");
  archetypes ← lift (plan_getitem (dp_archetypes diff_plan) "archetypes");
  ret (__post_init__
    {| service_name := repo_name;
       service_urn := "urn:svc:prod:" +:+ repo_name;
       namespace :=
         if Str.contains_char "-" repo_name
         then default "" (head (Str.split "-" repo_name))
         else "default";
       input_topic := input_topic;
       output_topic := output_topic;
       owner_team := _get_owner_team repo_url;
       consumer_group := repo_name +:+ "-cg";
       schema_id := repo_name +:+ ".v1";
       otel_version := _get_otel_version (get tech_stack "language" "java");
       timestamp := utc_now_isoformat env;
       diff_plan_id := default ("dp-" +:+ repo_name) (dp_diff_plan_id diff_plan);
       confidence := confidence;
       archetypes := archetypes;
       language := get tech_stack "language" "java" |}).

(** [PRAuthorAgent._get_test_path] *)
Definition _get_test_path (context : TemplateContext) : string :=
  let lang := language context in
  let service_name := service_name context in
  let test_paths : gmap string string :=
    <["go" := "internal/observability/otel_test.go"]> (
    <["python" := "tests/test_otel_" +:+ Str.replace "-" "_" service_name +:+ ".py"]> (
    <["java" := "src/test/java/com/company/" +:+ Str.replace "-" "/" service_name
                +:+ "/otel/" +:+ Str.title (Str.replace "-" "" service_name)
                +:+ "OtelInterceptorTest.java"]> ∅)) in
  get test_paths lang ("tests/test_telemetry." +:+ lang).

(** [[g["type"] for g in diff_plan.get("gaps", [])]] *)
Definition gap_types (diff_plan : DiffPlan) : exn + list string :=
  list_comp (default [] (dp_gaps diff_plan)) (λ g : Gap, getitem g "type").

(** [x in items] *)
Definition str_in (x : string) (items : list string) : bool :=
  bool_decide (x ∈ items).

(** The body of the loop over the gaps in [_generate_artifacts]. *)
Definition render_gap (env : Env) (context : TemplateContext)
    (artifacts : list GeneratedArtifact) (gap : Gap) : M (list GeneratedArtifact) :=
  let template_name := get gap "template" "" in
  if decide (template_name = "") then ret artifacts
  else
    try_except
      (rendered_files ← render_template env template_name context;
       ret (artifacts ++
            ((λ f, {| file_path := fst f; content := snd f; action := "create";
                      template := Some template_name |}) <$> rendered_files)))
      (λ e,
       emit (Print ("  Warning: Failed to render template " +:+ template_name
                    +:+ ": " +:+ exn_str e));;
       ret artifacts).

(** The body of the loop over the patch plan in [_generate_artifacts]. *)
Definition apply_patch (artifacts : list GeneratedArtifact) (patch : Patch)
  : M (list GeneratedArtifact) :=
  file ← lift (getitem patch "file");
  let content := get patch "content" "" in
  action ← lift (getitem patch "action");
  ret (artifacts ++ [{| file_path := file; content := content; action := action;
                        template := None |}]).

(** [PRAuthorAgent._generate_artifacts] *)
Definition _generate_artifacts (env : Env) (diff_plan : DiffPlan)
    (context : TemplateContext) : M (list GeneratedArtifact) :=
  artifacts ← for_fold (default [] (dp_gaps diff_plan)) (render_gap env context) [];
  artifacts ← for_fold (default [] (dp_patch_plan diff_plan)) apply_patch artifacts;
  let artifacts :=
    if negb (existsb (λ a, String.eqb (file_path a) "RUNBOOK.md") artifacts)
    then artifacts ++ [{| file_path := "RUNBOOK.md";
                          content := render_runbook env context;
                          action := "create"; template := Some "runbook" |}]
    else artifacts in
  types ← lift (gap_types diff_plan);
  let artifacts :=
    if str_in "missing_lineage_spec" types
    then artifacts ++ [{| file_path := "lineage/" +:+ service_name context +:+ ".yaml";
                          content := render_lineage_spec env context;
                          action := "create"; template := Some "lineage-spec" |}]
    else artifacts in
  types ← lift (gap_types diff_plan);
  let artifacts :=
    if str_in "missing_contract" types
    then artifacts ++ [{| file_path := "contracts/" +:+ service_name context +:+ ".yaml";
                          content := render_contract_stub env context;
                          action := "create"; template := Some "contract-stub" |}]
    else artifacts in
  instrumentation_gaps ← lift (filter_comp (default [] (dp_gaps diff_plan))
    (λ g : Gap,
     match getitem g "type" with
     | inl e => inl e
     | inr t => inr (str_in t ["missing_otel"; "missing_correlation"])
     end));
  match instrumentation_gaps with
  | _ :: _ =>
      ret (artifacts ++ [{| file_path := _get_test_path context;
                            content := render_telemetry_test env context;
                            action := "create"; template := Some "telemetry-test" |}])
  | [] => ret artifacts
  end.

(** [a.template or 'patch'] *)
Definition template_or_patch (a : GeneratedArtifact) : string :=
  match template a with
  | Some t => if decide (t = "") then "patch" else t
  | None => "patch"
  end.

(** One line of [gaps_list] in [_generate_pr_description]. *)
Definition gap_line (gap : Gap) : exn + string :=
  match getitem gap "priority" with
  | inl e => inl e
  | inr priority =>
      match getitem gap "type" with
      | inl e => inl e
      | inr type =>
          match getitem gap "description" with
          | inl e => inl e
          | inr description =>
              inr ("- [" +:+ priority +:+ "] " +:+ type +:+ ": " +:+ description)
          end
      end
  end.

(** [PRAuthorAgent._generate_pr_description] *)
Definition _generate_pr_description (env : Env) (diff_plan : DiffPlan)
    (artifacts : list GeneratedArtifact) (context : TemplateContext)
  : exn + string :=
  let changes_list :=
    Str.join Str.nl
      ((λ a, "- `" +:+ file_path a +:+ "` (" +:+ action a +:+ ")") <$> artifacts) in
  match list_comp (default [] (dp_gaps diff_plan)) gap_line with
  | inl e => inl e
  | inr gap_lines =>
      let gaps_list := Str.join Str.nl gap_lines in
      let files_list :=
        Str.join Str.nl
          ((λ a, "| `" +:+ file_path a +:+ "` | " +:+ action a +:+ " | "
                 +:+ template_or_patch a +:+ " |") <$> artifacts) in
      inr ("## Autopilot: Observability Instrumentation

This PR was generated by the Instrumentation Autopilot to add observability
instrumentation to this repository based on Scout Agent analysis.

### Summary
- **Archetypes Detected**: " +:+ Str.join ", " (archetypes context) +:+ "
- **Confidence Score**: " +:+ format_float env ".0%" (confidence context) +:+ "
- **Diff Plan ID**: " +:+ diff_plan_id context +:+ "

### Changes
" +:+ changes_list +:+ "

### Gaps Addressed
" +:+ gaps_list +:+ "

### Files Modified
| File | Action | Template |
|------|--------|----------|
" +:+ files_list +:+ "

### Verification Checklist
- [ ] Code review approved by domain expert
- [ ] Unit tests passing
- [ ] Lineage spec reviewed for accuracy
- [ ] Contract SLOs appropriate for data tier
- [ ] RUNBOOK.md reviewed for operational accuracy

### Next Steps
After merge, the **Telemetry Validator** will automatically verify signals in staging.
Gate 1 checks will run as part of this PR's CI pipeline.

### Need Help?
- [Observability Runbook](./RUNBOOK.md)
- [Instrumentation Autopilot Docs](https://docs.internal/autopilot)
- Contact: #observability-support

---
*Generated by Instrumentation Autopilot v1.0*
*Scout Agent Scan: " +:+ default "N/A" (dp_scan_timestamp diff_plan) +:+ "*
*PR Author: " +:+ timestamp context +:+ "*
")
  end.

(** The dict comprehension [{a.file_path: a.content for a in artifacts}]:
    a later artifact overwrites an earlier one at the same path. *)
Definition files_to_commit (artifacts : list GeneratedArtifact) : gmap string string :=
  foldl (λ files a, <[file_path a := content a]> files) ∅ artifacts.

(** [PRAuthorAgent._create_pull_request] *)
Definition _create_pull_request (env : Env) (config : PRAuthorConfig)
    (repo_url : string) (diff_plan : DiffPlan)
    (artifacts : list GeneratedArtifact) (pr_description : string)
  : M PublishResult :=
  repo_name ← lift (plan_getitem (dp_repo diff_plan) "repo");
  emit ClockRead;;
  let timestamp := now_timestamp env in
  let branch_name :=
    branch_prefix config +:+ "-" +:+ repo_name +:+ "-" +:+ pretty timestamp in
  emit (Print ("  Creating branch: " +:+ branch_name));;
  emit (CreateBranch repo_url branch_name (default_branch config));;
  lift (vcs_create_branch env repo_url branch_name (default_branch config));;
  let files := files_to_commit artifacts in
  emit (Print ("  Committing " +:+ pretty (size files) +:+ " files..."));;
  types ← lift (gap_types diff_plan);
  confidence ← lift (plan_getitem (dp_confidence diff_plan) "confidence");
  let commit_message :=
    "feat(observability): Add instrumentation via Autopilot

Addresses gaps detected by Scout Agent:
" +:+ Str.join Str.nl ((λ t, "- " +:+ t) <$> types) +:+ "

Diff Plan ID: " +:+ default "N/A" (dp_diff_plan_id diff_plan) +:+ "
Confidence: " +:+ format_float env ".0%" confidence +:+ "
" in
  emit (CommitFiles repo_url branch_name files commit_message);;
  lift (vcs_commit_files env repo_url branch_name files commit_message);;
  archetypes ← lift (plan_getitem (dp_archetypes diff_plan) "archetypes");
  let archetypes_labels := (λ a, "archetype:" +:+ a) <$> take 2 archetypes in
  let labels := pr_labels config ++ archetypes_labels in
  let pr_title :=
    "feat(observability): Add " +:+ Str.join ", " (take 2 archetypes)
    +:+ " instrumentation" in
  emit (Print ("  Creating PR: " +:+ pr_title));;
  emit (CreatePullRequest repo_url pr_title pr_description branch_name
          (default_branch config) labels);;
  pr_result ← lift (vcs_create_pull_request env repo_url pr_title pr_description
                      branch_name (default_branch config) labels);
  emit (Print ("  PR created: " +:+ default "N/A" (url pr_result)));;
  types ← lift (gap_types diff_plan);
  ret (Published (dp_diff_plan_id diff_plan) (number pr_result) (url pr_result)
         branch_name (length artifacts) archetypes types).

(** [PRAuthorAgent.process_diff_plan] *)
Definition process_diff_plan (env : Env) (config : PRAuthorConfig)
    (diff_plan : DiffPlan) (repo_url : string) (dry_run : bool)
  : M PublishResult :=
  lift (_validate_diff_plan diff_plan);;
  let confidence := default 0%Q (dp_confidence diff_plan) in
  if float_lt confidence (confidence_threshold config)
  then
    ret (Skipped ("Confidence " +:+ format_float env ".2f" confidence
                  +:+ " below threshold "
                  +:+ format_float env "" (confidence_threshold config))
                 (dp_diff_plan_id diff_plan))
  else
    repo ← lift (plan_getitem (dp_repo diff_plan) "repo");
    emit (Print ("Processing Diff Plan for: " +:+ repo));;
    archetypes ← lift (plan_getitem (dp_archetypes diff_plan) "archetypes");
    emit (Print ("  Archetypes: " +:+ Str.join ", " archetypes));;
    emit (Print ("  Confidence: " +:+ format_float env ".0%" confidence));;
    emit (Print ("  Gaps: " +:+ pretty (length (default [] (dp_gaps diff_plan)))));;
    context ← _build_template_context env diff_plan repo_url;
    emit (Print (Str.nl +:+ "Generating artifacts..."));;
    artifacts ← _generate_artifacts env diff_plan context;
    emit (Print ("  Generated " +:+ pretty (length artifacts) +:+ " files"));;
    pr_description ← lift (_generate_pr_description env diff_plan artifacts context);
    if dry_run
    then
      ret (DryRun (dp_diff_plan_id diff_plan)
             ((λ a, (file_path a, action a)) <$> artifacts) pr_description)
    else if auto_create_pr config
    then
      emit (Print (Str.nl +:+ "Creating Pull Request..."));;
      _create_pull_request env config repo_url diff_plan artifacts pr_description
    else
      ret (ArtifactsGenerated (dp_diff_plan_id diff_plan) (length artifacts)).

(** ** Well-formed plans *)

(** A gap that carries the three keys the pipeline reads with [gap[...]]. *)
Definition gap_complete (g : Gap) : bool :=
  bool_decide (is_Some (g !! "type")) && bool_decide (is_Some (g !! "priority"))
  && bool_decide (is_Some (g !! "description")).

Definition gap_typed (g : Gap) : bool := bool_decide (is_Some (g !! "type")).

(** A patch instruction that carries the two keys read with [patch[...]]. *)
Definition patch_complete (p : Patch) : bool :=
  bool_decide (is_Some (p !! "file")) && bool_decide (is_Some (p !! "action")).

Definition gaps_complete (diff_plan : DiffPlan) : bool :=
  forallb gap_complete (default [] (dp_gaps diff_plan)).
Definition gaps_typed (diff_plan : DiffPlan) : bool :=
  forallb gap_typed (default [] (dp_gaps diff_plan)).
Definition patches_complete (diff_plan : DiffPlan) : bool :=
  forallb patch_complete (default [] (dp_patch_plan diff_plan)).

(** The VCS client raises on no call. *)
Definition gateway_ok (env : Env) : Prop :=
  (∀ u b d, vcs_create_branch env u b d = inr tt)
  ∧ (∀ u b f m, vcs_commit_files env u b f m = inr tt)
  ∧ (∀ u t d h b l, ∃ pr, vcs_create_pull_request env u t d h b l = inr pr).

Definition no_vcs_call (trace : list event) : Prop :=
  Forall (λ ev, is_vcs_call ev = false) trace.

(** A computation that calls the VCS client on no path. *)
Definition quiet {A} (m : M A) : Prop := no_vcs_call (snd m).

(** The branch a run publishes to. *)
Definition branch_of (env : Env) (config : PRAuthorConfig) (repo : string) : string :=
  branch_prefix config +:+ "-" +:+ repo +:+ "-" +:+ pretty (now_timestamp env).

(** The file set of the first commit a trace records. *)
Fixpoint committed (trace : list event) : option (gmap string string) :=
  match trace with
  | [] => None
  | CommitFiles _ _ files _ :: _ => Some files
  | _ :: rest => committed rest
  end.

Definition is_dry_run (r : PublishResult) : bool :=
  match r with DryRun _ _ _ => true | _ => false end.
Definition is_published (r : PublishResult) : bool :=
  match r with Published _ _ _ _ _ _ _ => true | _ => false end.

(** The plan with another list of gaps. *)
Definition with_gaps (diff_plan : DiffPlan) (gaps : list Gap) : DiffPlan :=
  {| dp_repo := dp_repo diff_plan; dp_archetypes := dp_archetypes diff_plan;
     dp_confidence := dp_confidence diff_plan;
     dp_tech_stack := dp_tech_stack diff_plan; dp_gaps := Some gaps;
     dp_patch_plan := dp_patch_plan diff_plan;
     dp_scan_timestamp := dp_scan_timestamp diff_plan;
     dp_diff_plan_id := dp_diff_plan_id diff_plan |}.

(** The artifacts the template of a gap gives: one for each file
    [render_template] returns for it, in the order of that dictionary;
    none when the gap names no template or [render_template] raises. *)
Definition rendered (env : Env) (context : TemplateContext) (gap : Gap)
  : list GeneratedArtifact :=
  match gap !! "template" with
  | None => []
  | Some name =>
      if decide (name = "") then []
      else match fst (render_template env name context) with
           | inr files =>
               (λ f, {| file_path := fst f; content := snd f; action := "create";
                        template := Some name |}) <$> files
           | inl _ => []
           end
  end.

(** The artifact a complete patch instruction becomes. *)
Definition patch_artifact (p : Patch) : GeneratedArtifact :=
  {| file_path := get p "file" ""; content := get p "content" "";
     action := get p "action" ""; template := None |}.

(** The artifacts of the always-on rules of [_generate_artifacts]. *)
Definition runbook_artifact (env : Env) (context : TemplateContext) : GeneratedArtifact :=
  {| file_path := "RUNBOOK.md"; content := render_runbook env context;
     action := "create"; template := Some "runbook" |}.
Definition lineage_artifact (env : Env) (context : TemplateContext) : GeneratedArtifact :=
  {| file_path := "lineage/" +:+ service_name context +:+ ".yaml";
     content := render_lineage_spec env context;
     action := "create"; template := Some "lineage-spec" |}.
Definition contract_artifact (env : Env) (context : TemplateContext) : GeneratedArtifact :=
  {| file_path := "contracts/" +:+ service_name context +:+ ".yaml";
     content := render_contract_stub env context;
     action := "create"; template := Some "contract-stub" |}.
Definition test_artifact (env : Env) (context : TemplateContext) : GeneratedArtifact :=
  {| file_path := _get_test_path context;
     content := render_telemetry_test env context;
     action := "create"; template := Some "telemetry-test" |}.

(** The types of the gaps of a plan whose gaps all carry one. *)
Definition types_of (diff_plan : DiffPlan) : list string :=
  (λ g : Gap, get g "type" "") <$> default [] (dp_gaps diff_plan).

(** The list [_generate_artifacts] returns when no key lookup fails:
    rendered gap templates, patch instructions, then the runbook, the
    lineage spec, the contract stub and the telemetry test, each under
    its condition. *)
Definition artifact_list (env : Env) (diff_plan : DiffPlan)
    (context : TemplateContext) : list GeneratedArtifact :=
  let from_gaps := mjoin (rendered env context <$> default [] (dp_gaps diff_plan)) in
  let from_patches := patch_artifact <$> default [] (dp_patch_plan diff_plan) in
  let listed := from_gaps ++ from_patches in
  listed
  ++ (if existsb (λ a, String.eqb (file_path a) "RUNBOOK.md") listed then []
      else [runbook_artifact env context])
  ++ (if str_in "missing_lineage_spec" (types_of diff_plan)
      then [lineage_artifact env context] else [])
  ++ (if str_in "missing_contract" (types_of diff_plan)
      then [contract_artifact env context] else [])
  ++ (if existsb (λ t, str_in t ["missing_otel"; "missing_correlation"])
                 (types_of diff_plan)
      then [test_artifact env context] else []).

(** The number of artifacts at [path]. *)
Definition count_path (path : string) (artifacts : list GeneratedArtifact) : nat :=
  length (List.filter (λ a, String.eqb (file_path a) path) artifacts).

(** ** An example environment *)

Module Example.

(** Decimal formatting by exact arithmetic, ties to even: what CPython
    prints for a float whose decimal expansion is short. *)
Definition round_half_even (x : Q) : Z :=
  let n := Qnum x in
  let d := Zpos (Qden x) in
  let f := (n / d)%Z in
  let r := (2 * (n - f * d))%Z in
  if (r <? d)%Z then f
  else if (d <? r)%Z then (f + 1)%Z
  else if Z.even f then f else (f + 1)%Z.

Fixpoint zero_pad (width : nat) (s : string) : string :=
  match width with
  | O => s
  | S w => if (String.length s <? width)%nat then zero_pad w ("0" +:+ s) else s
  end.

(** [format(x, '.<digits>f')] *)
Definition format_fixed (digits : nat) (x : Q) : string :=
  let scale := (10 ^ Z.of_nat digits)%Z in
  let m := round_half_even (x * inject_Z scale) in
  let a := Z.abs m in
  (if (m <? 0)%Z then "-" else "") +:+ pretty (a / scale)%Z
  +:+ (if (digits =? 0)%nat then ""
       else "." +:+ zero_pad digits (pretty (a mod scale)%Z)).

(** [str(x)] for a float with at most two decimals. *)
Definition format_short (x : Q) : string :=
  let s := format_fixed 2 x in
  if Str.endswith "0" s then String.substring 0 (String.length s - 1) s else s.

Definition format (spec : string) (x : Q) : string :=
  if decide (spec = ".2f") then format_fixed 2 x
  else if decide (spec = ".0%") then format_fixed 0 (x * 100) +:+ "%"
  else format_short x.

(** No template directory on disk, and a VCS backend that accepts every
    call and opens pull request 7. *)
Definition env : Env :=
  {| format_float := format;
     utc_now_isoformat := "2026-01-04T10:30:00+00:00";
     now_timestamp := 1767522600;
     templates_root := None;
     vcs_create_branch := λ _ _ _, inr tt;
     vcs_commit_files := λ _ _ _ _, inr tt;
     vcs_create_pull_request := λ _ _ _ _ _ _,
       inr {| number := Some 7%Z; url := Some "https://github.com/acme/pull/7" |} |}.

Definition repo_url : string := "https://github.com/acme/orders-enricher".

(** A template directory with one Java template of two files and a
    Python template whose only file cannot be read. *)
Definition templates : node :=
  Dir [("java",
        Dir [("kafka-consumer-otel",
              Dir [("${CLASS_NAME}OtelInterceptor.java.tmpl",
                    File (inr "class ${CLASS_NAME}OtelInterceptor {}"));
                   ("application.yaml.tmpl",
                    File (inr "service: ${SERVICE_NAME}"));
                   ("README.md", File (inr "not a template"))])]);
       ("python",
        Dir [("kafka-consumer-otel",
              Dir [("wrapper.py.tmpl", File (inl (OSError "Permission denied")))])])].

(** [env] with the template directory [templates]. *)
Definition env_with_templates : Env :=
  {| format_float := format;
     utc_now_isoformat := "2026-01-04T10:30:00+00:00";
     now_timestamp := 1767522600;
     templates_root := Some templates;
     vcs_create_branch := λ _ _ _, inr tt;
     vcs_commit_files := λ _ _ _ _, inr tt;
     vcs_create_pull_request := λ _ _ _ _ _ _,
       inr {| number := Some 7%Z; url := Some "https://github.com/acme/pull/7" |} |}.

Definition otel_gap : Gap :=
  <["template" := "kafka-consumer-otel-java"]> (
  <["description" := "no spans"]> (
  <["priority" := "P1"]> (
  <["type" := "missing_otel"]> ∅))).

(** The example plan of the specification. *)
Definition plan : DiffPlan :=
  {| dp_repo := Some "orders-enricher";
     dp_archetypes := Some ["kafka-microservice"];
     dp_confidence := Some (87 # 100);
     dp_tech_stack := Some (<["language" := "java"]> ∅);
     dp_gaps := Some [otel_gap];
     dp_patch_plan := None;
     dp_scan_timestamp := None;
     dp_diff_plan_id := None |}.

(** The context [_build_template_context] derives from [plan] in an
    environment [e]. *)
Definition context_in (e : Env) : TemplateContext :=
  {| service_name := "orders-enricher";
     service_urn := "urn:svc:prod:orders-enricher";
     namespace := "orders";
     input_topic := "orders-enricher_input";
     output_topic := "orders-enricher_output";
     owner_team := "platform-team";
     consumer_group := "orders-enricher-cg";
     schema_id := "orders-enricher.v1";
     otel_version := "1.32.0";
     timestamp := utc_now_isoformat e;
     diff_plan_id := "dp-orders-enricher";
     confidence := 87 # 100;
     archetypes := ["kafka-microservice"];
     language := "java" |}.

Definition context : TemplateContext := context_in env.

(** A plan without gaps whose patch plan writes the lineage path and
    writes [config/app.yaml] twice. *)
Definition patched_plan : DiffPlan :=
  {| dp_repo := Some "billing";
     dp_archetypes := Some ["rest-service"];
     dp_confidence := Some (9 # 10);
     dp_tech_stack := Some (<["language" := "python"]> ∅);
     dp_gaps := Some [];
     dp_patch_plan :=
       Some [<["action" := "create"]> (<["file" := "lineage/billing.yaml"]> ∅);
             <["content" := "mode: a"]> (
             <["action" := "create"]> (<["file" := "config/app.yaml"]> ∅));
             <["content" := "mode: b"]> (
             <["action" := "modify"]> (<["file" := "config/app.yaml"]> ∅))];
     dp_scan_timestamp := None;
     dp_diff_plan_id := Some "dp-42" |}.

Definition patched_context : TemplateContext :=
  {| service_name := "billing";
     service_urn := "urn:svc:prod:billing";
     namespace := "default";
     input_topic := "";
     output_topic := "";
     owner_team := "platform-team";
     consumer_group := "billing-cg";
     schema_id := "billing.v1";
     otel_version := "1.22.0";
     timestamp := "2026-01-04T10:30:00+00:00";
     diff_plan_id := "dp-42";
     confidence := 9 # 10;
     archetypes := ["rest-service"];
     language := "python" |}.

(** A plan that passes validation with a gap that has no type. *)
Definition untyped_plan (confidence : Q) : DiffPlan :=
  {| dp_repo := Some "billing";
     dp_archetypes := Some ["rest-service"];
     dp_confidence := Some confidence;
     dp_tech_stack := Some ∅;
     dp_gaps := Some [<["description" := "no spans"]> (<["priority" := "P1"]> ∅)];
     dp_patch_plan := None;
     dp_scan_timestamp := None;
     dp_diff_plan_id := None |}.

(** [untyped_plan] without one of its keys. *)
Definition untyped_plan_without (key : string) : DiffPlan :=
  let p := untyped_plan (9 # 10) in
  {| dp_repo := if decide (key = "repo") then None else dp_repo p;
     dp_archetypes := if decide (key = "archetypes") then None else dp_archetypes p;
     dp_confidence := if decide (key = "confidence") then None else dp_confidence p;
     dp_tech_stack := if decide (key = "tech_stack") then None else dp_tech_stack p;
     dp_gaps := if decide (key = "gaps") then None else dp_gaps p;
     dp_patch_plan := None;
     dp_scan_timestamp := None;
     dp_diff_plan_id := None |}.

(** A plan with one gap, of type [missing_lineage_spec]. *)
Definition lineage_plan : DiffPlan :=
  {| dp_repo := Some "billing";
     dp_archetypes := Some ["rest-service"];
     dp_confidence := Some (9 # 10);
     dp_tech_stack := Some (<["language" := "python"]> ∅);
     dp_gaps := Some [<["description" := "no lineage"]> (
                      <["priority" := "P2"]> (
                      <["type" := "missing_lineage_spec"]> ∅))];
     dp_patch_plan := None;
     dp_scan_timestamp := None;
     dp_diff_plan_id := Some "dp-42" |}.

(** The default configuration with auto-publish switched off. *)
Definition manual_config : PRAuthorConfig :=
  {| templates_path := "./references/templates";
     default_branch := "main";
     branch_prefix := "autopilot/observability";
     pr_labels := ["autopilot"; "observability"];
     confidence_threshold := 7 # 10;
     auto_create_pr := false;
     require_human_review := true |}.

End Example.

(** ** Placeholders of a template *)

Module Placeholders.

(** The names the pattern captures in [s], leftmost first: the matches
    [pattern.sub] replaces. *)
Fixpoint names_from (fuel : nat) (s : string) : list string :=
  match fuel with
  | O => []
  | S n =>
      match Re.match_variable s with
      | Some (name, rest) => name :: names_from n rest
      | None =>
          match s with
          | "" => []
          | String _ r => names_from n r
          end
      end
  end.

Definition names (s : string) : list string := names_from (String.length s) s.

(** Every dollar sign of [s] opens a placeholder. *)
Definition dollars_matched (s : string) : bool :=
  negb (Str.contains_char "$" (Re.sub (λ _, "") s)).

(** The string form [replace_var] gives a bound value. *)
Definition value_str (env : Env) (v : value) : string :=
  match v with
  | VList items => Str.join ", " (py_str env <$> items)
  | VScalar a => py_str env a
  end.

(** No value of the mapping prints a dollar sign. *)
Definition dollar_free (env : Env) (variables : gmap string value) : Prop :=
  map_Forall (λ _ v, Str.contains_char "$" (value_str env v) = false) variables.

End Placeholders.

(** The artifacts listed before the always-on rules run. *)
Definition listed_artifacts (env : Env) (diff_plan : DiffPlan)
    (context : TemplateContext) : list GeneratedArtifact :=
  mjoin (rendered env context <$> default [] (dp_gaps diff_plan))
  ++ (patch_artifact <$> default [] (dp_patch_plan diff_plan)).

(** The calls to the VCS client a trace records, in order. *)
Definition vcs_calls (trace : list event) : list event :=
  List.filter is_vcs_call trace.

(** The title and the labels [_create_pull_request] gives the pull
    request. *)
Definition pr_title_of (archetypes : list string) : string :=
  "feat(observability): Add " +:+ Str.join ", " (take 2 archetypes)
  +:+ " instrumentation".
Definition pr_labels_of (config : PRAuthorConfig) (archetypes : list string)
  : list string :=
  pr_labels config ++ ((λ a, "archetype:" +:+ a) <$> take 2 archetypes).

(** ** Further example inputs *)

Module Scenario.

(** [Example.env] with a VCS backend whose commit call gives up. *)
Definition commit_fails : Env :=
  {| format_float := Example.format;
     utc_now_isoformat := "2026-01-04T10:30:00+00:00";
     now_timestamp := 1767522600;
     templates_root := None;
     vcs_create_branch := λ _ _ _, inr tt;
     vcs_commit_files := λ _ _ _ _, inl (RuntimeError "Max retries exceeded");
     vcs_create_pull_request := λ _ _ _ _ _ _,
       inr {| number := Some 7%Z; url := Some "https://github.com/acme/pull/7" |} |}.

(** A plan whose only gap has a type and a description but no priority. *)
Definition unprioritized_plan : DiffPlan :=
  {| dp_repo := Some "billing";
     dp_archetypes := Some ["rest-service"; "spring-boot"; "batch"];
     dp_confidence := Some (9 # 10);
     dp_tech_stack := Some (<["language" := "go"]> ∅);
     dp_gaps := Some [<["description" := "no spans"]> (<["type" := "missing_otel"]> ∅)];
     dp_patch_plan := None;
     dp_scan_timestamp := None;
     dp_diff_plan_id := None |}.

(** [Example.env] read at another epoch time, with another VCS backend. *)
Definition other_backend : Env :=
  {| format_float := Example.format;
     utc_now_isoformat := "2026-01-04T10:30:00+00:00";
     now_timestamp := 1767522642;
     templates_root := None;
     vcs_create_branch := λ _ _ _, inr tt;
     vcs_commit_files := λ _ _ _ _, inr tt;
     vcs_create_pull_request := λ _ _ _ _ _ _,
       inr {| number := Some 8%Z; url := None |} |}.


End Scenario.

(** The commit message [_create_pull_request] writes for a plan whose
    gaps have the types [types] and whose confidence is [confidence]. *)
Definition commit_message_of (env : Env) (diff_plan : DiffPlan)
    (types : list string) (confidence : Q) : string :=
  "feat(observability): Add instrumentation via Autopilot

Addresses gaps detected by Scout Agent:
" +:+ Str.join Str.nl ((λ t, "- " +:+ t) <$> types) +:+ "

Diff Plan ID: " +:+ default "N/A" (dp_diff_plan_id diff_plan) +:+ "
Confidence: " +:+ format_float env ".0%" confidence +:+ "
".

(** ** The command line of generate_pr.py *)

(** [s.upper()] *)
Definition upper : string → string := Str.map Str.to_upper.

(** [c * n] for a one-character string. *)
Fixpoint repeat_char (c : ascii) (n : nat) : string :=
  match n with
  | O => ""
  | S k => String c (repeat_char c k)
  end.

(** [str(x)] of an optional string or integer: [None] prints its name. *)
Definition opt_str (o : option string) : string := default "None" o.
Definition opt_int_str (o : option Z) : string := from_option pretty "None" o.

(** The ["status"] of a result. *)
Definition status_of (result : PublishResult) : string :=
  match result with
  | Skipped _ _ => "skipped"
  | DryRun _ _ _ => "dry_run"
  | Published _ _ _ _ _ _ _ => "success"
  | ArtifactsGenerated _ _ => "artifacts_generated"
  end.

(** [print_result]: the lines it prints. *)
Definition print_result (result : PublishResult) : list event :=
  let rule := repeat_char "=" 60 in
  [Print (Str.nl +:+ rule);
   Print "PR AUTHOR AGENT RESULT";
   Print rule;
   Print (Str.nl +:+ "Status: " +:+ upper (status_of result))]
  ++ match result with
     | Published _ pr_number pr_url branch files_changed archetypes gaps_addressed =>
         [Print ("PR URL: " +:+ opt_str pr_url);
          Print ("PR Number: #" +:+ opt_int_str pr_number);
          Print ("Branch: " +:+ branch);
          Print ("Files Changed: " +:+ pretty files_changed);
          Print ("Archetypes: " +:+ Str.join ", " archetypes);
          Print ("Gaps Addressed: " +:+ Str.join ", " gaps_addressed)]
     | DryRun plan_id artifacts _ =>
         [Print ("Diff Plan ID: " +:+ opt_str plan_id);
          Print (Str.nl +:+ "Artifacts that would be created:")]
         ++ ((λ a, Print ("  - " +:+ fst a +:+ " (" +:+ snd a +:+ ")")) <$> artifacts)
     | Skipped reason _ => [Print ("Reason: " +:+ reason)]
     | ArtifactsGenerated _ _ => []
     end
  ++ [Print (Str.nl +:+ rule)].

(** Several lines printed in a row. *)
Definition emit_all (lines : list event) : M unit := (inr tt, lines).

(** The parsed arguments of [main]. *)
Record Args := {
  arg_diff_plan : string;
  arg_repo_url : option string;
  arg_dry_run : bool;
  arg_vcs : string;
  arg_templates_path : string;
  arg_output : option string
}.

(** The outcome of [parser.parse_args()]: the arguments, or the exit of
    the parser, on a usage error or for [--help], with its status and
    what it wrote to the standard output and to the standard error. *)
Inductive parsed :=
| Parsed (args : Args)
| ParserExit (status : Z) (out err : list string).

(** What [main] reads from and writes to the host: the outcome of
    parsing its command line, [os.environ.get], the exception
    [httpx.Client(timeout=30, headers=headers)] raises if it raises one,
    whether a path exists, the plan a JSON file holds together with its
    ["repo_url"] key (or the error that loading raises), [str(Path(p))],
    [json.dumps(result, indent=2)] and the outcome of writing a file. *)
Record Host := {
  parse_args : parsed;
  environ : string → option string;
  httpx_client : list (string * string) → exn + unit;
  path_exists : string → bool;
  load_plan : string → exn + (DiffPlan * option string);
  path_str : string → string;
  dumps : PublishResult → string;
  write_text : string → string → exn + unit
}.

(** [PRAuthorConfig(templates_path=args.templates_path)] *)
Definition cli_config (args : Args) : PRAuthorConfig :=
  {| templates_path := arg_templates_path args;
     default_branch := "main";
     branch_prefix := "autopilot/observability";
     pr_labels := ["autopilot"; "observability"];
     confidence_threshold := 7 # 10;
     auto_create_pr := true;
     require_human_review := true |}.

(** [a or b] on optional strings: the first that is neither [None] nor
    empty. *)
Definition str_or (a b : option string) : option string :=
  match a with
  | Some s => if decide (s = "") then b else Some s
  | None => b
  end.

(** [GitHubClient._get_auth_token] as [GitHubClient.__init__] calls it,
    through [_build_headers], with the configuration read from the
    environment: without a token it reads [self._installation_token],
    which [__init__] assigns only later. *)
Definition github_auth_token (host : Host) : exn + string :=
  match str_or (environ host "GITHUB_TOKEN") None with
  | Some token => inr token
  | None =>
      inl (AttributeError "'GitHubClient' object has no attribute '_installation_token'")
  end.

(** [GitHubClient()] *)
Definition github_client_init (host : Host) : exn + unit :=
  match github_auth_token host with
  | inl e => inl e
  | inr token =>
      httpx_client host [("Accept", "application/vnd.github+json");
                         ("X-GitHub-Api-Version", "2022-11-28");
                         ("Authorization", "Bearer " +:+ token)]
  end.

(** [GitLabClient()] *)
Definition gitlab_client_init (host : Host) : exn + unit :=
  httpx_client host
    (("Content-Type", "application/json")
     :: match str_or (environ host "GITLAB_TOKEN") None with
        | Some token => [("PRIVATE-TOKEN", token)]
        | None => []
        end).

(** [PRAuthorAgent.__init__]: the choice of the VCS client. *)
Definition agent_init (host : Host) (vcs_client : string) : exn + unit :=
  if decide (vcs_client = "github") then github_client_init host
  else if decide (vcs_client = "gitlab") then gitlab_client_init host
  else inl (ValueError ("Unsupported VCS client: " +:+ vcs_client)).

(** The body of the [try] block of [main]. *)
Definition main_body (env : Env) (host : Host) (args : Args) : M PublishResult :=
  if negb (path_exists host (arg_diff_plan args))
  then raise (ValueError ("Diff Plan not found: " +:+ path_str host (arg_diff_plan args)))
  else
    loaded ← lift (load_plan host (arg_diff_plan args));
    match str_or (str_or (arg_repo_url args) (snd loaded)) None with
    | None => raise (ValueError "Repository URL required (--repo-url or in diff plan)")
    | Some repo_url =>
        lift (agent_init host (arg_vcs args));;
        result ← process_diff_plan env (cli_config args) (fst loaded) repo_url
                   (arg_dry_run args);
        match str_or (arg_output args) None with
        | Some output =>
            lift (write_text host output (dumps host result));;
            emit (Print ("Result written to: " +:+ path_str host output))
        | None => ret tt
        end;;
        emit_all (print_result result);;
        ret result
    end.

(** What the process leaves behind: its exit status and the two output
    streams (the standard output interleaved with the calls made, as in
    the trace of the run). *)
Record Exit := {
  exit_code : Z;
  effects : list event;
  stderr : list string
}.

(** [main]: the parser, which may end the program itself, then the
    [try] block and its handler, which prints the error and exits with
    status 1. *)
Definition main (env : Env) (host : Host) : Exit :=
  match parse_args host with
  | ParserExit status out err =>
      {| exit_code := status; effects := Print <$> out; stderr := err |}
  | Parsed args =>
      match main_body env host args with
      | (inr _, trace) => {| exit_code := 0; effects := trace; stderr := [] |}
      | (inl e, trace) =>
          {| exit_code := 1; effects := trace; stderr := ["Error: " +:+ exn_str e] |}
      end
  end.

(** The arguments of a dry run on [plan.json], and a host with a GitHub
    token on which that file holds the plan of the example. *)
Module Cli.

Definition args : Args :=
  {| arg_diff_plan := "plan.json";
     arg_repo_url := Some Example.repo_url;
     arg_dry_run := true;
     arg_vcs := "github";
     arg_templates_path := "./references/templates";
     arg_output := None |}.

Definition host : Host :=
  {| parse_args := Parsed args;
     environ name := if decide (name = "GITHUB_TOKEN") then Some "ghp_example" else None;
     httpx_client headers := inr tt;
     path_exists p := bool_decide (p = "plan.json");
     load_plan p := inr (Example.plan, None);
     path_str p := p;
     dumps result := "{}";
     write_text p text := inr tt |}.

End Cli.

(** ** github_client.py and gitlab_client.py: text handling *)

(** The string methods the two clients add to those of [Str].  A string
    is read as the UTF-8 bytes of the Python [str]; the separators
    handled here are ASCII, and whitespace is the ASCII whitespace of
    [str.isspace]. *)
Module Text.

(** [s.lstrip(c)], [s.rstrip(c)] and [s.strip(c)] for one character. *)
Fixpoint lstrip_char (c : ascii) (s : string) : string :=
  match s with
  | "" => ""
  | String d r => if Ascii.eqb d c then lstrip_char c r else s
  end.
Fixpoint rstrip_char (c : ascii) (s : string) : string :=
  match s with
  | "" => ""
  | String d r =>
      match rstrip_char c r with
      | "" => if Ascii.eqb d c then "" else String d ""
      | kept => String d kept
      end
  end.
Definition strip_char (c : ascii) (s : string) : string :=
  rstrip_char c (lstrip_char c s).

(** The text after the prefix [p] of [s], if [s] starts with [p]. *)
Fixpoint drop_prefix (p s : string) : option string :=
  match p, s with
  | "", _ => Some s
  | String _ _, "" => None
  | String a p', String b s' => if Ascii.eqb a b then drop_prefix p' s' else None
  end.

(** [s.replace(old, new)] for a non-empty [old]: the occurrences are
    found from the left and do not overlap; every step consumes a
    character, so a fuel of [length s] is enough. *)
Fixpoint replace_from (fuel : nat) (old new s : string) : string :=
  match fuel with
  | O => s
  | S n =>
      match drop_prefix old s with
      | Some rest => new +:+ replace_from n old new rest
      | None =>
          match s with
          | "" => ""
          | String c r => String c (replace_from n old new r)
          end
      end
  end.
Definition replace (old new s : string) : string :=
  replace_from (String.length s) old new s.

(** [c.isspace()] on ASCII. *)
Definition is_space (c : ascii) : bool :=
  let n := Ascii.nat_of_ascii c in
  ((9 <=? n)%nat && (n <=? 13)%nat) || ((28 <=? n)%nat && (n <=? 32)%nat).

(** [s.strip()] *)
Fixpoint lstrip (s : string) : string :=
  match s with
  | "" => ""
  | String c r => if is_space c then lstrip r else s
  end.
Fixpoint rstrip (s : string) : string :=
  match s with
  | "" => ""
  | String c r =>
      match rstrip r with
      | "" => if is_space c then "" else String c ""
      | kept => String c kept
      end
  end.
Definition strip (s : string) : string := rstrip (lstrip s).

(** [s.split()]: the maximal runs of characters that are not
    whitespace. *)
Fixpoint split_ws (s : string) : list string :=
  match s with
  | "" => []
  | String c r =>
      if is_space c then split_ws r
      else match r with
           | "" => [String c ""]
           | String d _ =>
               if is_space d then String c "" :: split_ws r
               else match split_ws r with
                    | w :: ws => String c w :: ws
                    | [] => [String c ""]
                    end
           end
  end.

(** The characters [urllib.parse.quote] never escapes. *)
Definition unreserved (c : ascii) : bool :=
  Str.is_upper c || Str.is_lower c || Str.is_digit c
  || Ascii.eqb c "_" || Ascii.eqb c "." || Ascii.eqb c "-" || Ascii.eqb c "~".

Definition hex_digit (n : nat) : ascii :=
  default "0"%char (String.get n "0123456789ABCDEF").

(** [quote(s, safe='')]: every byte that is not unreserved becomes [%XX]. *)
Fixpoint quote (s : string) : string :=
  match s with
  | "" => ""
  | String c r =>
      if unreserved c then String c (quote r)
      else let n := Ascii.nat_of_ascii c in
           String "%" (String (hex_digit (n / 16)) (String (hex_digit (n mod 16)) (quote r)))
  end.

End Text.

(** The part of a CODEOWNERS line after its path pattern: the tokens
    that start with [@], without their leading [@] signs. *)
Definition line_owners (line : string) : list string :=
  let line := Text.strip line in
  if negb (bool_decide (line = "")) && negb (Str.startswith "#" line)
  then Text.lstrip_char "@" <$> List.filter (Str.startswith "@") (tail (Text.split_ws line))
  else [].

(** The loop of [get_codeowners] over the lines of a CODEOWNERS file;
    it is the same in the two clients. *)
Definition parse_codeowners (content : string) : list string :=
  mjoin (line_owners <$> Str.split (Ascii.ascii_of_nat 10) content).

(** ** github_client.py and gitlab_client.py: requests with retries *)

Module Http.

(** What the clients read of an [httpx.Response]: the status, the
    headers (looked up without regard to case by [httpx]) and the body. *)
Record Response := {
  status_code : Z;
  header : string → option string;
  text : string
}.

(** The exceptions of a client: [httpx.HTTPStatusError], which
    [_request] catches, and every other one, by class and message. *)
Inductive failure :=
| HTTPStatusError (response : Response)
| Exception (class message : string).

(** The keyword arguments passed on to [httpx]. *)
#[warnings="-register-all"] Inductive json :=
| JNull
| JBool (b : bool)
| JNum (n : Z)
| JFloat (x : Q)
| JStr (s : string)
| JList (items : list json)
| JDict (fields : list (string * json)).

Inductive kwargs :=
| NoKwargs
| JsonBody (body : json)
| Params (params : list (string * string)).

(** A step into a JSON value: [v[name]] or [v[i]]. *)
Inductive key :=
| Key (name : string)
| Index (i : Z).

(** What a client does to the outside. *)
Inductive effect :=
| Sent (method url : string) (kw : kwargs)
| Printed (line : string)
| Slept (seconds : Q).

(** The answers of the outside: the outcome of the [n]-th call of
    [client.request] (counted from 0), the value of [time.time()] after
    it, whether [raise_for_status] raises for a response, [int(s)] (or
    the message of its [ValueError]) and the formatting of floats; then
    [urlparse(url).path], [response.json()[k1]...[kn]] with the exception
    either step may raise, [str(v)] of a JSON value,
    [base64.b64encode(s.encode()).decode()] and
    [base64.b64decode(v).decode()]; last, of [time.sleep], the message
    of the [OverflowError] for a length it cannot count, and the class
    and message of the exception the platform raises for a pause of more
    than a minute whose end its clock cannot hold, if it raises one. *)
Record Runtime := {
  request : nat → string → string → kwargs → failure + Response;
  time : nat → Q;
  raises_for_status : Response → bool;
  int : string → string + Z;
  format_float : string → Q → string;
  url_path : string → exn + string;
  extract : Response → list key → failure + json;
  str : json → string;
  b64encode : string → string;
  b64decode : json → failure + string;
  sleep_overflow : string;
  long_sleep : Q → option (string * string)
}.

Definition IO (A : Type) : Type := (failure + A) * list effect.

(** [m] after the effects of [trace]. *)
Definition after {A} (trace : list effect) (m : IO A) : IO A :=
  (fst m, trace ++ snd m).

(** [max(x, y)] and [min(x, y)] *)
Definition py_max (x y : Q) : Q := if float_lt x y then y else x.
Definition py_min (x y : Q) : Q := if float_lt y x then y else x.

(** The first integer, in absolute value, that no float holds: [float(n)]
    rounds to an infinity from [2**1024 - 2**970] on. *)
Definition float_limit : Z := (2 ^ 1024 - 2 ^ 970)%Z.

(** [float(n)], as the arithmetic of a float with the int [n] does it:
    [OverflowError] when no float holds [n]. *)
Definition float_of_int (n : Z) : failure + Q :=
  if (Z.abs n <? float_limit)%Z then inr (inject_Z n)
  else inl (Exception "OverflowError" "int too large to convert to float").

(** [x * y] on floats: the product, or an infinity beyond the largest
    float. *)
Inductive product :=
| Finite (x : Q)
| Infinity (negative : bool).

Definition float_mul (x y : Q) : product :=
  let p := (x * y)%Q in
  if float_lt (- inject_Z float_limit) p && float_lt p (inject_Z float_limit)
  then Finite p
  else Infinity (float_lt p 0).

(** The lengths [time.sleep] counts: those of 64 bits of nanoseconds. *)
Definition sleep_min : Q := -9223372036854775808 # 1000000000.
Definition sleep_max : Q := 9223372036854775807 # 1000000000.

(** [time.sleep] of a length that cannot be counted. *)
Definition sleep_overflows {A} (rt : Runtime) : IO A :=
  (inl (Exception "OverflowError" (sleep_overflow rt)), []).

(** [time.sleep(seconds)], then [m].  The length is converted to
    nanoseconds first, with [OverflowError] when 64 bits do not hold
    them; a negative length is then refused with [ValueError]; a pause
    of more than a minute is taken unless the platform refuses it. *)
Definition sleep_then {A} (rt : Runtime) (seconds : Q) (m : IO A) : IO A :=
  if float_lt seconds sleep_min || float_lt sleep_max seconds
  then sleep_overflows rt
  else if float_lt seconds 0
  then (inl (Exception "ValueError" "sleep length must be non-negative"), [])
  else if float_lt 60 seconds
  then match long_sleep rt seconds with
       | Some (class, message) => (inl (Exception class message), [])
       | None => after [Slept seconds] m
       end
  else after [Slept seconds] m.

(** [time.sleep(seconds)] returns. *)
Definition sleeps (rt : Runtime) (seconds : Q) : bool :=
  negb (float_lt seconds 0) && negb (float_lt sleep_max seconds)
  && (negb (float_lt 60 seconds) || bool_decide (long_sleep rt seconds = None)).

(** [int(response.headers.get(name, default))] *)
Definition int_header (rt : Runtime) (response : Response) (name : string)
    (dflt : Z) : failure + Z :=
  match header response name with
  | None => inr dflt
  | Some v =>
      match int rt v with
      | inl message => inl (Exception "ValueError" message)
      | inr n => inr n
      end
  end.

(** An exception of the interpreter as a failure of a client. *)
Definition of_exn (e : exn) : failure :=
  match e with
  | ValueError msg => Exception "ValueError" msg
  | KeyError _ => Exception "KeyError" (exn_str e)
  | OSError msg => Exception "OSError" msg
  | RuntimeError msg => Exception "RuntimeError" msg
  | AttributeError msg => Exception "AttributeError" msg
  end.

(** A method of a client: given the number of requests sent before it
    starts, its outcome and its effects. *)
Definition Client (A : Type) : Type := nat → IO A.

Definition is_sent (ev : effect) : bool :=
  match ev with Sent _ _ _ => true | _ => false end.

(** The requests sent and the pauses taken in a trace. *)
Definition sends (trace : list effect) : nat := length (List.filter is_sent trace).
Definition pauses (trace : list effect) : list Q :=
  omap (λ ev, match ev with Slept s => Some s | _ => None end) trace.


Definition client_ret {A} (a : A) : Client A := λ _, (inr a, []).
Definition client_bind {A B} (m : Client A) (k : A → Client B) : Client B :=
  λ sent,
    match m sent with
    | (inl e, trace) => (inl e, trace)
    | (inr a, trace) => after trace (k a (sent + sends trace)%nat)
    end.
Definition client_lift {A} (r : failure + A) : Client A := λ _, (r, []).

(** [try: m except httpx.HTTPStatusError: handler] *)
Definition except_status {A} (m : Client A) (handler : Client A) : Client A :=
  λ sent,
    match m sent with
    | (inl (HTTPStatusError _), trace) => after trace (handler (sent + sends trace)%nat)
    | out => out
    end.

(** [if v:] on a JSON value. *)
Definition truthy (v : json) : bool :=
  match v with
  | JNull => false
  | JBool b => b
  | JNum n => negb (n =? 0)%Z
  | JFloat x => negb (Qeq_bool x 0)
  | JStr s => negb (String.eqb s "")
  | JList items => negb (bool_decide (items = []))
  | JDict fields => negb (bool_decide (fields = []))
  end.

#[export] Instance Client_ret : MRet Client := @client_ret.
#[export] Instance Client_bind : MBind Client := λ A B k m, client_bind m k.

End Http.

Module GitHubClient.
Import Http.

Record GitHubConfig := {
  api_url : string;
  max_retries : Z;
  retry_delay : Q
}.

(** [GitHubConfig()] *)
Definition default_config : GitHubConfig :=
  {| api_url := "https://api.github.com"; max_retries := 3; retry_delay := 2 |}.

(** [_parse_repo_url]: owner and repository name.  [url_path] is
    [urlparse(repo_url).path], or the error [urlparse] raises. *)
Definition _parse_repo_url (url_path : string → exn + string) (repo_url : string)
  : exn + (string * string) :=
  match url_path repo_url with
  | inl e => inl e
  | inr path =>
      match Str.split "/" (Text.strip_char "/" path) with
      | owner :: name :: _ => inr (owner, Text.replace ".git" "" name)
      | _ => inl (ValueError ("Invalid repository URL: " +:+ repo_url))
      end
  end.

(** The loop of [_request] from iteration [attempt] on, with [remaining]
    iterations left; [sent] requests were made before the call. *)
Fixpoint attempts (rt : Runtime) (config : GitHubConfig) (method url : string)
    (kw : kwargs) (remaining attempt sent : nat) : IO Response :=
  match remaining with
  | O => (inl (Exception "RuntimeError" "Max retries exceeded"), [])
  | S remaining' =>
      let next := attempts rt config method url kw remaining' (S attempt) sent in
      let failed (e : Response) : IO Response :=
        if (Z.of_nat attempt <? max_retries config - 1)%Z
        then
          match float_of_int (2 ^ Z.of_nat attempt) with
          | inl overflow => (inl overflow, [])
          | inr factor =>
              match float_mul (retry_delay config) factor with
              | Finite delay =>
                  after [Printed ("Request failed, retrying in "
                                  +:+ format_float rt "" delay +:+ "s...")]
                        (sleep_then rt delay next)
              | Infinity negative =>
                  after [Printed ("Request failed, retrying in "
                                  +:+ (if negative then "-inf" else "inf") +:+ "s...")]
                        (sleep_overflows rt)
              end
          end
        else (inl (HTTPStatusError e), []) in
      after [Sent method url kw]
        match request rt (sent + attempt) method url kw with
        | inl (HTTPStatusError e) => failed e
        | inl e => (inl e, [])
        | inr response =>
            if (status_code response =? 403)%Z
               && String.eqb (default "0" (header response "X-RateLimit-Remaining")) "0"
            then
              match int_header rt response "X-RateLimit-Reset" 0 with
              | inl e => (inl e, [])
              | inr reset_time =>
                  match float_of_int reset_time with
                  | inl overflow => (inl overflow, [])
                  | inr reset =>
                      let wait_time := py_max (reset - time rt (sent + attempt)) 1 in
                      after [Printed ("Rate limited, waiting "
                                      +:+ format_float rt ".0f" wait_time +:+ "s...")]
                            (sleep_then rt (py_min wait_time 60) next)
                  end
              end
            else if raises_for_status rt response then failed response
            else (inr response, [])
        end
  end.

(** [GitHubClient._request] *)
Definition _request (rt : Runtime) (config : GitHubConfig)
    (method endpoint : string) (kw : kwargs) (sent : nat) : IO Response :=
  attempts rt config method (api_url config +:+ endpoint) kw
    (Z.to_nat (max_retries config)) 0 sent.

(** [owner, repo = self._parse_repo_url(repo_url)] inside a method. *)
Definition parse (rt : Runtime) (repo_url : string) : Client (string * string) :=
  client_lift match _parse_repo_url (url_path rt) repo_url with
              | inl e => inl (of_exn e)
              | inr parts => inr parts
              end.

Definition repos (parts : string * string) : string :=
  "/repos/" +:+ fst parts +:+ "/" +:+ snd parts.

(** [get_branch_sha] *)
Definition get_branch_sha (rt : Runtime) (config : GitHubConfig)
    (repo_url branch : string) : Client json :=
  parts ← parse rt repo_url;
  response ← _request rt config "GET" (repos parts +:+ "/git/ref/heads/" +:+ branch)
                NoKwargs;
  client_lift (extract rt response [Key "object"; Key "sha"]).

(** [create_branch] *)
Definition create_branch (rt : Runtime) (config : GitHubConfig)
    (repo_url branch_name base_branch : string) : Client json :=
  parts ← parse rt repo_url;
  base_sha ← get_branch_sha rt config repo_url base_branch;
  response ← _request rt config "POST" (repos parts +:+ "/git/refs")
                (JsonBody (JDict [("ref", JStr ("refs/heads/" +:+ branch_name));
                                  ("sha", base_sha)]));
  client_lift (extract rt response []).

(** The loop of [commit_files] that creates one blob per file. *)
Fixpoint create_blobs (rt : Runtime) (config : GitHubConfig) (parts : string * string)
    (files : list (string * string)) (tree_items : list json) : Client (list json) :=
  match files with
  | [] => mret tree_items
  | (file_path, content) :: files' =>
      blob_response ← _request rt config "POST" (repos parts +:+ "/git/blobs")
                        (JsonBody (JDict [("content", JStr (b64encode rt content));
                                          ("encoding", JStr "base64")]));
      blob_sha ← client_lift (extract rt blob_response [Key "sha"]);
      create_blobs rt config parts files'
        (tree_items ++ [JDict [("path", JStr file_path); ("mode", JStr "100644");
                               ("type", JStr "blob"); ("sha", blob_sha)]])
  end.

(** [commit_files]; [files] holds the items of the dict in its order. *)
Definition commit_files (rt : Runtime) (config : GitHubConfig)
    (repo_url branch_name : string) (files : list (string * string))
    (message : string) : Client json :=
  parts ← parse rt repo_url;
  current_sha ← get_branch_sha rt config repo_url branch_name;
  commit_response ← _request rt config "GET"
                      (repos parts +:+ "/git/commits/" +:+ str rt current_sha) NoKwargs;
  base_tree_sha ← client_lift (extract rt commit_response [Key "tree"; Key "sha"]);
  tree_items ← create_blobs rt config parts files [];
  tree_response ← _request rt config "POST" (repos parts +:+ "/git/trees")
                    (JsonBody (JDict [("base_tree", base_tree_sha);
                                      ("tree", JList tree_items)]));
  new_tree_sha ← client_lift (extract rt tree_response [Key "sha"]);
  commit_response ← _request rt config "POST" (repos parts +:+ "/git/commits")
                      (JsonBody (JDict [("message", JStr message);
                                        ("tree", new_tree_sha);
                                        ("parents", JList [current_sha])]));
  new_commit_sha ← client_lift (extract rt commit_response [Key "sha"]);
  _request rt config "PATCH" (repos parts +:+ "/git/refs/heads/" +:+ branch_name)
    (JsonBody (JDict [("sha", new_commit_sha)]));;
  client_lift (extract rt commit_response []).

(** [create_pull_request]; an absent list of labels or reviewers is the
    empty list, which the method treats alike. *)
Definition create_pull_request (rt : Runtime) (config : GitHubConfig)
    (repo_url title body head_branch base_branch : string)
    (labels reviewers : list string) (draft : bool) : Client json :=
  parts ← parse rt repo_url;
  pr_response ← _request rt config "POST" (repos parts +:+ "/pulls")
                  (JsonBody (JDict [("title", JStr title); ("body", JStr body);
                                    ("head", JStr head_branch);
                                    ("base", JStr base_branch);
                                    ("draft", JBool draft)]));
  pr_number ← client_lift (extract rt pr_response [Key "number"]);
  (if bool_decide (labels = []) then mret tt
   else _request rt config "POST"
          (repos parts +:+ "/issues/" +:+ str rt pr_number +:+ "/labels")
          (JsonBody (JDict [("labels", JList (JStr <$> labels))]));; mret tt);;
  (if bool_decide (reviewers = []) then mret tt
   else _request rt config "POST"
          (repos parts +:+ "/pulls/" +:+ str rt pr_number +:+ "/requested_reviewers")
          (JsonBody (JDict [("reviewers", JList (JStr <$> reviewers))]));; mret tt);;
  url ← client_lift (extract rt pr_response [Key "html_url"]);
  state ← client_lift (extract rt pr_response [Key "state"]);
  mret (JDict [("number", pr_number); ("url", url); ("state", state);
               ("head", JStr head_branch); ("base", JStr base_branch)]).

(** The loop of [get_codeowners] over the locations of the file. *)
Fixpoint find_codeowners (rt : Runtime) (config : GitHubConfig)
    (parts : string * string) (paths : list string) : Client (list string) :=
  match paths with
  | [] => mret []
  | path :: paths' =>
      except_status
        (response ← _request rt config "GET" (repos parts +:+ "/contents/" +:+ path)
                      NoKwargs;
         encoded ← client_lift (extract rt response [Key "content"]);
         content ← client_lift (b64decode rt encoded);
         mret (parse_codeowners content))
        (find_codeowners rt config parts paths')
  end.

(** [get_codeowners] *)
Definition get_codeowners (rt : Runtime) (config : GitHubConfig) (repo_url : string)
  : Client (list string) :=
  parts ← parse rt repo_url;
  find_codeowners rt config parts ["CODEOWNERS"; ".github/CODEOWNERS"; "docs/CODEOWNERS"].

End GitHubClient.

Module GitLabClient.
Import Http.

Record GitLabConfig := {
  api_url : string;
  max_retries : Z;
  retry_delay : Q
}.

(** [GitLabConfig()] *)
Definition default_config : GitLabConfig :=
  {| api_url := "https://gitlab.com/api/v4"; max_retries := 3; retry_delay := 2 |}.

(** [_parse_repo_url]: the URL-encoded project path. *)
Definition _parse_repo_url (url_path : string → exn + string) (repo_url : string)
  : exn + string :=
  match url_path repo_url with
  | inl e => inl e
  | inr path => inr (Text.quote (Text.replace ".git" "" (Text.strip_char "/" path)))
  end.

Fixpoint attempts (rt : Runtime) (config : GitLabConfig) (method url : string)
    (kw : kwargs) (remaining attempt sent : nat) : IO Response :=
  match remaining with
  | O => (inl (Exception "RuntimeError" "Max retries exceeded"), [])
  | S remaining' =>
      let next := attempts rt config method url kw remaining' (S attempt) sent in
      let failed (e : Response) : IO Response :=
        if (Z.of_nat attempt <? max_retries config - 1)%Z
        then
          match float_of_int (2 ^ Z.of_nat attempt) with
          | inl overflow => (inl overflow, [])
          | inr factor =>
              match float_mul (retry_delay config) factor with
              | Finite delay =>
                  after [Printed ("Request failed (" +:+ pretty (status_code e)
                                  +:+ "), retrying in "
                                  +:+ format_float rt "" delay +:+ "s...")]
                        (sleep_then rt delay next)
              | Infinity negative =>
                  after [Printed ("Request failed (" +:+ pretty (status_code e)
                                  +:+ "), retrying in "
                                  +:+ (if negative then "-inf" else "inf") +:+ "s...")]
                        (sleep_overflows rt)
              end
          end
        else (inl (HTTPStatusError e), []) in
      after [Sent method url kw]
        match request rt (sent + attempt) method url kw with
        | inl (HTTPStatusError e) => failed e
        | inl e => (inl e, [])
        | inr response =>
            if (status_code response =? 429)%Z
            then
              match int_header rt response "Retry-After" 60 with
              | inl e => (inl e, [])
              | inr retry_after =>
                  after [Printed ("Rate limited, waiting "
                                  +:+ pretty retry_after +:+ "s...")]
                        (sleep_then rt (inject_Z (Z.min retry_after 60)) next)
              end
            else if raises_for_status rt response then failed response
            else (inr response, [])
        end
  end.

(** [GitLabClient._request] *)
Definition _request (rt : Runtime) (config : GitLabConfig)
    (method endpoint : string) (kw : kwargs) (sent : nat) : IO Response :=
  attempts rt config method (api_url config +:+ endpoint) kw
    (Z.to_nat (max_retries config)) 0 sent.

(** [project_path = self._parse_repo_url(repo_url)] inside a method. *)
Definition parse (rt : Runtime) (repo_url : string) : Client string :=
  client_lift match _parse_repo_url (url_path rt) repo_url with
              | inl e => inl (of_exn e)
              | inr project_path => inr project_path
              end.

(** [create_branch] *)
Definition create_branch (rt : Runtime) (config : GitLabConfig)
    (repo_url branch_name base_branch : string) : Client json :=
  project_path ← parse rt repo_url;
  response ← _request rt config "POST"
                ("/projects/" +:+ project_path +:+ "/repository/branches")
                (JsonBody (JDict [("branch", JStr branch_name);
                                  ("ref", JStr base_branch)]));
  client_lift (extract rt response []).

(** The loop of [commit_files] that looks whether each file exists. *)
Fixpoint build_actions (rt : Runtime) (config : GitLabConfig)
    (project_path branch_name : string) (files : list (string * string))
    (actions : list json) : Client (list json) :=
  match files with
  | [] => mret actions
  | (file_path, content) :: files' =>
      action ← except_status
                 (_request rt config "GET"
                    ("/projects/" +:+ project_path +:+ "/repository/files/"
                     +:+ Text.quote file_path)
                    (Params [("ref", branch_name)]);;
                  mret "update")
                 (mret "create");
      build_actions rt config project_path branch_name files'
        (actions ++ [JDict [("action", JStr action); ("file_path", JStr file_path);
                            ("content", JStr content)]])
  end.

(** [commit_files]; [files] holds the items of the dict in its order. *)
Definition commit_files (rt : Runtime) (config : GitLabConfig)
    (repo_url branch_name : string) (files : list (string * string))
    (message : string) : Client json :=
  project_path ← parse rt repo_url;
  actions ← build_actions rt config project_path branch_name files [];
  response ← _request rt config "POST"
                ("/projects/" +:+ project_path +:+ "/repository/commits")
                (JsonBody (JDict [("branch", JStr branch_name);
                                  ("commit_message", JStr message);
                                  ("actions", JList actions)]));
  client_lift (extract rt response []).

(** The loop of [create_pull_request] that looks up the id of each
    reviewer. *)
Fixpoint resolve_reviewers (rt : Runtime) (config : GitLabConfig)
    (reviewers : list string) (reviewer_ids : list json) : Client (list json) :=
  match reviewers with
  | [] => mret reviewer_ids
  | username :: reviewers' =>
      reviewer_ids ← except_status
                       (user_response ← _request rt config "GET" "/users"
                                          (Params [("username", username)]);
                        users ← client_lift (extract rt user_response []);
                        if truthy users
                        then id ← client_lift (extract rt user_response
                                                 [Index 0; Key "id"]);
                             mret (reviewer_ids ++ [id])
                        else mret reviewer_ids)
                       (mret reviewer_ids);
      resolve_reviewers rt config reviewers' reviewer_ids
  end.

(** [create_pull_request]; an absent list of labels or reviewers is the
    empty list, which the method treats alike. *)
Definition create_pull_request (rt : Runtime) (config : GitLabConfig)
    (repo_url title body head_branch base_branch : string)
    (labels reviewers : list string) (draft : bool) : Client json :=
  project_path ← parse rt repo_url;
  reviewer_ids ← resolve_reviewers rt config reviewers [];
  let mr_data :=
    [("source_branch", JStr head_branch); ("target_branch", JStr base_branch);
     ("title", JStr (if draft then "Draft: " +:+ title else title));
     ("description", JStr body); ("remove_source_branch", JBool true)]
    ++ (if bool_decide (labels = []) then []
        else [("labels", JStr (Str.join "," labels))])
    ++ (if bool_decide (reviewer_ids = []) then []
        else [("reviewer_ids", JList reviewer_ids)]) in
  mr_response ← _request rt config "POST"
                   ("/projects/" +:+ project_path +:+ "/merge_requests")
                   (JsonBody (JDict mr_data));
  number ← client_lift (extract rt mr_response [Key "iid"]);
  url ← client_lift (extract rt mr_response [Key "web_url"]);
  state ← client_lift (extract rt mr_response [Key "state"]);
  mret (JDict [("number", number); ("url", url); ("state", state);
               ("head", JStr head_branch); ("base", JStr base_branch)]).

(** The loop of [get_codeowners] over the locations of the file. *)
Fixpoint find_codeowners (rt : Runtime) (config : GitLabConfig)
    (project_path : string) (paths : list string) : Client (list string) :=
  match paths with
  | [] => mret []
  | path :: paths' =>
      except_status
        (response ← _request rt config "GET"
                      ("/projects/" +:+ project_path +:+ "/repository/files/"
                       +:+ Text.quote path +:+ "/raw")
                      (Params [("ref", "main")]);
         mret (parse_codeowners (text response)))
        (find_codeowners rt config project_path paths')
  end.

(** [get_codeowners] *)
Definition get_codeowners (rt : Runtime) (config : GitLabConfig) (repo_url : string)
  : Client (list string) :=
  project_path ← parse rt repo_url;
  find_codeowners rt config project_path
    ["CODEOWNERS"; ".gitlab/CODEOWNERS"; "docs/CODEOWNERS"].

End GitLabClient.

(** Servers for the examples. *)
Module Wire.
Import Http.

(** [int(s)] on a decimal literal with an optional minus sign. *)
Fixpoint digits (acc : Z) (s : string) : option Z :=
  match s with
  | "" => Some acc
  | String c r =>
      if Str.is_digit c
      then digits (acc * 10 + Z.of_nat (Ascii.nat_of_ascii c - 48)) r
      else None
  end.

Definition decimal (s : string) : string + Z :=
  let invalid := "invalid literal for int() with base 10: '" +:+ s +:+ "'" in
  match s with
  | "" => inl invalid
  | String c r =>
      if Ascii.eqb c "-"
      then match r with
           | "" => inl invalid
           | _ => from_option (λ n, inr (- n)%Z) (inl invalid) (digits 0 r)
           end
      else from_option inr (inl invalid) (digits 0 s)
  end.

(** The path of a URL [scheme://host/path] without query and fragment;
    another text is a path as a whole. *)
Definition path_of (url : string) : exn + string :=
  match Str.split "/" url with
  | _ :: "" :: _ :: rest => inr (String.concat "" ((λ s, "/" +:+ s) <$> rest))
  | _ => inr url
  end.

Definition answer (status : Z) (headers : list (string * string)) : Response :=
  {| status_code := status;
     header name := (list_to_map headers : gmap string string) !! name;
     text := "" |}.

(** A server that gives the same answer to every request, read at a
    clock that advances by a second with each request. *)
Definition server (response : Response) : Runtime :=
  {| request _ _ _ _ := inr response;
     time n := inject_Z (1700000000 + Z.of_nat n);
     raises_for_status r := negb ((200 <=? status_code r)%Z && (status_code r <? 300)%Z);
     int := decimal;
     format_float := Example.format;
     url_path := path_of;
     extract _ _ := inr (JStr "4b825dc");
     str v := match v with JStr s => s | _ => "" end;
     b64encode s := s;
     b64decode v := inr (match v with JStr s => s | _ => "" end);
     sleep_overflow := "timestamp too large to convert to C _PyTime_t";
     long_sleep _ := None |}.

End Wire.

(** ** What the runs of a client method satisfy *)

Section client_predicates.
Import Http.

(** What one run of the loop guarantees, whatever the answers. *)
Definition request_ok (rt : Runtime) (method url : string) (kw : kwargs)
    (sent remaining attempt : nat) (out : IO Response) : Prop :=
  (sends out.2 ≤ remaining)%nat
  ∧ Forall (λ ev, is_sent ev = true → ev = Sent method url kw) out.2
  ∧ match out.1 with
    | inr response =>
        raises_for_status rt response = false
        ∧ (0 < sends out.2)%nat
        ∧ request rt (sent + attempt + (sends out.2 - 1)) method url kw = inr response
    | inl (HTTPStatusError response) =>
        sends out.2 = remaining ∧ (0 < remaining)%nat
        ∧ (request rt (sent + attempt + (remaining - 1)) method url kw = inr response
           ∨ request rt (sent + attempt + (remaining - 1)) method url kw
             = inl (HTTPStatusError response))
    | inl (Exception _ _) => True
    end.

(** A response the GitHub client takes for a rate limit whose reset time
    it can read and subtract the clock from. *)
Definition github_rate_limited (rt : Runtime) (response : Response) : Prop :=
  status_code response = 403%Z
  ∧ default "0" (header response "X-RateLimit-Remaining") = "0"
  ∧ ∃ reset, int_header rt response "X-RateLimit-Reset" 0 = inr reset
             ∧ (Z.abs reset < float_limit)%Z.

(** Every effect of [m] satisfies [Q]. *)
Definition clean (Q : effect → Prop) {C} (m : Client C) : Prop :=
  ∀ sent, Forall Q (m sent).2.

(** A run of [m] that returns has sent at least [n] requests. *)
Definition at_least (n : nat) {C} (m : Client C) : Prop :=
  ∀ sent, match (m sent).1 with inr _ => (n ≤ sends (m sent).2)%nat | inl _ => True end.

(** The trace of [c] splits into a part without any [PATCH] request and
    a part whose only requests are [PATCH] requests, which starts after
    at least [n] requests and is there when [c] returns. *)
Definition patch_last (n : nat) {A} (c : Client A) : Prop :=
  ∀ sent, ∃ pre post,
    (c sent).2 = pre ++ post
    ∧ Forall (λ ev, ∀ url kw, ev ≠ Sent "PATCH" url kw) pre
    ∧ Forall (λ ev, is_sent ev = true → ∃ url kw, ev = Sent "PATCH" url kw) post
    ∧ ((0 < sends post)%nat → (n ≤ sends pre)%nat)
    ∧ (∀ a, (c sent).1 = inr a → (0 < sends post)%nat).

(** One entry of the [actions] of a GitLab commit. *)
Definition gitlab_action (kind : string) (file : string * string) : json :=
  JDict [("action", JStr kind); ("file_path", JStr (fst file));
         ("content", JStr (snd file))].

(** A run of [m] sends at most [n] requests. *)
Definition at_most (n : nat) {A} (m : Client A) : Prop :=
  ∀ sent, (sends (m sent).2 ≤ n)%nat.

(** [m] never raises [HTTPStatusError]. *)
Definition no_status_error {A} (m : Client A) : Prop :=
  ∀ sent response, (m sent).1 ≠ inl (HTTPStatusError response).

End client_predicates.

(** * Properties *)

(** ** The pattern and [re.sub] *)

Section re_facts.
Implicit Types (s t u pre post name : string) (repl : string → string).

Lemma str_app_cons c s t : String c s +:+ t = String c (s +:+ t).
Proof. reflexivity. Qed.

Lemma str_app_nil_l s : "" +:+ s = s.
Proof. reflexivity. Qed.

Lemma str_app_nil_r s : s +:+ "" = s.
Proof. induction s as [|c s IH]; [done | by rewrite str_app_cons, IH]. Qed.

Lemma str_app_assoc s t u : (s +:+ t) +:+ u = s +:+ (t +:+ u).
Proof. induction s as [|c s IH]; [done | by rewrite !str_app_cons, IH]. Qed.

Lemma str_length_app s t :
  String.length (s +:+ t) = (String.length s + String.length t)%nat.
Proof. induction s as [|c s IH]; [done | rewrite str_app_cons; cbn; by rewrite IH]. Qed.

Lemma expect_Some c s r : Re.expect c s = Some r ↔ s = String c r.
Proof.
  destruct s as [|d s]; cbn; [naive_solver |].
  destruct (Ascii.eqb_spec d c); naive_solver.
Qed.

Lemma expect_cons c r : Re.expect c (String c r) = Some r.
Proof. cbn. by rewrite Ascii.eqb_refl. Qed.

Lemma span_word_split s w t : Re.span_word s = (w, t) → s = w +:+ t.
Proof.
  revert w t. induction s as [|c s IH]; cbn; intros w t H.
  - by inversion H.
  - destruct (Str.word_char c).
    + destruct (Re.span_word s) as [w' t'] eqn:E. inversion H; subst.
      rewrite str_app_cons. f_equal. by apply IH.
    + by inversion H.
Qed.

Lemma span_word_all_word s w t : Re.span_word s = (w, t) → Re.all_word w = true.
Proof.
  revert w t. induction s as [|c s IH]; cbn; intros w t H.
  - by inversion H.
  - destruct (Str.word_char c) eqn:Hc.
    + destruct (Re.span_word s) as [w' t'] eqn:E. inversion H; subst.
      cbn. rewrite Hc. cbn. by eapply IH.
    + by inversion H.
Qed.

(** The run of word characters stops at the first other character. *)
Lemma span_word_stop w c t :
  Re.all_word w = true → Str.word_char c = false →
  Re.span_word (w +:+ String c t) = (w, String c t).
Proof.
  intros Hw Hc. induction w as [|d w IH].
  - rewrite str_app_nil_l. cbn. by rewrite Hc.
  - cbn in Hw. apply andb_true_iff in Hw as [Hd Hw].
    rewrite str_app_cons. cbn. rewrite Hd, IH; done.
Qed.

Lemma match_variable_split s name rest :
  Re.match_variable s = Some (name, rest) →
  s = Re.placeholder name +:+ rest ∧ Re.is_name name = true.
Proof.
  unfold Re.match_variable. intros H.
  destruct (Re.expect "$" s) as [r1|] eqn:E1; [|done]. cbn in H.
  destruct (Re.expect "{" r1) as [r2|] eqn:E2; [|done]. cbn in H.
  destruct (Re.span_word r2) as [w t] eqn:E3.
  case_decide; [done|].
  destruct (Re.expect "}" t) as [r3|] eqn:E4; [|done]. cbn in H.
  inversion H; subst.
  apply expect_Some in E1, E2, E4. subst.
  pose proof (span_word_split _ _ _ E3) as ->.
  pose proof (span_word_all_word _ _ _ E3) as Hw.
  split.
  - unfold Re.placeholder. rewrite !str_app_assoc. reflexivity.
  - destruct name; done.
Qed.

Lemma placeholder_cons name rest :
  Re.placeholder name +:+ rest = String "$" (String "{" (name +:+ String "}" rest)).
Proof. unfold Re.placeholder. by rewrite !str_app_assoc. Qed.

Lemma match_variable_placeholder name rest :
  Re.is_name name = true →
  Re.match_variable (Re.placeholder name +:+ rest) = Some (name, rest).
Proof.
  intros Hn. unfold Re.placeholder, Re.match_variable.
  assert (Re.all_word name = true) as Hw by (destruct name; done).
  fold (Re.placeholder name). rewrite placeholder_cons.
  rewrite !expect_cons. cbn [mbind option_bind].
  rewrite expect_cons. cbn [mbind option_bind].
  rewrite span_word_stop by done.
  case_decide as Hd; [subst; done|].
  by rewrite expect_cons.
Qed.

Lemma match_variable_shorter s name rest :
  Re.match_variable s = Some (name, rest) →
  (String.length rest < String.length s)%nat.
Proof.
  intros [-> _]%match_variable_split.
  unfold Re.placeholder. rewrite !str_length_app. cbn. lia.
Qed.

Lemma sub_from_fuel n m repl s :
  (String.length s ≤ n)%nat → (String.length s ≤ m)%nat →
  Re.sub_from n repl s = Re.sub_from m repl s.
Proof.
  revert m s. induction n as [|n IH]; intros m s Hn Hm.
  - destruct s; [|cbn in Hn; lia]. by destruct m.
  - destruct m as [|m].
    { destruct s; [done | cbn in Hm; lia]. }
    cbn. destruct (Re.match_variable s) as [[name rest]|] eqn:E.
    + apply match_variable_shorter in E. f_equal. apply IH; lia.
    + destruct s as [|c r]; [done|]. cbn in Hn, Hm. f_equal. apply IH; lia.
Qed.

Lemma sub_nil repl : Re.sub repl "" = "".
Proof. reflexivity. Qed.

Lemma sub_match repl s name rest :
  Re.match_variable s = Some (name, rest) →
  Re.sub repl s = repl name +:+ Re.sub repl rest.
Proof.
  intros E. pose proof (match_variable_shorter _ _ _ E) as Hlt.
  unfold Re.sub. destruct (String.length s) as [|n] eqn:El; [lia|].
  cbn. rewrite E. f_equal. apply sub_from_fuel; lia.
Qed.

Lemma sub_skip repl c r :
  Re.match_variable (String c r) = None →
  Re.sub repl (String c r) = String c (Re.sub repl r).
Proof. intros E. unfold Re.sub. cbn [String.length Re.sub_from]. by rewrite E. Qed.

Lemma search_false_sub repl s : Re.search s = false → Re.sub repl s = s.
Proof.
  induction s as [|c r IH]; [done|]. cbn [Re.search]. intros [Hm Hr]%orb_false_iff.
  apply bool_decide_eq_false in Hm.
  rewrite sub_skip, IH; [done..|].
  destruct (Re.match_variable (String c r)); [|done]. destruct Hm; eauto.
Qed.

Lemma span_word_app r c t :
  Str.word_char c = false →
  Re.span_word (r +:+ String c t)
  = ((Re.span_word r).1, (Re.span_word r).2 +:+ String c t).
Proof.
  intros Hc. induction r as [|d r IH].
  - rewrite str_app_nil_l. cbn. by rewrite Hc.
  - rewrite str_app_cons. cbn. destruct (Str.word_char d); [|done].
    rewrite IH. by destruct (Re.span_word r).
Qed.

(** A match never reaches across a following dollar sign. *)
Lemma match_variable_app pre t :
  pre ≠ "" →
  Re.match_variable (pre +:+ String "$" t)
  = (λ p, (p.1, p.2 +:+ String "$" t)) <$> Re.match_variable pre.
Proof.
  intros Hne. unfold Re.match_variable.
  destruct pre as [|c1 [|c2 r]]; [done | |].
  - rewrite str_app_cons, str_app_nil_l. cbn [Re.expect].
    destruct (Ascii.eqb c1 "$"); done.
  - rewrite !str_app_cons. cbn [Re.expect].
    destruct (Ascii.eqb c1 "$"); [|done]. cbn [mbind option_bind Re.expect].
    destruct (Ascii.eqb c2 "{"); [|done]. cbn [mbind option_bind].
    rewrite span_word_app by done.
    destruct (Re.span_word r) as [w u]. cbn [fst snd].
    case_decide; [done|].
    destruct u as [|d u]; [done|].
    rewrite str_app_cons. cbn [Re.expect].
    destruct (Ascii.eqb d "}"); done.
Qed.

Lemma sub_app_dollar repl pre t :
  Re.sub repl (pre +:+ String "$" t)
  = Re.sub repl pre +:+ Re.sub repl (String "$" t).
Proof.
  remember (String.length pre) as n eqn:Hn.
  revert pre Hn. induction n as [n IH] using lt_wf_ind. intros pre ->.
  destruct pre as [|c r]; [done|].
  pose proof (match_variable_app (String c r) t ltac:(done)) as Happ.
  destruct (Re.match_variable (String c r)) as [[name rest]|] eqn:E.
  - cbn in Happ. rewrite (sub_match _ _ _ _ Happ), (sub_match _ _ _ _ E).
    rewrite (IH _ (match_variable_shorter _ _ _ E) rest eq_refl).
    by rewrite str_app_assoc.
  - cbn in Happ. rewrite str_app_cons in Happ |- *.
    rewrite (sub_skip _ _ _ Happ), (sub_skip _ _ _ E).
    rewrite (IH (String.length r) ltac:(cbn; lia) r eq_refl).
    by rewrite str_app_cons.
Qed.

Lemma sub_placeholder repl pre name post :
  Re.is_name name = true →
  Re.sub repl (pre +:+ Re.placeholder name +:+ post)
  = Re.sub repl pre +:+ repl name +:+ Re.sub repl post.
Proof.
  intros Hn.
  pose proof (match_variable_placeholder name post Hn) as E.
  rewrite placeholder_cons in E |- *.
  by rewrite sub_app_dollar, (sub_match _ _ _ _ E).
Qed.

Lemma search_spec s :
  Re.search s = true ↔
  ∃ pre name post,
    s = pre +:+ Re.placeholder name +:+ post ∧ Re.is_name name = true.
Proof.
  split.
  - induction s as [|c r IH]; [done|]. cbn [Re.search].
    intros [Hm|Hr]%orb_true_iff.
    + apply bool_decide_eq_true in Hm as [[name rest] Hm].
      apply match_variable_split in Hm as [-> Hn]. by exists "", name, rest.
    + destruct (IH Hr) as (pre & name & post & -> & Hn).
      by exists (String c pre), name, post.
  - intros (pre & name & post & -> & Hn).
    induction pre as [|c pre IH].
    + rewrite str_app_nil_l.
      pose proof (match_variable_placeholder name post Hn) as E.
      rewrite placeholder_cons in E |- *.
      cbn [Re.search]. rewrite E. by rewrite bool_decide_eq_true_2.
    + rewrite str_app_cons. cbn [Re.search]. rewrite IH. apply orb_true_r.
Qed.
End re_facts.


(** ** Interpolation *)

Lemma replace_var_unknown env (variables : gmap string value) name :
  variables !! name = None → replace_var env variables name = Re.placeholder name.
Proof. intros H. unfold replace_var. by rewrite H. Qed.

Lemma replace_var_list env (variables : gmap string value) name items :
  variables !! name = Some (VList items) →
  replace_var env variables name = Str.join ", " (py_str env <$> items).
Proof. intros H. unfold replace_var. by rewrite H. Qed.

(** C7: wherever a placeholder [${NAME}] stands in a template, if NAME is
    absent from the mapping the output holds the placeholder itself at
    that place, between the interpolations of the text before and after
    it; if NAME is bound to a list the output holds the string forms of
    the elements joined by a comma and a space; and
    [interpolate("${UNKNOWN_X}", {})] is ["${UNKNOWN_X}"]. *)
Theorem interpolate_unknown_verbatim env (variables : gmap string value)
    (pre name post : string) :
  Re.is_name name = true →
  (variables !! name = None →
   _interpolate env (pre +:+ Re.placeholder name +:+ post) variables
   = _interpolate env pre variables +:+ Re.placeholder name
     +:+ _interpolate env post variables)
  ∧ (∀ items, variables !! name = Some (VList items) →
     _interpolate env (pre +:+ Re.placeholder name +:+ post) variables
     = _interpolate env pre variables +:+ Str.join ", " (py_str env <$> items)
       +:+ _interpolate env post variables)
  ∧ _interpolate env "${UNKNOWN_X}" ∅ = "${UNKNOWN_X}".
Proof.
  intros Hn. unfold _interpolate. split; [|split].
  - intros H. by rewrite sub_placeholder, replace_var_unknown.
  - intros items H. by rewrite sub_placeholder, (replace_var_list _ _ _ items).
  - reflexivity.
Qed.

Lemma interpolate_unknown_verbatim_witness :
  _interpolate Example.env "class ${CLASS}Test for ${ARCHETYPES}."
    (<["ARCHETYPES" := VList [SStr "kafka"; SStr "spring"]]> ∅)
  = "class ${CLASS}Test for kafka, spring.".
Proof.
  pose proof (interpolate_unknown_verbatim Example.env
    (<["ARCHETYPES" := VList [SStr "kafka"; SStr "spring"]]> ∅)
    "class " "CLASS" "Test for ${ARCHETYPES}." eq_refl) as [H _].
  specialize (H eq_refl). vm_compute in H. vm_compute. exact H.
Defined.

(** C8: when the output of an interpolation holds no placeholder any
    more, interpolating it again with the same mapping changes nothing. *)
Theorem interpolate_idempotent_resolved env (t : string)
    (variables : gmap string value) :
  Re.search (_interpolate env t variables) = false →
  _interpolate env (_interpolate env t variables) variables
  = _interpolate env t variables.
Proof. intros H. unfold _interpolate in *. by apply search_false_sub. Qed.

Lemma interpolate_idempotent_resolved_witness :
  let variables : gmap string value := <["SERVICE_NAME" := vstr "billing"]> ∅ in
  _interpolate Example.env
    (_interpolate Example.env "# ${SERVICE_NAME} Runbook" variables) variables
  = "# billing Runbook".
Proof.
  intros variables.
  rewrite (interpolate_idempotent_resolved Example.env "# ${SERVICE_NAME} Runbook"
             variables eq_refl).
  reflexivity.
Defined.

(** ** The monad *)

Section monad_facts.
Context {A B : Type}.
Implicit Types (m : M A) (k : A → M B).

Lemma fst_bind m k :
  (m ≫= k).1 = match m.1 with inl e => inl e | inr a => (k a).1 end.
Proof. destruct m as [[e|a] t]; [done|]. cbn. by destruct (k a). Qed.

Lemma snd_bind m k :
  (m ≫= k).2 = m.2 ++ match m.1 with inl _ => [] | inr a => (k a).2 end.
Proof.
  destruct m as [[e|a] t]; cbn; [by rewrite app_nil_r|]. by destruct (k a).
Qed.

Lemma pair_inr_bind (a : A) t k :
  ((inr a, t) : M A) ≫= k = ((k a).1, t ++ (k a).2).
Proof. unfold mbind, M_bind, bind. by destruct (k a). Qed.

Lemma lift_inr_bind (a : A) k : lift (inr a) ≫= k = k a.
Proof. unfold mbind, M_bind, bind, lift. by destruct (k a). Qed.
End monad_facts.

Lemma emit_bind {B} ev (k : unit → M B) : emit ev ≫= k = ((k tt).1, ev :: (k tt).2).
Proof. unfold mbind, M_bind, bind, emit. by destruct (k tt). Qed.

Section quiet_facts.
Context {A B : Type}.
Implicit Types (m : M A) (k : A → M B).

Lemma quiet_ret (a : A) : quiet (ret a).
Proof. constructor. Qed.

Lemma quiet_raise e : quiet (@raise A e).
Proof. constructor. Qed.

Lemma quiet_lift (r : exn + A) : quiet (lift r).
Proof. constructor. Qed.

Lemma quiet_bind m k : quiet m → (∀ a, quiet (k a)) → quiet (m ≫= k).
Proof.
  unfold quiet, no_vcs_call. intros Hm Hk. rewrite snd_bind.
  apply Forall_app. split; [done|]. destruct m.1; [constructor | apply Hk].
Qed.

Lemma quiet_try_except m (h : exn → M A) :
  quiet m → (∀ e, quiet (h e)) → quiet (try_except m h).
Proof.
  unfold quiet, no_vcs_call, try_except. intros Hm Hh.
  destruct m as [[e|a] t]; [|done].
  specialize (Hh e). destruct (h e) as [r t']. cbn in *.
  apply Forall_app. done.
Qed.
End quiet_facts.

Lemma quiet_emit ev : is_vcs_call ev = false → quiet (emit ev).
Proof. intros H. by repeat constructor. Qed.

Lemma quiet_for_fold {X S} (xs : list X) (body : S → X → M S) acc :
  (∀ acc x, quiet (body acc x)) → quiet (for_fold xs body acc).
Proof.
  intros Hb. revert acc. induction xs as [|x xs IH]; intros acc; cbn [for_fold].
  - apply quiet_ret.
  - apply quiet_bind; [apply Hb | intros a; apply IH].
Qed.

Lemma render_template_quiet env name context : quiet (render_template env name context).
Proof.
  unfold render_template.
  apply quiet_bind; [by apply quiet_emit | intros _].
  apply quiet_bind; [apply quiet_lift | intros [dir|]]; [|apply quiet_raise].
  apply quiet_for_fold. intros acc x.
  apply quiet_bind; [apply quiet_lift | intros ?; apply quiet_ret].
Qed.

Lemma render_gap_quiet env context acc g : quiet (render_gap env context acc g).
Proof.
  unfold render_gap. case_decide; [apply quiet_ret|].
  apply quiet_try_except.
  - apply quiet_bind; [apply render_template_quiet | intros ?; apply quiet_ret].
  - intros e. apply quiet_bind; [by apply quiet_emit | intros ?; apply quiet_ret].
Qed.

Lemma apply_patch_quiet acc p : quiet (apply_patch acc p).
Proof.
  unfold apply_patch.
  apply quiet_bind; [apply quiet_lift | intros ?].
  apply quiet_bind; [apply quiet_lift | intros ?; apply quiet_ret].
Qed.

Lemma generate_artifacts_quiet env plan context :
  quiet (_generate_artifacts env plan context).
Proof.
  unfold _generate_artifacts.
  apply quiet_bind; [apply quiet_for_fold; intros; apply render_gap_quiet | intros ?].
  apply quiet_bind; [apply quiet_for_fold; intros; apply apply_patch_quiet | intros ?].
  do 2 (apply quiet_bind; [apply quiet_lift | intros ?]).
  apply quiet_bind; [apply quiet_lift | intros [|? ?]; apply quiet_ret].
Qed.


Lemma no_vcs_call_app (t1 t2 : list event) :
  no_vcs_call (t1 ++ t2) ↔ no_vcs_call t1 ∧ no_vcs_call t2.
Proof. apply Forall_app. Qed.


(** ** Validation and the confidence gate *)

Lemma float_lt_spec x y : float_lt x y = true ↔ (x < y)%Q.
Proof.
  unfold float_lt. rewrite negb_true_iff, <- not_true_iff_false, Qle_bool_iff.
  split; [apply Qnot_le_lt | apply Qlt_not_le].
Qed.

Lemma float_lt_false x y : float_lt x y = false ↔ (y <= x)%Q.
Proof. unfold float_lt. by rewrite negb_false_iff, Qle_bool_iff. Qed.

Lemma validate_inr plan :
  _validate_diff_plan plan = inr tt ↔
  is_Some (dp_repo plan) ∧ (∃ a l, dp_archetypes plan = Some (a :: l))
  ∧ is_Some (dp_confidence plan) ∧ is_Some (dp_tech_stack plan)
  ∧ is_Some (dp_gaps plan).
Proof.
  destruct plan as [[r|] [[|a l]|] [c|] [t|] [g|] pp st id];
    vm_compute; (split; [try done | intros (H1 & (? & ? & H2) & H3 & H4 & H5)]);
    try done; try (by destruct H1); try (by destruct H3);
    try (by destruct H4); try (by destruct H5).
  all: try (intros _; repeat split; eauto).
Qed.


Lemma validate_error plan :
  dp_repo plan = None ∨ dp_archetypes plan = None ∨ dp_confidence plan = None
  ∨ dp_tech_stack plan = None ∨ dp_gaps plan = None ∨ dp_archetypes plan = Some [] →
  ∃ msg, _validate_diff_plan plan = inl (ValueError msg).
Proof.
  destruct plan as [[r|] [[|a l]|] [c|] [t|] [g|] pp st id]; cbn [dp_repo dp_archetypes dp_confidence dp_tech_stack dp_gaps];
    intros H; try (vm_compute; eauto; fail).
  by destruct H as [H|[H|[H|[H|[H|H]]]]].
Qed.


(** C4: a plan that lacks one of the five required keys, or whose list
    of archetypes is empty, makes [process_diff_plan] raise a
    [ValueError] with an empty trace: nothing was printed, no clock or
    template was read, no artifact was generated and no call reached the
    VCS client. *)
Theorem invalid_plan_rejected env config plan repo_url dry_run :
  dp_repo plan = None ∨ dp_archetypes plan = None ∨ dp_confidence plan = None
  ∨ dp_tech_stack plan = None ∨ dp_gaps plan = None ∨ dp_archetypes plan = Some [] →
  ∃ msg,
    process_diff_plan env config plan repo_url dry_run = (inl (ValueError msg), []).
Proof.
  intros [msg H]%validate_error. exists msg.
  unfold process_diff_plan. by rewrite H.
Qed.


Lemma invalid_plan_rejected_witness :
  ∃ msg,
    process_diff_plan Example.env default_config (Example.untyped_plan_without "gaps")
      Example.repo_url false
    = (inl (ValueError msg), []).
Proof.
  apply invalid_plan_rejected. do 4 right. left. reflexivity.
Defined.

(** C3: a plan that passes validation with a confidence below the
    threshold is skipped; the reason holds the confidence (two decimals)
    and the threshold, and the trace is empty: no context was built, no
    artifact generated, no VCS call made. *)
Theorem low_confidence_skipped env config plan repo_url dry_run c :
  _validate_diff_plan plan = inr tt →
  dp_confidence plan = Some c →
  (c < confidence_threshold config)%Q →
  process_diff_plan env config plan repo_url dry_run
  = (inr (Skipped ("Confidence " +:+ format_float env ".2f" c
                   +:+ " below threshold "
                   +:+ format_float env "" (confidence_threshold config))
                  (dp_diff_plan_id plan)), []).
Proof.
  intros Hv Hc Hlt%float_lt_spec. unfold process_diff_plan.
  rewrite Hv, lift_inr_bind, Hc. change (default 0%Q (Some c)) with c. by rewrite Hlt.
Qed.


Lemma low_confidence_skipped_witness :
  process_diff_plan Example.env default_config (Example.untyped_plan (1 # 2))
    Example.repo_url false
  = (inr (Skipped "Confidence 0.50 below threshold 0.7" None), []).
Proof.
  exact (low_confidence_skipped Example.env default_config
           (Example.untyped_plan (1 # 2)) Example.repo_url false (1 # 2)
           eq_refl eq_refl eq_refl).
Defined.

(** ** Artifact generation *)

Lemma getitem_Some (d : gmap string string) k v : d !! k = Some v → getitem d k = inr v.
Proof. unfold getitem. by intros ->. Qed.

Lemma get_Some (d : gmap string string) k v dflt : d !! k = Some v → get d k dflt = v.
Proof. unfold get. by intros ->. Qed.

Section generate.
Context (env : Env) (context : TemplateContext).
Implicit Types (g : Gap) (p : Patch) (acc : list GeneratedArtifact).

Lemma render_gap_fst acc g :
  (render_gap env context acc g).1 = inr (acc ++ rendered env context g).
Proof.
  unfold rendered, render_gap, get.
  destruct (g !! "template") as [name|]; cbn [default from_option id];
    [|cbn; by rewrite app_nil_r].
  case_decide; [cbn; by rewrite app_nil_r|].
  destruct (render_template env name context) as [[e|files] t];
    cbn; [by rewrite app_nil_r | done].
Qed.

Lemma render_gaps_fst gaps acc :
  (for_fold gaps (render_gap env context) acc).1
  = inr (acc ++ mjoin (rendered env context <$> gaps)).
Proof.
  revert acc. induction gaps as [|g gaps IH]; intros acc; cbn [for_fold].
  - cbn. by rewrite app_nil_r.
  - rewrite fst_bind, render_gap_fst, IH. cbn. by rewrite app_assoc.
Qed.

Lemma apply_patch_complete acc p :
  patch_complete p = true →
  apply_patch acc p = (inr (acc ++ [patch_artifact p]), []).
Proof.
  unfold patch_complete, apply_patch, patch_artifact.
  intros [[f Hf]%bool_decide_eq_true [a Ha]%bool_decide_eq_true]%andb_true_iff.
  by rewrite (getitem_Some _ _ _ Hf), (getitem_Some _ _ _ Ha),
    (get_Some _ _ _ _ Hf), (get_Some _ _ _ _ Ha).
Qed.

Lemma apply_patches_complete patches acc :
  forallb patch_complete patches = true →
  for_fold patches apply_patch acc = (inr (acc ++ (patch_artifact <$> patches)), []).
Proof.
  revert acc. induction patches as [|p ps IH]; intros acc; cbn [for_fold forallb].
  - intros _. cbn. by rewrite app_nil_r.
  - intros [Hp Hps]%andb_true_iff.
    rewrite (apply_patch_complete _ _ Hp). cbn. rewrite (IH _ Hps).
    cbn. by rewrite <- app_assoc.
Qed.
End generate.

Lemma gap_types_typed plan :
  gaps_typed plan = true → gap_types plan = inr (types_of plan).
Proof.
  unfold gaps_typed, gap_types, types_of.
  induction (default [] (dp_gaps plan)) as [|g gs IH]; [done|].
  cbn [forallb list_comp fmap list_fmap].
  intros [[t Ht]%bool_decide_eq_true Hgs]%andb_true_iff.
  by rewrite (IH Hgs), (getitem_Some _ _ _ Ht), (get_Some _ _ _ _ Ht).
Qed.

Lemma instrumentation_gaps_typed plan :
  gaps_typed plan = true →
  ∃ gs,
    filter_comp (default [] (dp_gaps plan))
      (λ g : Gap,
       match getitem g "type" with
       | inl e => inl e
       | inr t => inr (str_in t ["missing_otel"; "missing_correlation"])
       end) = inr gs
    ∧ (match gs with [] => false | _ :: _ => true end
       = existsb (λ t, str_in t ["missing_otel"; "missing_correlation"]) (types_of plan)).
Proof.
  unfold gaps_typed, types_of.
  induction (default [] (dp_gaps plan)) as [|g gs IH]; [by exists []|].
  cbn [forallb filter_comp fmap list_fmap existsb].
  intros [[t Ht]%bool_decide_eq_true Hgs]%andb_true_iff.
  destruct (IH Hgs) as (gs' & -> & Hex).
  rewrite (getitem_Some _ _ _ Ht), (get_Some _ _ _ _ Ht).
  destruct (str_in t _); eexists; (split; [done|]); cbn; done.
Qed.

Lemma generate_artifacts_fst env plan context :
  gaps_typed plan = true → patches_complete plan = true →
  (_generate_artifacts env plan context).1 = inr (artifact_list env plan context).
Proof.
  intros Hg Hp. unfold _generate_artifacts, artifact_list.
  rewrite fst_bind, render_gaps_fst. cbn [app].
  rewrite (apply_patches_complete _ _ Hp).
  rewrite fst_bind. cbn [fst].
  rewrite (gap_types_typed _ Hg). rewrite !lift_inr_bind.
  destruct (instrumentation_gaps_typed _ Hg) as (gs & -> & Hgs).
  rewrite lift_inr_bind. rewrite <- Hgs.
  set (listed := mjoin _ ++ _).
  destruct (existsb _ listed); cbn [negb];
    destruct (str_in "missing_lineage_spec" _);
    destruct (str_in "missing_contract" _); destruct gs; cbn [fst ret];
    rewrite ?app_nil_r, <- ?app_assoc; done.
Qed.


(** ** The run past the gate *)

(** The context of a valid plan. *)
Lemma build_context_valid env plan repo_url :
  _validate_diff_plan plan = inr tt →
  ∃ context, _build_template_context env plan repo_url = (inr context, [ClockRead]).
Proof.
  intros ([r Hr] & (a & l & Ha) & [c Hc] & _ & _)%validate_inr.
  unfold _build_template_context. rewrite Hr, Ha, Hc.
  cbn [plan_getitem]. rewrite lift_inr_bind, emit_bind, !lift_inr_bind.
  eexists. reflexivity.
Qed.

Lemma description_complete env plan artifacts context :
  gaps_complete plan = true →
  ∃ text, _generate_pr_description env plan artifacts context = inr text.
Proof.
  unfold gaps_complete, _generate_pr_description. intros H.
  assert (∃ ls, list_comp (default [] (dp_gaps plan)) gap_line = inr ls) as [ls ->].
  { induction (default [] (dp_gaps plan)) as [|g gs IH]; [by exists []|].
    cbn [forallb] in H. apply andb_true_iff in H as [Hg Hgs].
    destruct (IH Hgs) as [ls Hls]. cbn [list_comp]. rewrite Hls.
    unfold gap_complete in Hg.
    apply andb_true_iff in Hg as [[[t Ht]%bool_decide_eq_true
      [p Hp]%bool_decide_eq_true]%andb_true_iff [d Hd]%bool_decide_eq_true].
    unfold gap_line.
    rewrite (getitem_Some _ _ _ Ht), (getitem_Some _ _ _ Hp), (getitem_Some _ _ _ Hd).
    eauto. }
  eauto.
Qed.

Lemma gaps_complete_typed plan : gaps_complete plan = true → gaps_typed plan = true.
Proof.
  unfold gaps_complete, gaps_typed.
  induction (default [] (dp_gaps plan)) as [|g gs IH]; [done|]. cbn [forallb].
  intros [Hg Hgs]%andb_true_iff. rewrite (IH Hgs), andb_true_r.
  unfold gap_complete in Hg. by apply andb_true_iff in Hg as [[? ?]%andb_true_iff ?].
Qed.


Lemma create_pull_request_ok env config repo_url plan artifacts desc repo archs c :
  gateway_ok env →
  dp_repo plan = Some repo → dp_archetypes plan = Some archs →
  dp_confidence plan = Some c → gaps_typed plan = true →
  ∃ pr message title labels,
    _create_pull_request env config repo_url plan artifacts desc
    = (inr (Published (dp_diff_plan_id plan) (number pr) (url pr)
              (branch_of env config repo) (length artifacts) archs (types_of plan)),
       [ClockRead;
        Print ("  Creating branch: " +:+ branch_of env config repo);
        CreateBranch repo_url (branch_of env config repo) (default_branch config);
        Print ("  Committing " +:+ pretty (size (files_to_commit artifacts))
               +:+ " files...");
        CommitFiles repo_url (branch_of env config repo) (files_to_commit artifacts)
          message;
        Print ("  Creating PR: " +:+ title);
        CreatePullRequest repo_url title desc (branch_of env config repo)
          (default_branch config) labels;
        Print ("  PR created: " +:+ default "N/A" (url pr))]).
Proof.
  intros (Hb & Hc & Hpr) Hrepo Harch Hconf Hty.
  unfold _create_pull_request, branch_of.
  rewrite Hrepo, Harch, Hconf, (gap_types_typed _ Hty). cbn [plan_getitem].
  rewrite lift_inr_bind, emit_bind, emit_bind, emit_bind, Hb, lift_inr_bind.
  rewrite emit_bind, !lift_inr_bind, emit_bind, Hc, !lift_inr_bind.
  rewrite !emit_bind.
  match goal with
  | |- context [vcs_create_pull_request env ?u ?t ?d ?h ?b ?l] =>
      destruct (Hpr u t d h b l) as [pr ->]
  end.
  rewrite lift_inr_bind, emit_bind, lift_inr_bind. cbn.
  by eexists pr, _, _, _.
Qed.


(** The run of a valid plan that passes the gate, step by step: the
    events up to artifact generation, then the outcome by what artifact
    generation and description synthesis return. *)
Lemma process_past_gate env config plan repo_url dry_run c :
  _validate_diff_plan plan = inr tt →
  dp_confidence plan = Some c →
  (confidence_threshold config <= c)%Q →
  ∃ context head,
    _build_template_context env plan repo_url = (inr context, [ClockRead])
    ∧ no_vcs_call head
    ∧ process_diff_plan env config plan repo_url dry_run
      = let gen := _generate_artifacts env plan context in
        match gen.1 with
        | inl e => (inl e, head ++ gen.2)
        | inr artifacts =>
            let generated :=
              Print ("  Generated " +:+ pretty (length artifacts) +:+ " files") in
            match _generate_pr_description env plan artifacts context with
            | inl e => (inl e, head ++ gen.2 ++ [generated])
            | inr desc =>
                if dry_run
                then (inr (DryRun (dp_diff_plan_id plan)
                             ((λ a, (file_path a, action a)) <$> artifacts) desc),
                      head ++ gen.2 ++ [generated])
                else if auto_create_pr config
                then
                  let pr := _create_pull_request env config repo_url plan
                              artifacts desc in
                  (pr.1, head ++ gen.2
                         ++ [generated; Print (Str.nl +:+ "Creating Pull Request...")]
                         ++ pr.2)
                else (inr (ArtifactsGenerated (dp_diff_plan_id plan)
                             (length artifacts)),
                      head ++ gen.2 ++ [generated])
            end
        end.
Proof.
  intros Hv Hc Hle%float_lt_false.
  destruct (build_context_valid env plan repo_url Hv) as [context Hctx].
  pose proof Hv as ([r Hr] & (a & l & Ha) & _ & _ & _)%validate_inr.
  exists context,
    [Print ("Processing Diff Plan for: " +:+ r);
     Print ("  Archetypes: " +:+ Str.join ", " (a :: l));
     Print ("  Confidence: " +:+ format_float env ".0%" c);
     Print ("  Gaps: " +:+ pretty (length (default [] (dp_gaps plan))));
     ClockRead;
     Print (Str.nl +:+ "Generating artifacts...")].
  split; [done|]. split; [by repeat constructor|].
  unfold process_diff_plan.
  rewrite Hv, lift_inr_bind, Hc. change (default 0%Q (Some c)) with c.
  rewrite Hle, Hr, Ha. cbn [plan_getitem].
  rewrite lift_inr_bind, emit_bind, lift_inr_bind, !emit_bind, Hctx.
  rewrite pair_inr_bind, emit_bind.
  destruct (_generate_artifacts env plan context) as [[e|artifacts] t].
  { reflexivity. }
  rewrite pair_inr_bind, emit_bind. cbv zeta. cbn [fst snd].
  destruct (_generate_pr_description env plan artifacts context) as [e|desc].
  { cbn. by rewrite ?app_nil_r. }
  rewrite lift_inr_bind. destruct dry_run.
  { cbn. by rewrite ?app_nil_r. }
  destruct (auto_create_pr config).
  - rewrite emit_bind.
    destruct (_create_pull_request env config repo_url plan artifacts desc) as [r' t'].
    cbn. by rewrite <- ?app_assoc.
  - cbn. by rewrite ?app_nil_r.
Qed.


(** C2 (amended): a valid plan at or above the threshold whose gaps and
    patch instructions carry the keys the pipeline reads returns exactly
    one result: DryRun when [dry_run] is set, with the manifest of the
    generated artifacts and no VCS call; otherwise Published when
    auto-publish is on and the VCS client raises nothing, counting the
    generated artifacts; otherwise the artifacts-generated outcome, which
    carries the number of generated artifacts, with no VCS call. *)
Theorem process_outcome_by_mode env config plan repo_url dry_run c :
  _validate_diff_plan plan = inr tt →
  dp_confidence plan = Some c →
  (confidence_threshold config <= c)%Q →
  gaps_complete plan = true → patches_complete plan = true →
  (dry_run = false → auto_create_pr config = true → gateway_ok env) →
  ∃ r trace context artifacts,
    process_diff_plan env config plan repo_url dry_run = (inr r, trace)
    ∧ (_build_template_context env plan repo_url).1 = inr context
    ∧ (_generate_artifacts env plan context).1 = inr artifacts
    ∧ (if dry_run
       then is_dry_run r = true ∧ no_vcs_call trace
            ∧ ∃ desc,
                r = DryRun (dp_diff_plan_id plan)
                      ((λ a, (file_path a, action a)) <$> artifacts) desc
       else if auto_create_pr config
       then is_published r = true
            ∧ ∃ pr branch archetypes types,
                r = Published (dp_diff_plan_id plan) (number pr) (url pr) branch
                      (length artifacts) archetypes types
       else r = ArtifactsGenerated (dp_diff_plan_id plan) (length artifacts)
            ∧ no_vcs_call trace).
Proof.
  intros Hv Hc Hle Hg Hp Hgw.
  destruct (process_past_gate env config plan repo_url dry_run c Hv Hc Hle)
    as (context & head & Hctx & Hhead & ->).
  pose proof (generate_artifacts_quiet env plan context) as Hq.
  pose proof (generate_artifacts_fst env plan context (gaps_complete_typed _ Hg) Hp)
    as Hgen.
  cbv zeta. rewrite Hgen.
  destruct (description_complete env plan (artifact_list env plan context) context Hg)
    as [desc ->].
  destruct dry_run.
  { eexists _, _, context, _. split; [done|]. split; [by rewrite Hctx|].
    split; [exact Hgen|]. split; [done|]. split; [|by exists desc].
    rewrite !no_vcs_call_app. repeat split; [done..|by repeat constructor]. }
  destruct (auto_create_pr config).
  - pose proof Hv as ([r Hr] & (a & l & Ha) & _ & _ & _)%validate_inr.
    destruct (create_pull_request_ok env config repo_url plan
                (artifact_list env plan context) desc r (a :: l) c
                (Hgw eq_refl eq_refl) Hr Ha Hc (gaps_complete_typed _ Hg))
      as (pr & message & title & labels & ->).
    eexists _, _, context, _. split; [done|]. split; [by rewrite Hctx|].
    split; [exact Hgen|]. split; [done|]. by eexists pr, _, _, _.
  - eexists _, _, context, _. split; [done|]. split; [by rewrite Hctx|].
    split; [exact Hgen|]. split; [done|].
    rewrite !no_vcs_call_app. repeat split; [done..|by repeat constructor].
Qed.


Lemma process_outcome_by_mode_witness :
  ∃ r trace context artifacts,
    process_diff_plan Example.env Example.manual_config Example.plan
      Example.repo_url false
    = (inr r, trace)
    ∧ (_build_template_context Example.env Example.plan Example.repo_url).1
      = inr context
    ∧ (_generate_artifacts Example.env Example.plan context).1 = inr artifacts
    ∧ r = ArtifactsGenerated None (length artifacts)
    ∧ no_vcs_call trace.
Proof.
  apply (process_outcome_by_mode Example.env Example.manual_config Example.plan
           Example.repo_url false (87 # 100));
    [reflexivity | reflexivity | by apply Qle_bool_imp_le | reflexivity
    | reflexivity | ].
  intros _ [=].
Defined.

(** C2, as stated, fails: with auto-publish off and [dry_run] unset the
    example plan yields the artifacts-generated outcome, neither DryRun
    nor Published. *)
Lemma auto_publish_off_counterexample :
  let run := process_diff_plan Example.env Example.manual_config Example.plan
               Example.repo_url false in
  _validate_diff_plan Example.plan = inr tt
  ∧ (confidence_threshold Example.manual_config <= 87 # 100)%Q
  ∧ run.1 = inr (ArtifactsGenerated None 2)
  ∧ ¬ ∃ r, run.1 = inr r ∧ (is_dry_run r = true ∨ is_published r = true).
Proof.
  split; [reflexivity|]. split; [by apply Qle_bool_imp_le|].
  split; [by vm_compute|].
  intros (r & Hr & H). vm_compute in Hr. inversion Hr; subst r.
  by destruct H.
Qed.

(** ** A gap without a type *)

Ltac elem_solver :=
  repeat first [apply list_elem_of_here | apply list_elem_of_further].

Lemma gap_types_cases plan :
  (gaps_typed plan = true ∧ gap_types plan = inr (types_of plan))
  ∨ (gaps_typed plan = false ∧ gap_types plan = inl (KeyError "type")).
Proof.
  destruct (gaps_typed plan) eqn:H; [left; eauto using gap_types_typed | right].
  split; [done|]. revert H. unfold gaps_typed, gap_types.
  induction (default [] (dp_gaps plan)) as [|g gs IH]; [done|].
  cbn [forallb list_comp]. unfold gap_typed at 1, getitem at 1.
  destruct (g !! "type") as [t|] eqn:Ht; [|done].
  rewrite bool_decide_eq_true_2 by eauto. cbn [andb].
  intros ->%IH. done.
Qed.

Lemma gaps_typed_false plan (g : Gap) :
  g ∈ default [] (dp_gaps plan) → g !! "type" = None → gaps_typed plan = false.
Proof.
  intros Hin Hg. unfold gaps_typed. apply not_true_iff_false.
  rewrite forallb_forall. intros H.
  apply list_elem_of_In, H in Hin. unfold gap_typed in Hin.
  apply bool_decide_eq_true in Hin as [? ?]. congruence.
Qed.

(** The loop over the patch plan either appends every instruction or
    stops at the first one that lacks a key, whatever the list before. *)
Lemma apply_patches_cases (patches : list Patch) :
  (forallb patch_complete patches = true)
  ∨ ∃ key, key ∈ ["file"; "action"]
         ∧ ∀ acc, for_fold patches apply_patch acc = (inl (KeyError key), []).
Proof.
  induction patches as [|p ps IH]; [by left|].
  cbn [forallb]. destruct (patch_complete p) eqn:Hp.
  - destruct IH as [->|(key & Hk & Hf)]; [by left | right].
    exists key. split; [done|]. intros acc. cbn [for_fold].
    by rewrite (apply_patch_complete acc p Hp), pair_inr_bind, Hf.
  - right. unfold patch_complete in Hp.
    destruct (p !! "file") as [f|] eqn:Hf.
    + destruct (p !! "action") as [a|] eqn:Ha.
      { rewrite !bool_decide_eq_true_2 in Hp by eauto. done. }
      exists "action". split; [elem_solver|]. intros acc. cbn [for_fold].
      unfold apply_patch, getitem. by rewrite Hf, Ha.
    + exists "file". split; [elem_solver|]. intros acc. cbn [for_fold].
      unfold apply_patch, getitem. by rewrite Hf.
Qed.

Lemma generate_artifacts_untyped env plan :
  gaps_typed plan = false →
  ∃ key, key ∈ ["file"; "action"; "type"]
       ∧ (patches_complete plan = true → key = "type")
       ∧ ∀ context, (_generate_artifacts env plan context).1 = inl (KeyError key).
Proof.
  intros Hg. destruct (gap_types_cases plan) as [[? _]|[_ Hty]]; [congruence|].
  destruct (apply_patches_cases (default [] (dp_patch_plan plan)))
    as [Hp|(key & Hk & Hf)].
  - exists "type". split; [elem_solver|]. split; [done|]. intros context.
    unfold _generate_artifacts.
    rewrite fst_bind, render_gaps_fst, (apply_patches_complete _ _ Hp).
    by rewrite pair_inr_bind, Hty.
  - exists key. split; [by apply list_elem_of_In; apply list_elem_of_In in Hk; cbn in *; intuition|]. split.
    + unfold patches_complete. intros Hp.
      specialize (Hf []). rewrite (apply_patches_complete _ _ Hp) in Hf. done.
    + intros context. unfold _generate_artifacts.
      by rewrite fst_bind, render_gaps_fst, Hf.
Qed.


(** C9 (amended): when a valid plan at or above the threshold has a gap
    without a ["type"] key, the loop over the gaps still completes, and
    the run then stops with a [KeyError] raised by artifact generation
    outside that loop, before any VCS call; the key is ["type"] when
    every patch instruction carries its file and action. *)
Theorem untyped_gap_aborts_run env config plan repo_url dry_run c (g : Gap) :
  _validate_diff_plan plan = inr tt →
  dp_confidence plan = Some c →
  (confidence_threshold config <= c)%Q →
  g ∈ default [] (dp_gaps plan) → g !! "type" = None →
  (∀ context, ∃ artifacts,
     (for_fold (default [] (dp_gaps plan)) (render_gap env context) []).1
     = inr artifacts)
  ∧ ∃ key trace,
      process_diff_plan env config plan repo_url dry_run = (inl (KeyError key), trace)
      ∧ key ∈ ["file"; "action"; "type"]
      ∧ (patches_complete plan = true → key = "type")
      ∧ (∀ context, (_generate_artifacts env plan context).1 = inl (KeyError key))
      ∧ no_vcs_call trace.
Proof.
  intros Hv Hc Hle Hin Hg. split.
  { intros context. eexists. apply render_gaps_fst. }
  destruct (generate_artifacts_untyped env plan (gaps_typed_false _ _ Hin Hg))
    as (key & Hk & Hp & Hgen).
  destruct (process_past_gate env config plan repo_url dry_run c Hv Hc Hle)
    as (context & head & _ & Hhead & ->).
  cbv zeta. rewrite Hgen. exists key. eexists. split; [done|].
  repeat split; try done.
  rewrite no_vcs_call_app. split; [done | apply generate_artifacts_quiet].
Qed.


Lemma untyped_gap_aborts_run_witness :
  ∃ key trace,
    process_diff_plan Example.env default_config (Example.untyped_plan (9 # 10))
      Example.repo_url false
    = (inl (KeyError key), trace)
    ∧ key = "type".
Proof.
  destruct (untyped_gap_aborts_run Example.env default_config
              (Example.untyped_plan (9 # 10)) Example.repo_url false (9 # 10)
              (<["description" := "no spans"]> (<["priority" := "P1"]> ∅))
              eq_refl eq_refl (Qle_bool_imp_le (7 # 10) (9 # 10) eq_refl)
              (list_elem_of_here _ _) eq_refl)
    as (_ & key & trace & Hrun & _ & Hkey & _).
  exists key, trace. split; [exact Hrun | exact (Hkey eq_refl)].
Defined.

(** C9, as stated, fails below the threshold: the same plan with
    confidence 0.5 passes validation, has a gap without a type, and is
    skipped without any error. *)
Lemma untyped_gap_skipped_counterexample :
  _validate_diff_plan (Example.untyped_plan (1 # 2)) = inr tt
  ∧ (∃ g : Gap, dp_gaps (Example.untyped_plan (1 # 2)) = Some [g]
                ∧ g !! "type" = None)
  ∧ process_diff_plan Example.env default_config (Example.untyped_plan (1 # 2))
      Example.repo_url false
    = (inr (Skipped "Confidence 0.50 below threshold 0.7" None), []).
Proof.
  split; [reflexivity|]. split; [|by vm_compute].
  eexists. split; reflexivity.
Qed.

(** ** Recovery from a failed rendering *)











(** ** The lineage spec *)

Lemma count_path_app path (l1 l2 : list GeneratedArtifact) :
  count_path path (l1 ++ l2) = count_path path l1 + count_path path l2.
Proof. unfold count_path. by rewrite List.filter_app, length_app. Qed.

Lemma count_path_cons path (a : GeneratedArtifact) l :
  count_path path (a :: l) = count_path path [a] + count_path path l.
Proof. apply (count_path_app path [a] l). Qed.

Lemma count_path_one path (a : GeneratedArtifact) :
  count_path path [a] = if decide (file_path a = path) then 1 else 0.
Proof.
  unfold count_path. cbn [List.filter].
  destruct (String.eqb_spec (file_path a) path); by case_decide.
Qed.

Lemma count_path_join path (ls : list (list GeneratedArtifact)) :
  Forall (λ l, count_path path l = 0) ls → count_path path (mjoin ls) = 0.
Proof.
  induction 1 as [|l ls Hl _ IH]; [done|].
  change (mjoin (l :: ls)) with (l ++ mjoin ls). by rewrite count_path_app, Hl, IH.
Qed.

Lemma test_path_head context :
  ∃ c r, _get_test_path context = String c r ∧ c ≠ "l"%char.
Proof.
  unfold _get_test_path, get. rewrite !lookup_insert, lookup_empty.
  repeat case_decide; eexists _, _; (split; [reflexivity | done]).
Qed.


(** C6 (amended): when every gap has a type, every patch instruction its
    file and action, and neither a patch instruction nor a rendered gap
    template targets [lineage/{service_name}.yaml], the generated list
    holds exactly one artifact at that path if some gap has type
    [missing_lineage_spec], and none otherwise. *)
Theorem lineage_artifact_count env plan context :
  gaps_typed plan = true → patches_complete plan = true →
  let path := "lineage/" +:+ service_name context +:+ ".yaml" in
  (∀ g : Gap, g ∈ default [] (dp_gaps plan) →
     count_path path (rendered env context g) = 0) →
  (∀ p : Patch, p ∈ default [] (dp_patch_plan plan) → p !! "file" ≠ Some path) →
  ∃ artifacts trace,
    _generate_artifacts env plan context = (inr artifacts, trace)
    ∧ ((∃ g : Gap, g ∈ default [] (dp_gaps plan)
                  ∧ g !! "type" = Some "missing_lineage_spec") →
       count_path path artifacts = 1)
    ∧ ((∀ g : Gap, g ∈ default [] (dp_gaps plan) →
                  g !! "type" ≠ Some "missing_lineage_spec") →
       count_path path artifacts = 0).
Proof.
  intros Hty Hp path Hgaps Hpatches.
  exists (artifact_list env plan context), (_generate_artifacts env plan context).2.
  split.
  { rewrite <- (generate_artifacts_fst env plan context Hty Hp).
    by destruct (_generate_artifacts env plan context). }
  assert (count_path path (artifact_list env plan context)
          = if str_in "missing_lineage_spec" (types_of plan) then 1 else 0) as ->.
  { unfold artifact_list. rewrite !count_path_app.
    assert (count_path path
              (mjoin (rendered env context <$> default [] (dp_gaps plan))) = 0) as ->.
    { apply count_path_join, Forall_fmap, Forall_forall. intros g Hg. by apply Hgaps. }
    assert (count_path path (patch_artifact <$> default [] (dp_patch_plan plan)) = 0)
      as ->.
    { revert Hp Hpatches. unfold patches_complete.
      induction (default [] (dp_patch_plan plan)) as [|p ps IH]; [done|].
      cbn [forallb]. intros [Hc Hps]%andb_true_iff Hne.
      rewrite fmap_cons, count_path_cons, count_path_one.
      rewrite IH; [|done|intros q Hq; apply Hne; by right].
      unfold patch_complete in Hc.
      apply andb_true_iff in Hc as [[f Hf]%bool_decide_eq_true _].
      cbn [patch_artifact file_path]. rewrite (get_Some _ _ _ _ Hf).
      case_decide as Heq; [|done]. subst f. by destruct (Hne p (list_elem_of_here _ _)). }
    assert (∀ a : GeneratedArtifact,
              (∃ c r, file_path a = String c r ∧ c ≠ "l"%char) →
              count_path path [a] = 0) as Hother.
    { intros a (c & r & Ha & Hc). rewrite count_path_one, Ha.
      case_decide as Heq; [|done]. by inversion Heq. }
    set (listed := existsb _ _).
    assert (count_path path (if listed then [] else [runbook_artifact env context]) = 0)
      as ->.
    { destruct listed; [done|]. apply Hother. by eexists _, _. }
    assert (∀ b : bool,
              count_path path (if b then [contract_artifact env context] else []) = 0)
      as ->.
    { intros [|]; [|done]. apply Hother. by eexists _, _. }
    assert (∀ b : bool,
              count_path path (if b then [test_artifact env context] else []) = 0) as ->.
    { intros [|]; [|done]. apply Hother, test_path_head. }
    destruct (str_in "missing_lineage_spec" (types_of plan)); [|done].
    rewrite count_path_one. cbn [lineage_artifact file_path]. by case_decide. }
  unfold str_in, types_of.
  split.
  - intros (g & Hin & Hg). rewrite bool_decide_eq_true_2; [done|].
    apply list_elem_of_fmap. exists g. by rewrite (get_Some _ _ _ _ Hg).
  - intros Hnone. rewrite bool_decide_eq_false_2; [done|].
    intros (g & Hg & Hin)%list_elem_of_fmap.
    assert (gap_typed g = true) as [t Ht]%bool_decide_eq_true.
    { revert Hty. unfold gaps_typed. rewrite forallb_forall. intros H.
      by apply H, list_elem_of_In. }
    rewrite (get_Some _ _ _ _ Ht) in Hg. subst t. by apply (Hnone g).
Qed.


Lemma lineage_artifact_count_witness :
  ∃ artifacts trace,
    _generate_artifacts Example.env Example.lineage_plan Example.patched_context
    = (inr artifacts, trace)
    ∧ count_path "lineage/billing.yaml" artifacts = 1.
Proof.
  destruct (lineage_artifact_count Example.env Example.lineage_plan
              Example.patched_context eq_refl eq_refl)
    as (artifacts & trace & Hrun & Hone & _).
  - intros g ->%list_elem_of_singleton. reflexivity.
  - intros p Hp. by apply elem_of_nil in Hp.
  - exists artifacts, trace. split; [exact Hrun|]. apply Hone.
    eexists. split; [apply list_elem_of_here | reflexivity].
Defined.

(** C6, as stated, fails: a patch instruction is copied through, so a
    plan without any gap yields an artifact at the lineage path, and a
    plan with a [missing_lineage_spec] gap and such a patch yields two. *)
Lemma lineage_path_from_patch_counterexample :
  _validate_diff_plan Example.patched_plan = inr tt
  ∧ (confidence_threshold default_config <= 9 # 10)%Q
  ∧ (_build_template_context Example.env Example.patched_plan Example.repo_url).1
    = inr Example.patched_context
  ∧ dp_gaps Example.patched_plan = Some []
  ∧ (∃ artifacts,
       (_generate_artifacts Example.env Example.patched_plan
          Example.patched_context).1 = inr artifacts
       ∧ count_path "lineage/billing.yaml" artifacts = 1)
  ∧ (∃ artifacts,
       (_generate_artifacts Example.env
          (with_gaps Example.patched_plan (default [] (dp_gaps Example.lineage_plan)))
          Example.patched_context).1 = inr artifacts
       ∧ count_path "lineage/billing.yaml" artifacts = 2).
Proof.
  split; [reflexivity|]. split; [by apply Qle_bool_imp_le|].
  split; [by vm_compute|]. split; [reflexivity|].
  split; eexists; (split; [by vm_compute | by vm_compute]).
Qed.

(** ** The committed file set *)

Section files.
Implicit Types (a : GeneratedArtifact) (l : list GeneratedArtifact) (path : string).

Lemma files_to_commit_snoc l a :
  files_to_commit (l ++ [a]) = <[file_path a := content a]> (files_to_commit l).
Proof. unfold files_to_commit. by rewrite foldl_snoc. Qed.

Lemma files_to_commit_lookup l path :
  files_to_commit l !! path
  = content <$> last (filter (λ a, file_path a = path) l).
Proof.
  induction l as [|a l IH] using rev_ind; [done|].
  rewrite files_to_commit_snoc, filter_app, filter_cons, filter_nil.
  destruct (decide (file_path a = path)) as [<-|Hne].
  - by rewrite lookup_insert_eq, last_snoc.
  - by rewrite lookup_insert_ne, app_nil_r.
Qed.

Lemma files_to_commit_is_Some l path :
  is_Some (files_to_commit l !! path) ↔ path ∈ file_path <$> l.
Proof.
  induction l as [|a l IH] using rev_ind.
  - cbn. rewrite lookup_empty, elem_of_nil. split; [by intros [? ?] | done].
  - rewrite files_to_commit_snoc, fmap_app, elem_of_app, <- IH.
    cbn [fmap list_fmap]. rewrite list_elem_of_singleton.
    destruct (decide (file_path a = path)) as [<-|Hne].
    + rewrite lookup_insert_eq. split; eauto.
    + rewrite lookup_insert_ne by done. split; [eauto | intros [?|?]; congruence].
Qed.

Lemma files_to_commit_size l :
  (size (files_to_commit l) ≤ length l)%nat
  ∧ (size (files_to_commit l) = length l ↔ NoDup (file_path <$> l)).
Proof.
  induction l as [|a l [IHle IHeq]] using rev_ind.
  - split; [done|]. split; [constructor | done].
  - rewrite files_to_commit_snoc, map_size_insert, length_app, fmap_app.
    cbn [length fmap list_fmap]. rewrite NoDup_app.
    pose proof (files_to_commit_is_Some l (file_path a)) as Hin.
    destruct (files_to_commit l !! file_path a) as [v|].
    + split; [cbn; lia|]. split; [cbn; lia|].
      intros (_ & Hdisj & _). destruct (Hdisj (file_path a)).
      * apply Hin. eauto.
      * apply list_elem_of_here.
    + split; [lia|]. rewrite <- IHeq. split.
      * intros H. split; [lia|]. split; [|apply NoDup_singleton].
        intros x Hx ->%list_elem_of_singleton.
        apply Hin in Hx as [? ?]. done.
      * intros (H & _). lia.
Qed.
End files.


(** C10: when the VCS client raises nothing, [_create_pull_request]
    hands [commit_files] the dict keyed by artifact path, in which each
    path holds the content of the last artifact at that path, and returns
    Published with [files_changed] the length of the whole list; that
    count exceeds the number of committed files exactly when two
    artifacts share a path. *)
Theorem commit_keyed_by_path env config repo_url plan artifacts desc repo archs c :
  gateway_ok env →
  dp_repo plan = Some repo → dp_archetypes plan = Some archs →
  dp_confidence plan = Some c → gaps_typed plan = true →
  let files := files_to_commit artifacts in
  (∃ pr trace,
     _create_pull_request env config repo_url plan artifacts desc
     = (inr (Published (dp_diff_plan_id plan) (number pr) (url pr)
               (branch_of env config repo) (length artifacts) archs (types_of plan)),
        trace)
     ∧ committed trace = Some files
     ∧ ∀ u b f m, CommitFiles u b f m ∈ trace → f = files)
  ∧ (∀ path,
       files !! path = content <$> last (filter (λ a, file_path a = path) artifacts))
  ∧ (size files ≤ length artifacts)%nat
  ∧ ((size files < length artifacts)%nat ↔ ¬ NoDup (file_path <$> artifacts)).
Proof.
  intros Hgw Hrepo Harch Hconf Hty files.
  destruct (create_pull_request_ok env config repo_url plan artifacts desc repo archs c
              Hgw Hrepo Harch Hconf Hty) as (pr & message & title & labels & ->).
  pose proof (files_to_commit_size artifacts) as [Hle Heq].
  split; [|split; [apply files_to_commit_lookup|split; [done|]]].
  - exists pr. eexists. split; [done|]. split; [done|].
    intros u b f m Hin. apply list_elem_of_In in Hin. cbn in Hin.
    repeat (destruct Hin as [Hin|Hin]; [by inversion Hin|]). done.
  - fold files in Hle, Heq. rewrite <- Heq. lia.
Qed.


Lemma commit_keyed_by_path_witness :
  let artifacts := artifact_list Example.env Example.patched_plan
                     Example.patched_context in
  files_to_commit artifacts !! "config/app.yaml" = Some "mode: b"
  ∧ (size (files_to_commit artifacts) < length artifacts)%nat.
Proof.
  intros artifacts.
  destruct (commit_keyed_by_path Example.env default_config Example.repo_url
              Example.patched_plan artifacts "" "billing" ["rest-service"] (9 # 10))
    as (_ & Hlookup & Hle & Hlt).
  - repeat split; intros; eauto.
  - reflexivity.
  - reflexivity.
  - reflexivity.
  - reflexivity.
  - split; [rewrite Hlookup; by vm_compute|].
    apply Hlt. intros Hnd. vm_compute in Hnd.
    apply NoDup_cons in Hnd as [_ Hnd]. apply NoDup_cons in Hnd as [Hin _].
    apply Hin, list_elem_of_here.
Defined.

(** ** The example plan of the specification *)

(** C1: in every environment the example plan yields a telemetry-test
    artifact, the last of the list, at the path
    [src/test/java/com/company/orders/enricher/otel/OrdersenricherOtelInterceptorTest.java];
    without a template directory the dry run lists the runbook and that
    file only, while the rendered test declares the class
    [OrdersEnricherOtelInterceptorTest]. *)
Theorem example_plan_test_path :
  let path :=
    "src/test/java/com/company/orders/enricher/otel/OrdersenricherOtelInterceptorTest.java" in
  (∀ env, ∃ context front,
     (_build_template_context env Example.plan Example.repo_url).1 = inr context
     ∧ (_generate_artifacts env Example.plan context).1
       = inr (front ++ [test_artifact env context])
     ∧ file_path (test_artifact env context) = path)
  ∧ (∃ desc trace,
       process_diff_plan Example.env default_config Example.plan Example.repo_url true
       = (inr (DryRun None [("RUNBOOK.md", "create"); (path, "create")] desc), trace))
  ∧ Str.contains "class OrdersEnricherOtelInterceptorTest {"
      (render_telemetry_test Example.env Example.context) = true.
Proof.
  intros path. split; [|split].
  - intros env. exists (Example.context_in env). eexists.
    split; [reflexivity|]. split; [|reflexivity].
    rewrite generate_artifacts_fst by reflexivity.
    unfold artifact_list.
    change (types_of Example.plan) with ["missing_otel"].
    change (str_in "missing_lineage_spec" ["missing_otel"]) with false.
    change (str_in "missing_contract" ["missing_otel"]) with false.
    change (existsb _ ["missing_otel"]) with true.
    cbv iota. cbn [app]. rewrite app_assoc. reflexivity.
  - eexists _, _. by vm_compute.
  - by vm_compute.
Qed.

(** ** Further examples *)

Example namespace_of_hyphenated_service :
  namespace Example.context = "orders" ∧ namespace Example.patched_context = "default".
Proof. done. Qed.

Example title_joins_words :
  Str.title (Str.replace "-" "" "orders-enricher") = "Ordersenricher"
  ∧ Str.join "" (Str.capitalize <$> Str.split "-" "orders-enricher") = "OrdersEnricher".
Proof. done. Qed.

Example sub_leftmost_matches :
  Re.sub (λ n, "<" +:+ n +:+ ">") "a${X}$${Y_1}${}${Z${a-b}${q}"
  = "a<X>$<Y_1>${}${Z${a-b}<q>".
Proof. reflexivity. Qed.

Example duplicate_path_run :
  let run := process_diff_plan Example.env default_config Example.patched_plan
               Example.repo_url false in
  run.1 = inr (Published (Some "dp-42") (Some 7%Z)
                 (Some "https://github.com/acme/pull/7")
                 "autopilot/observability-billing-1767522600" 4 ["rest-service"] [])
  ∧ (λ files : gmap string string, (size files, files !! "config/app.yaml"))
      <$> committed run.2 = Some (3, Some "mode: b").
Proof. by vm_compute. Qed.

Example rendered_template_files :
  (λ a, (file_path a, content a, template a))
    <$> rendered Example.env_with_templates Example.context Example.otel_gap
  = [("src/main/java/com/company/orders/enricher/OrdersEnricherOtelInterceptor.java",
      "class OrdersEnricherOtelInterceptor {}", Some "kafka-consumer-otel-java");
     ("src/main/resources/application.yaml",
      "service: orders-enricher", Some "kafka-consumer-otel-java")].
Proof. by vm_compute. Qed.

Example template_not_found :
  render_template Example.env_with_templates "kafka-producer-otel-java" Example.context
  = (inl (ValueError "Template not found: kafka-producer-otel-java"),
     [TemplateLookup "kafka-producer-otel-java"]).
Proof. by vm_compute. Qed.

Example unreadable_template_is_skipped :
  render_gap Example.env_with_templates Example.context []
    (<["template" := "kafka-consumer-otel-python"]> ∅)
  = (inr [],
     [TemplateLookup "kafka-consumer-otel-python";
      Print "  Warning: Failed to render template kafka-consumer-otel-python: Permission denied"]).
Proof. by vm_compute. Qed.

Example dry_run_with_templates :
  ∃ desc,
    (process_diff_plan Example.env_with_templates default_config Example.plan
       Example.repo_url true).1
    = inr (DryRun None
             [("src/main/java/com/company/orders/enricher/OrdersEnricherOtelInterceptor.java",
               "create");
              ("src/main/resources/application.yaml", "create");
              ("RUNBOOK.md", "create");
              ("src/test/java/com/company/orders/enricher/otel/OrdersenricherOtelInterceptorTest.java",
               "create")] desc).
Proof. eexists. by vm_compute. Qed.

(** * Further properties of the pipeline and of the clients *)

(** ** Placeholders and resolved templates *)

Section placeholder_facts.
Implicit Types (s t name rest : string) (repl : string → string).

Lemma names_from_fuel n m s :
  (String.length s ≤ n)%nat → (String.length s ≤ m)%nat →
  Placeholders.names_from n s = Placeholders.names_from m s.
Proof.
  revert m s. induction n as [|n IH]; intros m s Hn Hm.
  - destruct s; [|cbn in Hn; lia]. by destruct m.
  - destruct m as [|m].
    { destruct s; [done | cbn in Hm; lia]. }
    cbn. destruct (Re.match_variable s) as [[name rest]|] eqn:E.
    + apply match_variable_shorter in E. f_equal. apply IH; lia.
    + destruct s as [|c r]; [done|]. cbn in Hn, Hm. apply IH; lia.
Qed.

Lemma names_match s name rest :
  Re.match_variable s = Some (name, rest) →
  Placeholders.names s = name :: Placeholders.names rest.
Proof.
  intros E. pose proof (match_variable_shorter _ _ _ E) as Hlt.
  unfold Placeholders.names. destruct (String.length s) as [|n] eqn:El; [lia|].
  cbn. rewrite E. f_equal. apply names_from_fuel; lia.
Qed.

Lemma names_skip c r :
  Re.match_variable (String c r) = None →
  Placeholders.names (String c r) = Placeholders.names r.
Proof.
  intros E. unfold Placeholders.names.
  cbn [String.length Placeholders.names_from]. by rewrite E.
Qed.

Lemma contains_char_app c s t :
  Str.contains_char c (s +:+ t) = Str.contains_char c s || Str.contains_char c t.
Proof.
  induction s as [|d s IH]; [done|].
  rewrite str_app_cons. cbn [Str.contains_char]. by rewrite IH, orb_assoc.
Qed.

(** Induction on a text along the scan of [pattern.sub]. *)
Lemma scan_ind (P : string → Prop) :
  P "" →
  (∀ s name rest, Re.match_variable s = Some (name, rest) → P rest → P s) →
  (∀ c r, Re.match_variable (String c r) = None → P r → P (String c r)) →
  ∀ s, P s.
Proof.
  intros Hnil Hmatch Hskip s.
  remember (String.length s) as n eqn:Hn. revert s Hn.
  induction n as [n IH] using lt_wf_ind. intros s ->.
  destruct s as [|c r]; [done|].
  destruct (Re.match_variable (String c r)) as [[name rest]|] eqn:E.
  - apply (Hmatch _ _ _ E), (IH _ (match_variable_shorter _ _ _ E) _ eq_refl).
  - apply (Hskip _ _ E), (IH (String.length r)); [cbn; lia | done].
Qed.

Lemma sub_dollar_free repl t :
  Placeholders.dollars_matched t = true →
  Forall (λ n, Str.contains_char "$" (repl n) = false) (Placeholders.names t) →
  Str.contains_char "$" (Re.sub repl t) = false.
Proof.
  unfold Placeholders.dollars_matched. rewrite negb_true_iff.
  induction t as [|s name rest E IH|c r E IH] using scan_ind; [done| |].
  - rewrite (sub_match _ _ _ _ E), (sub_match repl _ _ _ E), (names_match _ _ _ E).
    rewrite str_app_nil_l, contains_char_app.
    intros Hd [Hn Hr]%Forall_cons. by rewrite Hn, IH.
  - rewrite (sub_skip _ _ _ E), (sub_skip repl _ _ E), (names_skip _ _ E).
    cbn [Str.contains_char]. intros [Hc Hd]%orb_false_iff Hr. by rewrite Hc, IH.
Qed.

Lemma no_dollar_no_placeholder s :
  Str.contains_char "$" s = false → Re.search s = false.
Proof.
  induction s as [|c r IH]; [done|]. cbn [Str.contains_char Re.search].
  intros [Hc Hr]%orb_false_iff. rewrite (IH Hr), orb_false_r.
  apply bool_decide_eq_false. intros [[name rest] E].
  apply match_variable_split in E as [E _]. rewrite placeholder_cons in E.
  inversion E; subst. by rewrite Ascii.eqb_refl in Hc.
Qed.
End placeholder_facts.

(** X1: a template none of whose placeholders is bound is its own
    interpolation; in particular a text without placeholders, and every
    text under the empty mapping. *)
Theorem interpolate_unbound_identity env (t : string) (variables : gmap string value) :
  Forall (λ n, variables !! n = None) (Placeholders.names t) →
  _interpolate env t variables = t.
Proof.
  unfold _interpolate.
  induction t as [|s name rest E IH|c r E IH] using scan_ind; [done| |].
  - rewrite (names_match _ _ _ E), (sub_match _ _ _ _ E).
    intros [Hn Hr]%Forall_cons. rewrite (IH Hr), (replace_var_unknown _ _ _ Hn).
    by apply match_variable_split in E as [-> _].
  - rewrite (names_skip _ _ E), (sub_skip _ _ _ E). intros Hr. by rewrite IH.
Qed.

Lemma interpolate_unbound_identity_witness :
  _interpolate Example.env "kubectl logs -l app=${SERVICE_NAME} | grep $USER"
    (<["NAMESPACE" := vstr "orders"]> ∅)
  = "kubectl logs -l app=${SERVICE_NAME} | grep $USER".
Proof.
  apply interpolate_unbound_identity. vm_compute. repeat constructor.
Defined.

Lemma replace_var_bound env (variables : gmap string value) name :
  Placeholders.dollar_free env variables → is_Some (variables !! name) →
  Str.contains_char "$" (replace_var env variables name) = false.
Proof.
  intros Hfree [v Hv]. unfold replace_var. rewrite Hv. cbn [default from_option id].
  specialize (Hfree _ _ Hv). by destruct v.
Qed.

Lemma builtin_template_cases (key : string) :
  _get_builtin_template key ∈
    [""; _builtin_runbook_template; _builtin_lineage_template;
     _builtin_contract_template; _builtin_java_test_template;
     _builtin_python_test_template; _builtin_go_test_template].
Proof.
  unfold _get_builtin_template, get. rewrite !lookup_insert, lookup_empty.
  repeat case_decide; cbn [default from_option id];
    repeat first [apply list_elem_of_here | apply list_elem_of_further].
Qed.

Ltac names_bound :=
  match goal with
  | |- Forall _ (Placeholders.names ?T) =>
      let l := eval vm_compute in (Placeholders.names T) in
      replace (Placeholders.names T) with l by (vm_compute; reflexivity)
  end;
  repeat (once constructor);
  (apply replace_var_bound; [done | vm_compute; by eauto]).

Lemma builtin_render_dollar_free env c (T : string) :
  T ∈ [_builtin_runbook_template; _builtin_lineage_template;
       _builtin_contract_template; _builtin_java_test_template;
       _builtin_python_test_template; _builtin_go_test_template] →
  Placeholders.dollar_free env (to_dict env c) →
  Str.contains_char "$" (_interpolate env T (to_dict env c)) = false.
Proof.
  intros HT Hfree. unfold _interpolate.
  repeat (apply elem_of_cons in HT as [->|HT];
          [apply sub_dollar_free; [by vm_compute | names_bound]|]).
  by apply elem_of_nil in HT.
Qed.

(** X2: when no value of the context prints a dollar sign, the four
    built-in renderers return a text without any placeholder. *)
Theorem builtin_rendering_resolved env c :
  Placeholders.dollar_free env (to_dict env c) →
  Re.search (render_runbook env c) = false
  ∧ Re.search (render_lineage_spec env c) = false
  ∧ Re.search (render_contract_stub env c) = false
  ∧ Re.search (render_telemetry_test env c) = false.
Proof.
  intros Hfree.
  repeat split; apply no_dollar_no_placeholder.
  - apply builtin_render_dollar_free; [|done]. apply list_elem_of_here.
  - apply builtin_render_dollar_free; [|done].
    apply list_elem_of_further, list_elem_of_here.
  - apply builtin_render_dollar_free; [|done].
    do 2 apply list_elem_of_further. apply list_elem_of_here.
  - unfold render_telemetry_test.
    apply builtin_render_dollar_free; [|done].
    unfold _get_builtin_template, get. rewrite !lookup_insert, lookup_empty.
    repeat case_decide; cbn [default from_option id]; try done;
      repeat first [apply list_elem_of_here | apply list_elem_of_further].
Qed.

Lemma builtin_rendering_resolved_witness :
  Re.search (render_runbook Example.env Example.context) = false
  ∧ Re.search (render_telemetry_test Example.env Example.context) = false.
Proof.
  destruct (builtin_rendering_resolved Example.env Example.context) as (H1 & _ & _ & H4).
  - apply (bool_decide_unpack _). by vm_compute.
  - exact (conj H1 H4).
Defined.

(** ** The always-on artifacts *)

Lemma existsb_count_path path (l : list GeneratedArtifact) :
  existsb (λ a, String.eqb (file_path a) path) l = negb (count_path path l =? 0)%nat.
Proof.
  induction l as [|a l IH]; [done|].
  rewrite count_path_cons, count_path_one. cbn [existsb]. rewrite IH.
  destruct (String.eqb_spec (file_path a) path); by case_decide.
Qed.

Lemma test_path_first context :
  ∃ c r, _get_test_path context = String c r ∧ c ∈ ["s"; "t"; "i"]%char.
Proof.
  unfold _get_test_path, get. rewrite !lookup_insert, lookup_empty.
  repeat case_decide; eexists _, _; (split; [reflexivity |]);
    repeat first [apply list_elem_of_here | apply list_elem_of_further].
Qed.

Lemma artifacts_generated env plan context :
  gaps_typed plan = true → patches_complete plan = true →
  _generate_artifacts env plan context
  = (inr (artifact_list env plan context), (_generate_artifacts env plan context).2).
Proof.
  intros Hty Hp. rewrite <- (generate_artifacts_fst env plan context Hty Hp).
  by destruct (_generate_artifacts env plan context).
Qed.

(** X3: the generated list always holds an artifact at [RUNBOOK.md]:
    the built-in runbook is added exactly when no rendered template and
    no patch instruction has put one there. *)
Theorem runbook_always_present env plan context :
  gaps_typed plan = true → patches_complete plan = true →
  ∃ artifacts trace,
    _generate_artifacts env plan context = (inr artifacts, trace)
    ∧ count_path "RUNBOOK.md" artifacts
      = Nat.max 1 (count_path "RUNBOOK.md" (listed_artifacts env plan context)).
Proof.
  intros Hty Hp. eexists _, _. split; [by apply artifacts_generated|].
  unfold artifact_list. fold (listed_artifacts env plan context).
  rewrite !count_path_app, existsb_count_path.
  assert (∀ a : GeneratedArtifact,
            (∃ c r, file_path a = String c r ∧ c ≠ "R"%char) →
            ∀ b : bool, count_path "RUNBOOK.md" (if b then [a] else []) = 0) as Hother.
  { intros a (c & r & Ha & Hc) [|]; [|done]. rewrite count_path_one, Ha.
    case_decide as Heq; [|done]. by inversion Heq. }
  rewrite (Hother (lineage_artifact env context)) by (by eexists _, _).
  rewrite (Hother (contract_artifact env context)) by (by eexists _, _).
  rewrite (Hother (test_artifact env context)).
  2:{ destruct (test_path_first context) as (ch & r & Hr & Hc).
      exists ch, r. split; [done|]. intros ->.
      apply list_elem_of_In in Hc. cbn in Hc. by intuition. }
  destruct (count_path "RUNBOOK.md" (listed_artifacts env plan context)) as [|n].
  - cbn [Nat.eqb negb]. by rewrite count_path_one.
  - cbn [Nat.eqb negb]. change (count_path "RUNBOOK.md" []) with 0. lia.
Qed.

Lemma runbook_always_present_witness :
  ∃ artifacts trace,
    _generate_artifacts Example.env Example.patched_plan Example.patched_context
    = (inr artifacts, trace)
    ∧ count_path "RUNBOOK.md" artifacts = 1.
Proof.
  destruct (runbook_always_present Example.env Example.patched_plan
              Example.patched_context eq_refl eq_refl)
    as (artifacts & trace & Hrun & Hcount).
  exists artifacts, trace. split; [exact Hrun|].
  rewrite Hcount. by vm_compute.
Defined.

(** X4: the artifacts come in a fixed order: for each gap in turn the
    files [render_template] returned for its template, in the order of
    that dictionary, each as a [create] artifact of that template
    (nothing for a gap without template or whose rendering raised); then
    the patch instructions; then at most one each of the runbook, the
    lineage spec, the contract stub and the telemetry test, in that
    order. *)
Theorem synthesized_artifacts_last env plan context :
  gaps_typed plan = true → patches_complete plan = true →
  ∃ from_gaps tail trace,
    _generate_artifacts env plan context
    = (inr (mjoin from_gaps
            ++ (patch_artifact <$> default [] (dp_patch_plan plan)) ++ tail), trace)
    ∧ Forall2
        (λ (g : Gap) part,
           match g !! "template" with
           | None => part = []
           | Some name =>
               if decide (name = "") then part = []
               else match (render_template env name context).1 with
                    | inr files =>
                        part = (λ f, {| file_path := fst f; content := snd f;
                                        action := "create"; template := Some name |})
                               <$> files
                    | inl _ => part = []
                    end
           end)
        (default [] (dp_gaps plan)) from_gaps
    ∧ tail `sublist_of`
        [runbook_artifact env context; lineage_artifact env context;
         contract_artifact env context; test_artifact env context].
Proof.
  intros Hty Hp.
  exists (rendered env context <$> default [] (dp_gaps plan)). eexists _, _. split.
  { rewrite (artifacts_generated env plan context Hty Hp). unfold artifact_list.
    rewrite <- app_assoc. reflexivity. }
  split.
  { apply Forall2_fmap_r, Forall_Forall2_diag, Forall_forall. intros g _.
    unfold compose, rendered.
    destruct (g !! "template") as [name|]; [|reflexivity].
    case_decide; [reflexivity|].
    destruct (render_template env name context).1; reflexivity. }
  destruct (existsb _ (_ ++ _)),
    (str_in "missing_lineage_spec" _), (str_in "missing_contract" _),
    (existsb _ (types_of plan)); cbn [app];
    repeat first [apply sublist_nil | apply sublist_skip | apply sublist_cons].
Qed.

Lemma synthesized_artifacts_last_witness :
  ∃ from_gaps tail trace,
    _generate_artifacts Example.env_with_templates Example.plan
      (Example.context_in Example.env_with_templates)
    = (inr (mjoin from_gaps ++ [] ++ tail), trace)
    ∧ (file_path <$> mjoin from_gaps
       = ["src/main/java/com/company/orders/enricher/OrdersEnricherOtelInterceptor.java";
          "src/main/resources/application.yaml"])
    ∧ (length tail ≤ 4)%nat.
Proof.
  destruct (synthesized_artifacts_last Example.env_with_templates Example.plan
              (Example.context_in Example.env_with_templates) eq_refl eq_refl)
    as (from_gaps & tail & trace & Hrun & Hgaps & Hsub).
  exists from_gaps, tail, trace. split; [exact Hrun|]. split.
  - apply Forall2_cons_inv_l in Hgaps as (part & rest & Hpart & Hrest & ->).
    apply Forall2_nil_inv_l in Hrest as ->.
    vm_compute in Hpart. rewrite Hpart. reflexivity.
  - apply sublist_length in Hsub. exact Hsub.
Defined.

(** ** Description synthesis on an incomplete gap *)




(** ** Publishing through the VCS client *)

Section publish.
Context (env : Env) (config : PRAuthorConfig) (repo_url : string)
  (plan : DiffPlan) (artifacts : list GeneratedArtifact) (desc : string)
  (repo : string) (archs : list string) (c : Q).
Context (Hrepo : dp_repo plan = Some repo) (Harch : dp_archetypes plan = Some archs)
  (Hconf : dp_confidence plan = Some c) (Hty : gaps_typed plan = true).

Let branch := branch_of env config repo.
Let base := default_branch config.
Let files := files_to_commit artifacts.
Let run := _create_pull_request env config repo_url plan artifacts desc.

Let message := commit_message_of env plan (types_of plan) c.
Let create := CreateBranch repo_url branch base.
Let commit := CommitFiles repo_url branch files message.
Let title := pr_title_of archs.
Let labels := pr_labels_of config archs.
Let open := CreatePullRequest repo_url title desc branch base labels.

(** The run of [_create_pull_request] by the answers of the VCS client. *)
Lemma create_pull_request_steps :
  match vcs_create_branch env repo_url branch base with
  | inl e => run.1 = inl e ∧ vcs_calls run.2 = [create]
  | inr _ =>
      match vcs_commit_files env repo_url branch files message with
      | inl e => run.1 = inl e ∧ vcs_calls run.2 = [create; commit]
      | inr _ =>
          match vcs_create_pull_request env repo_url title desc branch base labels with
          | inl e => run.1 = inl e ∧ vcs_calls run.2 = [create; commit; open]
          | inr pr =>
              run.1 = inr (Published (dp_diff_plan_id plan) (number pr) (url pr)
                             branch (length artifacts) archs (types_of plan))
              ∧ vcs_calls run.2 = [create; commit; open]
          end
      end
  end.
Proof.
  subst run open labels title commit create message files base branch.
  unfold _create_pull_request, branch_of, pr_title_of, pr_labels_of, commit_message_of.
  rewrite Hrepo, Harch, Hconf, (gap_types_typed _ Hty). cbn [plan_getitem].
  rewrite lift_inr_bind, emit_bind, emit_bind, emit_bind. cbn beta.
  destruct (vcs_create_branch env _ _ _) as [e|[]]; [split; reflexivity|].
  rewrite lift_inr_bind, emit_bind, !lift_inr_bind, emit_bind. cbn beta.
  destruct (vcs_commit_files env _ _ _ _) as [e|[]]; [split; reflexivity|].
  rewrite !lift_inr_bind, emit_bind, emit_bind. cbn beta.
  destruct (vcs_create_pull_request env _ _ _ _ _ _) as [e|pr]; [split; reflexivity|].
  rewrite lift_inr_bind, emit_bind, lift_inr_bind. split; reflexivity.
Qed.
End publish.

(** X6: the three VCS calls are made in the order branch, commit, pull
    request, and a call that raises ends the run with its error: after a
    failed branch creation nothing is committed, after a failed commit
    no pull request is opened, and what was done before is not undone. *)
Theorem gateway_failure_stops_publish env config repo_url plan artifacts desc
    repo archs c e :
  dp_repo plan = Some repo → dp_archetypes plan = Some archs →
  dp_confidence plan = Some c → gaps_typed plan = true →
  let run := _create_pull_request env config repo_url plan artifacts desc in
  let branch := branch_of env config repo in
  let base := default_branch config in
  let files := files_to_commit artifacts in
  let message := commit_message_of env plan (types_of plan) c in
  let create := CreateBranch repo_url branch base in
  let commit := CommitFiles repo_url branch files message in
  let open := CreatePullRequest repo_url (pr_title_of archs) desc branch base
                (pr_labels_of config archs) in
  (vcs_create_branch env repo_url branch base = inl e →
   run.1 = inl e ∧ vcs_calls run.2 = [create])
  ∧ (vcs_create_branch env repo_url branch base = inr tt →
     vcs_commit_files env repo_url branch files message = inl e →
     run.1 = inl e ∧ vcs_calls run.2 = [create; commit])
  ∧ (vcs_create_branch env repo_url branch base = inr tt →
     vcs_commit_files env repo_url branch files message = inr tt →
     vcs_create_pull_request env repo_url (pr_title_of archs) desc branch base
       (pr_labels_of config archs) = inl e →
     run.1 = inl e ∧ vcs_calls run.2 = [create; commit; open]).
Proof.
  intros Hrepo Harch Hconf Hty. cbv zeta.
  pose proof (create_pull_request_steps env config repo_url plan artifacts desc
                repo archs c Hrepo Harch Hconf Hty) as H.
  cbv zeta in H. split; [|split].
  - intros E1. by rewrite E1 in H.
  - intros E1 E2. by rewrite E1, E2 in H.
  - intros E1 E2 E3. by rewrite E1, E2, E3 in H.
Qed.

Lemma gateway_failure_stops_publish_witness :
  ∃ message,
    vcs_calls (_create_pull_request Scenario.commit_fails default_config
                 Example.repo_url Example.plan [] "").2
    = [CreateBranch Example.repo_url "autopilot/observability-orders-enricher-1767522600"
         "main";
       CommitFiles Example.repo_url "autopilot/observability-orders-enricher-1767522600"
         ∅ message].
Proof.
  eexists.
  destruct (gateway_failure_stops_publish Scenario.commit_fails default_config
              Example.repo_url Example.plan [] "" "orders-enricher"
              ["kafka-microservice"] (87 # 100) (RuntimeError "Max retries exceeded")
              eq_refl eq_refl eq_refl eq_refl) as (_ & H & _).
  exact (proj2 (H eq_refl eq_refl)).
Defined.

(** X7: when the VCS client raises nothing, exactly three calls are made:
    the branch is created from the default branch, the files are
    committed to it, and the pull request is opened from it onto the
    default branch, titled with the first two archetypes and labelled
    with the configured labels and one label for each of them. *)
Theorem publish_call_order env config repo_url plan artifacts desc repo archs c :
  gateway_ok env →
  dp_repo plan = Some repo → dp_archetypes plan = Some archs →
  dp_confidence plan = Some c → gaps_typed plan = true →
  let run := _create_pull_request env config repo_url plan artifacts desc in
  let branch := branch_of env config repo in
  vcs_calls run.2
  = [CreateBranch repo_url branch (default_branch config);
     CommitFiles repo_url branch (files_to_commit artifacts)
       (commit_message_of env plan (types_of plan) c);
     CreatePullRequest repo_url (pr_title_of archs) desc branch (default_branch config)
       (pr_labels_of config archs)]
  ∧ (length (pr_labels_of config archs) ≤ length (pr_labels config) + 2)%nat.
Proof.
  intros (Hb & Hc & Hpr) Hrepo Harch Hconf Hty. cbv zeta. split.
  - pose proof (create_pull_request_steps env config repo_url plan artifacts desc
                  repo archs c Hrepo Harch Hconf Hty) as H.
    cbv zeta in H. rewrite Hb, Hc in H.
    destruct (Hpr repo_url (pr_title_of archs) desc (branch_of env config repo)
                (default_branch config) (pr_labels_of config archs)) as [pr Hpr'].
    rewrite Hpr' in H. apply H.
  - unfold pr_labels_of. rewrite length_app, length_fmap, length_take. lia.
Qed.

Lemma publish_call_order_witness :
  (length (pr_labels_of default_config
             ["rest-service"; "spring-boot"; "batch"]) = 4)%nat
  ∧ ∃ files message,
      vcs_calls (_create_pull_request Example.env default_config Example.repo_url
                   Scenario.unprioritized_plan [] "body").2
      = [CreateBranch Example.repo_url "autopilot/observability-billing-1767522600" "main";
         CommitFiles Example.repo_url "autopilot/observability-billing-1767522600"
           files message;
         CreatePullRequest Example.repo_url
           "feat(observability): Add rest-service, spring-boot instrumentation" "body"
           "autopilot/observability-billing-1767522600" "main"
           ["autopilot"; "observability"; "archetype:rest-service";
            "archetype:spring-boot"]].
Proof.
  split; [reflexivity|]. eexists _, _.
  refine (proj1 (publish_call_order Example.env default_config Example.repo_url
                   Scenario.unprioritized_plan [] "body" "billing"
                   ["rest-service"; "spring-boot"; "batch"] (9 # 10)
                   _ eq_refl eq_refl eq_refl eq_refl)).
  repeat split; intros; eauto.
Defined.

(** ** A dry run and the run it announces *)

Lemma committed_app_quiet (t1 t2 : list event) :
  no_vcs_call t1 → committed (t1 ++ t2) = committed t2.
Proof.
  induction 1 as [|ev t1 Hev _ IH]; [done|].
  cbn [app committed]. by destruct ev.
Qed.

Lemma files_to_commit_dom (artifacts : list GeneratedArtifact) :
  dom (files_to_commit artifacts) =@{gset string} list_to_set (file_path <$> artifacts).
Proof.
  apply set_eq. intros p.
  by rewrite elem_of_dom, files_to_commit_is_Some, elem_of_list_to_set.
Qed.

(** Two environments that differ at most in the epoch clock and in the
    VCS backend give the same context, artifacts and description. *)
Lemma same_inputs_same_artifacts (env env' : Env) plan repo_url context artifacts :
  format_float env' = format_float env →
  utc_now_isoformat env' = utc_now_isoformat env →
  templates_root env' = templates_root env →
  _build_template_context env' plan repo_url = _build_template_context env plan repo_url
  ∧ _generate_artifacts env' plan context = _generate_artifacts env plan context
  ∧ _generate_pr_description env' plan artifacts context
    = _generate_pr_description env plan artifacts context.
Proof.
  destruct env as [f u n t b c p], env' as [f' u' n' t' b' c' p']. cbn.
  intros -> -> ->. repeat split; reflexivity.
Qed.

(** X8: a dry run announces what a real run publishes when the two runs
    of the same plan see the same template directory and float
    formatting and read the same UTC time while building the context;
    their epoch clocks and VCS clients are unrelated.  Then the Published
    result counts as many files as the DryRun manifest has entries, the
    pull request is opened with the description of the dry run, and the
    committed paths are exactly the paths of the manifest. *)
Theorem dry_run_predicts_publish env env' config plan repo_url c :
  _validate_diff_plan plan = inr tt →
  dp_confidence plan = Some c →
  (confidence_threshold config <= c)%Q →
  gaps_complete plan = true → patches_complete plan = true →
  auto_create_pr config = true → gateway_ok env' →
  format_float env' = format_float env →
  utc_now_isoformat env' = utc_now_isoformat env →
  templates_root env' = templates_root env →
  ∃ manifest desc,
    (process_diff_plan env config plan repo_url true).1
    = inr (DryRun (dp_diff_plan_id plan) manifest desc)
    ∧ (∃ pr branch archs types,
         (process_diff_plan env' config plan repo_url false).1
         = inr (Published (dp_diff_plan_id plan) (number pr) (url pr) branch
                  (length manifest) archs types))
    ∧ (∃ title branch base labels,
         CreatePullRequest repo_url title desc branch base labels
         ∈ (process_diff_plan env' config plan repo_url false).2)
    ∧ (∃ files,
         committed (process_diff_plan env' config plan repo_url false).2 = Some files
         ∧ dom files =@{gset string} list_to_set manifest.*1).
Proof.
  intros Hv Hc Hle Hg Hp Hauto Hgw Hf Hu Ht.
  pose proof (gaps_complete_typed _ Hg) as Hty.
  destruct (process_past_gate env config plan repo_url true c Hv Hc Hle)
    as (context & head & Hctx & Hhead & ->).
  destruct (process_past_gate env' config plan repo_url false c Hv Hc Hle)
    as (context' & head' & Hctx' & Hhead' & ->).
  destruct (same_inputs_same_artifacts env env' plan repo_url context
              (artifact_list env plan context) Hf Hu Ht) as (Hsame & Hgen & Hdesc).
  rewrite Hsame, Hctx in Hctx'. injection Hctx' as <-.
  cbv zeta. rewrite Hgen, (generate_artifacts_fst env plan context Hty Hp), Hdesc.
  destruct (description_complete env plan (artifact_list env plan context) context Hg)
    as [desc ->].
  rewrite Hauto.
  pose proof Hv as ([r Hr] & (a & l & Ha) & _ & _ & _)%validate_inr.
  destruct (create_pull_request_ok env' config repo_url plan
              (artifact_list env plan context) desc r (a :: l) c Hgw Hr Ha Hc Hty)
    as (pr & message & title & labels & ->).
  eexists _, desc. split; [reflexivity|]. cbn [fst snd]. split; [|split].
  - eexists pr, _, _, _. by rewrite length_fmap.
  - eexists title, _, _, labels. rewrite !elem_of_app. do 3 right.
    do 6 apply list_elem_of_further. apply list_elem_of_here.
  - eexists. split.
    + rewrite (committed_app_quiet head') by done.
      rewrite committed_app_quiet by apply generate_artifacts_quiet.
      reflexivity.
    + rewrite files_to_commit_dom. f_equal.
      rewrite <- list_fmap_compose. reflexivity.
Qed.

Lemma dry_run_predicts_publish_witness :
  ∃ manifest desc pr branch archs types,
    (process_diff_plan Example.env default_config Example.patched_plan
       Example.repo_url true).1
    = inr (DryRun (Some "dp-42") manifest desc)
    ∧ (process_diff_plan Scenario.other_backend default_config Example.patched_plan
         Example.repo_url false).1
      = inr (Published (Some "dp-42") (number pr) (url pr) branch (length manifest)
               archs types).
Proof.
  destruct (dry_run_predicts_publish Example.env Scenario.other_backend default_config
              Example.patched_plan Example.repo_url (9 # 10) eq_refl eq_refl
              (Qle_bool_imp_le (7 # 10) (9 # 10) eq_refl) eq_refl eq_refl eq_refl)
    as (manifest & desc & Hdry & (pr & branch & archs & types & Hpub) & _);
    [| reflexivity | reflexivity | reflexivity |].
  - repeat split; intros; eauto.
  - exists manifest, desc, pr, branch, archs, types. exact (conj Hdry Hpub).
Defined.

(** ** The template context *)

Lemma split_nonempty sep s : Str.split sep s ≠ [].
Proof.
  induction s as [|c r IH]; [done|]. cbn [Str.split].
  destruct (Ascii.eqb c sep); [done|]. by destruct (Str.split sep r).
Qed.

(** The first piece of [s.split(sep)] is the text before the first
    separator. *)
Lemma split_first sep s :
  let first := default "" (head (Str.split sep s)) in
  Str.contains_char sep first = false
  ∧ if Str.contains_char sep s
    then ∃ rest, s = first +:+ String sep rest
    else first = s.
Proof.
  induction s as [|c r IH]; [done|]. cbn [Str.split Str.contains_char].
  rewrite (Ascii.eqb_sym sep c).
  destruct (Ascii.eqb_spec c sep) as [->|Hne]; cbn [orb].
  - split; [done|]. by exists r.
  - pose proof (split_nonempty sep r) as Hnil.
    destruct (Str.split sep r) as [|w ws]; [done|].
    cbn [head default from_option id] in IH |- *. destruct IH as [Hw Hs].
    split.
    + cbn [Str.contains_char]. rewrite Hw, orb_false_r.
      by apply Ascii.eqb_neq.
    + destruct (Str.contains_char sep r).
      * destruct Hs as [rest ->]. by exists rest.
      * by rewrite Hs.
Qed.

(** X9: for a plan with a repository name and the keys validation asks
    for, the context is built with one clock read; the service name is
    the repository name, the namespace is the text before its first
    hyphen (the literal [default] without one) and holds no hyphen, the
    consumer group is the name followed by [-cg], and the two topics are
    both derived from the name when the template of some gap contains
    [kafka] in any letter case, both empty otherwise. *)
Theorem context_derivation env plan repo_url :
  _validate_diff_plan plan = inr tt →
  ∃ repo context,
    dp_repo plan = Some repo
    ∧ _build_template_context env plan repo_url = (inr context, [ClockRead])
    ∧ service_name context = repo
    ∧ consumer_group context = repo +:+ "-cg"
    ∧ Str.contains_char "-" (namespace context) = false
    ∧ (if Str.contains_char "-" repo
       then ∃ rest, repo = namespace context +:+ "-" +:+ rest
       else namespace context = "default")
    ∧ ((∃ g : Gap, g ∈ default [] (dp_gaps plan)
                  ∧ Str.contains "kafka" (Str.lower (get g "template" "")) = true) →
       input_topic context = repo +:+ "_input"
       ∧ output_topic context = repo +:+ "_output")
    ∧ ((∀ g : Gap, g ∈ default [] (dp_gaps plan) →
                  Str.contains "kafka" (Str.lower (get g "template" "")) = false) →
       input_topic context = "" ∧ output_topic context = "").
Proof.
  intros ([r Hr] & (a & l & Ha) & [c Hc] & _ & _)%validate_inr.
  exists r. eexists. split; [done|]. split.
  { unfold _build_template_context. rewrite Hr, Ha, Hc. cbn [plan_getitem].
    rewrite lift_inr_bind, emit_bind, !lift_inr_bind. reflexivity. }
  assert (r +:+ "-cg" ≠ "") as Hcg by (by destruct r).
  unfold __post_init__. cbn [consumer_group]. rewrite decide_False by done.
  cbn [service_name consumer_group namespace input_topic output_topic].
  split; [done|]. split; [done|].
  pose proof (split_first "-" r) as [Hfirst Hsplit]. cbv zeta in Hfirst, Hsplit.
  split; [|split; [|split]].
  - by destruct (Str.contains_char "-" r).
  - destruct (Str.contains_char "-" r); [|done].
    destruct Hsplit as [rest Hrest]. by exists rest.
  - intros (g & Hin & Hg).
    rewrite (proj2 (existsb_exists _ _)); [done|].
    exists g. by rewrite <- list_elem_of_In.
  - intros Hnone.
    destruct (existsb _ (default [] (dp_gaps plan))) eqn:Hex; [|done].
    apply existsb_exists in Hex as (g & Hin & Hg).
    apply list_elem_of_In, Hnone in Hin. congruence.
Qed.

Lemma context_derivation_witness :
  ∃ context,
    _build_template_context Example.env Example.plan Example.repo_url
    = (inr context, [ClockRead])
    ∧ namespace context = "orders" ∧ input_topic context = "orders-enricher_input".
Proof.
  destruct (context_derivation Example.env Example.plan Example.repo_url eq_refl)
    as (repo & context & Hrepo & Hrun & _).
  exists context. split; [exact Hrun|].
  vm_compute in Hrun. injection Hrun as <-. by split.
Defined.

(** ** Rendered template files *)

Lemma dict_set_keys k v (d : list (string * string)) :
  (dict_set k v d).*1 = if bool_decide (k ∈ d.*1) then d.*1 else d.*1 ++ [k].
Proof.
  induction d as [|[k' v'] d IH]; [done|]. cbn [dict_set fmap list_fmap fst].
  destruct (String.eqb_spec k' k) as [->|Hne].
  - by rewrite bool_decide_eq_true_2 by apply list_elem_of_here.
  - cbn [fmap list_fmap fst]. rewrite IH.
    destruct (bool_decide (k ∈ d.*1)) eqn:Hin.
    + apply bool_decide_eq_true in Hin.
      by rewrite bool_decide_eq_true_2 by by apply list_elem_of_further.
    + apply bool_decide_eq_false in Hin. rewrite bool_decide_eq_false_2; [done|].
      intros [?|?]%elem_of_cons; congruence.
Qed.

(** X10: the files one template renders have pairwise distinct paths, at
    most one per [.tmpl] entry of the template directory: entries that
    map to the same output path leave one file. *)
Theorem rendered_paths_distinct env name context files :
  (render_template env name context).1 = inr files →
  NoDup files.*1
  ∧ ∃ dir, _find_template_dir env name = inr (Some dir)
           ∧ (length files ≤ length (glob_tmpl dir))%nat.
Proof.
  unfold render_template. rewrite fst_bind. cbn [emit fst].
  destruct (_find_template_dir env name) as [e|[dir|]]; [done| |done].
  rewrite lift_inr_bind. intros Hrun.
  assert (NoDup files.*1 ∧ (length files ≤ length (glob_tmpl dir) + 0)%nat)
    as [Hnd Hlen]; [|split; [done|]; exists dir; split; [done|lia]].
  revert Hrun. generalize (glob_tmpl dir). intros entries.
  change 0 with (length (@nil (string * string))).
  assert (NoDup (@nil (string * string)).*1) as Hnil by constructor.
  revert Hnil. generalize (@nil (string * string)) as acc.
  induction entries as [|x xs IH]; intros acc Hacc; cbn [for_fold].
  - intros [= <-]. split; [done|cbn; lia].
  - rewrite fst_bind.
    destruct (read_text x.2) as [e|text]; [done|]. rewrite lift_inr_bind.
    cbn [ret fst]. intros Hrun. apply IH in Hrun as [Hnd Hlen].
    + split; [done|]. etrans; [exact Hlen|].
      rewrite <- (length_fmap fst (dict_set _ _ acc)), dict_set_keys.
      case_bool_decide; rewrite ?length_app, ?length_fmap; cbn [length]; lia.
    + rewrite dict_set_keys. case_bool_decide as Hin; [done|].
      apply NoDup_app. split; [done|]. split; [|apply NoDup_singleton].
      intros k Hk ->%list_elem_of_singleton. done.
Qed.

Lemma rendered_paths_distinct_witness :
  ∃ files,
    (render_template Example.env_with_templates "kafka-consumer-otel-java"
       Example.context).1 = inr files
    ∧ NoDup files.*1 ∧ length files = 2.
Proof.
  eexists. split; [by vm_compute|]. split; [|reflexivity].
  refine (proj1 (rendered_paths_distinct Example.env_with_templates
                   "kafka-consumer-otel-java" Example.context _ _)).
  by vm_compute.
Defined.

(** ** Names derived from the service name *)

Lemma case_keeps_hyphen_out (c : ascii) :
  c ≠ "-"%char → Str.to_upper c ≠ "-"%char ∧ Str.to_lower c ≠ "-"%char.
Proof.
  destruct c as [[] [] [] [] [] [] [] []]; intros H; split; vm_compute; congruence.
Qed.

Lemma map_without_hyphen (f : ascii → ascii) s :
  (∀ c, c ≠ "-"%char → f c ≠ "-"%char) →
  Str.contains_char "-" s = false → Str.contains_char "-" (Str.map f s) = false.
Proof.
  intros Hf. induction s as [|c r IH]; [done|]. cbn [Str.map Str.contains_char].
  intros [Hc Hr]%orb_false_iff. rewrite (IH Hr), orb_false_r.
  apply Ascii.eqb_neq. intros Heq. apply Ascii.eqb_neq in Hc.
  by apply (Hf c); [congruence|].
Qed.

Lemma capitalize_without_hyphen s :
  Str.contains_char "-" s = false → Str.contains_char "-" (Str.capitalize s) = false.
Proof.
  destruct s as [|c r]; [done|]. cbn [Str.capitalize Str.contains_char].
  intros [Hc Hr]%orb_false_iff.
  unfold Str.lower. rewrite (map_without_hyphen Str.to_lower r); [|intros d Hd|done].
  - rewrite orb_false_r. apply Ascii.eqb_neq. apply Ascii.eqb_neq in Hc.
    intros Heq. destruct (case_keeps_hyphen_out c) as [Hu _]; congruence.
  - by apply case_keeps_hyphen_out.
Qed.

Lemma split_pieces_without sep s :
  Forall (λ w, Str.contains_char sep w = false) (Str.split sep s).
Proof.
  induction s as [|c r IH]; [by repeat constructor|]. cbn [Str.split].
  destruct (Ascii.eqb_spec c sep) as [->|Hne]; [by constructor|].
  pose proof (split_nonempty sep r) as Hnil.
  destruct (Str.split sep r) as [|w ws]; [done|].
  apply Forall_cons in IH as [Hw Hws]. constructor; [|done].
  cbn [Str.contains_char]. rewrite Hw, orb_false_r. apply Ascii.eqb_neq. congruence.
Qed.

Lemma join_without c (pieces : list string) :
  Forall (λ w, Str.contains_char c w = false) pieces →
  Str.contains_char c (Str.join "" pieces) = false.
Proof.
  unfold Str.join. induction 1 as [|w ws Hw Hws IH]; [done|].
  cbn [String.concat]. destruct ws as [|w' ws]; [done|].
  change (w ++ "" ++ String.concat "" (w' :: ws))%string
    with (w +:+ String.concat "" (w' :: ws)).
  by rewrite contains_char_app, Hw, IH.
Qed.

Lemma replace_without old new s :
  Str.contains_char old new = false →
  Str.contains_char old (Str.replace old new s) = false.
Proof.
  intros Hnew. induction s as [|c r IH]; [done|]. cbn [Str.replace].
  destruct (Ascii.eqb_spec c old) as [->|Hne].
  - by rewrite contains_char_app, Hnew, IH.
  - cbn [Str.contains_char]. rewrite IH, orb_false_r. apply Ascii.eqb_neq. congruence.
Qed.

(** X11: whatever the service name, the package, class and module names
    the mapping derives from it hold no hyphen. *)
Theorem derived_names_without_hyphen env c :
  ∃ package class module,
    to_dict env c !! "PACKAGE_NAME" = Some (vstr package)
    ∧ to_dict env c !! "CLASS_NAME" = Some (vstr class)
    ∧ to_dict env c !! "MODULE_NAME" = Some (vstr module)
    ∧ Str.contains_char "-" package = false
    ∧ Str.contains_char "-" class = false
    ∧ Str.contains_char "-" module = false.
Proof.
  eexists _, _, _. split; [reflexivity|]. split; [reflexivity|].
  split; [reflexivity|]. split; [|split].
  - by apply replace_without.
  - apply join_without, Forall_fmap.
    eapply Forall_impl; [apply split_pieces_without|].
    intros w Hw. by apply capitalize_without_hyphen.
  - by apply replace_without.
Qed.

Lemma bind_inr {A B} (m : M A) (k : A → M B) b :
  (m ≫= k).1 = inr b → ∃ a, m.1 = inr a ∧ (k a).1 = inr b.
Proof.
  destruct m as [[e|a] t]; unfold mbind, M_bind, bind; cbn.
  - discriminate.
  - destruct (k a) as [r t'] eqn:Hk. cbn. intros ->. exists a. by rewrite Hk.
Qed.

Lemma bind_trace {A B} (m : M A) (k : A → M B) a :
  m.1 = inr a → (m ≫= k).2 = m.2 ++ (k a).2.
Proof.
  destruct m as [[e|a'] t]; unfold mbind, M_bind, bind; cbn; [discriminate|].
  intros [= ->]. by destruct (k a).
Qed.

Lemma bind_trace_prefix {A B} (m : M A) (k : A → M B) :
  m.2 `prefix_of` (m ≫= k).2.
Proof.
  destruct m as [[e|a] t]; unfold mbind, M_bind, bind; cbn.
  - reflexivity.
  - destruct (k a) as [r t']. by exists t'.
Qed.

Lemma create_pull_request_published env config repo_url plan artifacts desc r :
  (_create_pull_request env config repo_url plan artifacts desc).1 = inr r →
  status_of r = "success".
Proof.
  unfold _create_pull_request. intros H.
  repeat (apply bind_inr in H as (? & _ & H)); cbn beta zeta in H.
  cbn in H. by injection H as <-.
Qed.

Lemma process_result_kind env config plan repo_url dry_run r :
  (process_diff_plan env config plan repo_url dry_run).1 = inr r →
  status_of r = "skipped"
  ∨ status_of r = (if dry_run then "dry_run"
                   else if auto_create_pr config then "success"
                   else "artifacts_generated").
Proof.
  unfold process_diff_plan. intros H.
  apply bind_inr in H as (? & _ & H). cbv zeta in H.
  case_match.
  { injection H as <-. by left. }
  right.
  repeat (apply bind_inr in H as (? & _ & H)).
  destruct dry_run.
  { by injection H as <-. }
  destruct (auto_create_pr config).
  - apply bind_inr in H as (? & _ & H).
    by apply create_pull_request_published in H.
  - by injection H as <-.
Qed.

(** X12: through the command line a run never stops at
    ["artifacts_generated"]: [main] builds its configuration with
    automatic publication on, so a run that returns was skipped at the
    confidence gate or, according to [--dry-run], is a dry run or a
    published pull request. *)
Theorem cli_result_kinds env host args r :
  (main_body env host args).1 = inr r →
  status_of r = "skipped"
  ∨ status_of r = (if arg_dry_run args then "dry_run" else "success").
Proof.
  unfold main_body. intros H.
  destruct (negb _); [discriminate|].
  apply bind_inr in H as ([plan purl] & _ & H).
  destruct (str_or _ None); [|discriminate].
  apply bind_inr in H as (? & _ & H).
  apply bind_inr in H as (r' & Hrun & H).
  apply bind_inr in H as (? & _ & H).
  apply bind_inr in H as (? & _ & H).
  injection H as <-.
  by apply process_result_kind in Hrun.
Qed.

Lemma cli_result_kinds_witness :
  ∃ r, (main_body Example.env Cli.host Cli.args).1 = inr r
       ∧ (status_of r = "skipped" ∨ status_of r = "dry_run").
Proof.
  destruct (main_body Example.env Cli.host Cli.args).1 as [e|r] eqn:H.
  - vm_compute in H. discriminate H.
  - exists r. split; [reflexivity|].
    exact (cli_result_kinds Example.env Cli.host Cli.args r H).
Defined.

Lemma str_or_Some a b s :
  str_or a b = Some s →
  (a = Some s ∧ s ≠ "") ∨ ((a = None ∨ a = Some "") ∧ b = Some s).
Proof.
  destruct a as [x|]; cbn.
  - case_decide as Hx; [subst x|]; intros H.
    + right. split; [by right | exact H].
    + injection H as <-. by left.
  - intros ->. right. split; [by left | reflexivity].
Qed.

Lemma agent_init_inr host vcs u :
  agent_init host vcs = inr u →
  (vcs = "github" ∧ ∃ token, environ host "GITHUB_TOKEN" = Some token ∧ token ≠ "")
  ∨ vcs = "gitlab".
Proof.
  unfold agent_init. case_decide as Hg; [|case_decide; [by right | discriminate]].
  intros H. left. split; [exact Hg|].
  unfold github_client_init, github_auth_token in H.
  destruct (str_or (environ host "GITHUB_TOKEN") None) as [token|] eqn:Htoken; [|discriminate].
  exists token. apply str_or_Some in Htoken as [?|[_ ?]]; [done | discriminate].
Qed.

(** X13: [main] prints nothing and calls nothing unless the parser stopped
    the program with some output of its own or, the arguments parsed,
    the plan file exists and loads, a repository URL is known and the
    client of the VCS kind was built: for [github] with a non-empty
    [GITHUB_TOKEN], or for [gitlab].  The URL the agent then runs with is
    never empty, and the one of the command line is preferred to the one
    of the plan.  The effects of [main] start with the trace of that run
    of [process_diff_plan]. *)
Theorem main_runs_agent_on_loaded_plan env host :
  effects (main env host) ≠ [] →
  match parse_args host with
  | ParserExit _ out _ => out ≠ [] ∧ effects (main env host) = Print <$> out
  | Parsed args =>
      ∃ plan plan_url repo_url,
        path_exists host (arg_diff_plan args) = true
        ∧ load_plan host (arg_diff_plan args) = inr (plan, plan_url)
        ∧ repo_url ≠ ""
        ∧ (arg_repo_url args = Some repo_url
           ∨ (arg_repo_url args = None ∨ arg_repo_url args = Some "")
             ∧ plan_url = Some repo_url)
        ∧ (arg_vcs args = "github"
           ∧ (∃ token, environ host "GITHUB_TOKEN" = Some token ∧ token ≠ "")
           ∨ arg_vcs args = "gitlab")
        ∧ (process_diff_plan env (cli_config args) plan repo_url (arg_dry_run args)).2
          `prefix_of` effects (main env host)
  end.
Proof.
  assert (Hout : ∀ m : M PublishResult,
            effects (match m with
                    | (inr _, trace) =>
                        {| exit_code := 0; effects := trace; stderr := [] |}
                    | (inl e, trace) =>
                        {| exit_code := 1; effects := trace;
                           stderr := ["Error: " +:+ exn_str e] |}
                    end) = m.2).
  { by intros [[?|?] ?]. }
  unfold main. destruct (parse_args host) as [args|status out err]; cbn [effects].
  2:{ intros H. split; [|reflexivity]. by intros ->. }
  rewrite Hout. unfold main_body.
  destruct (path_exists host (arg_diff_plan args)); cbn [negb]; [|by intros []].
  destruct (load_plan host (arg_diff_plan args)) as [e|[plan purl]]; [by intros []|].
  rewrite lift_inr_bind. cbn [fst snd].
  destruct (str_or (str_or (arg_repo_url args) purl) None) as [url|] eqn:Hurl;
    [|by intros []].
  assert (Hu : str_or (arg_repo_url args) purl = Some url ∧ url ≠ "").
  { apply str_or_Some in Hurl as [?|[_ ?]]; [done | discriminate]. }
  destruct Hu as [Hu Hne].
  intros Hnil. exists plan, purl, url.
  split; [reflexivity|]. split; [reflexivity|]. split; [exact Hne|].
  split. { apply str_or_Some in Hu as [[? _]|?]; [by left | by right]. }
  destruct (agent_init host (arg_vcs args)) as [e|[]] eqn:Hinit; [by destruct Hnil|].
  split; [exact (agent_init_inr _ _ _ Hinit)|].
  rewrite lift_inr_bind.
  apply bind_trace_prefix.
Qed.

Lemma main_runs_agent_on_loaded_plan_witness :
  effects (main Example.env Cli.host) ≠ []
  ∧ ∃ plan plan_url repo_url,
      path_exists Cli.host (arg_diff_plan Cli.args) = true
      ∧ load_plan Cli.host (arg_diff_plan Cli.args) = inr (plan, plan_url)
      ∧ repo_url ≠ ""
      ∧ (arg_repo_url Cli.args = Some repo_url
         ∨ (arg_repo_url Cli.args = None ∨ arg_repo_url Cli.args = Some "")
           ∧ plan_url = Some repo_url)
      ∧ (arg_vcs Cli.args = "github"
         ∧ (∃ token, environ Cli.host "GITHUB_TOKEN" = Some token ∧ token ≠ "")
         ∨ arg_vcs Cli.args = "gitlab")
      ∧ (process_diff_plan Example.env (cli_config Cli.args) plan repo_url
           (arg_dry_run Cli.args)).2
        `prefix_of` effects (main Example.env Cli.host).
Proof.
  assert (H : effects (main Example.env Cli.host) ≠ []).
  { vm_compute. intros H. discriminate H. }
  exact (conj H (main_runs_agent_on_loaded_plan Example.env Cli.host H)).
Defined.

Lemma bind_inv {A B} (m : M A) (k : A → M B) b t :
  m ≫= k = (inr b, t) →
  ∃ a t1 t2, m = (inr a, t1) ∧ k a = (inr b, t2) ∧ t = t1 ++ t2.
Proof.
  destruct m as [[e|a] t1]; unfold mbind, M_bind, bind; [discriminate|].
  destruct (k a) as [r t2] eqn:Hk. intros [= -> <-]. by exists a, t1, t2.
Qed.

(** X14: when the parser stops the program, on a usage error or for
    [--help], [main] exits with the status and the output of the parser.
    Otherwise an exit status of 0 means the run returned a result and its
    summary was the last thing printed: the effects of [main] end with
    the lines of [print_result] for that result, and nothing went to the
    standard error.  Any other run exits with 1 and a single line
    [Error: ...], with the text of the exception, on the standard
    error. *)
Theorem main_exit_status env host :
  match parse_args host with
  | ParserExit status out err =>
      exit_code (main env host) = status
      ∧ effects (main env host) = Print <$> out
      ∧ stderr (main env host) = err
  | Parsed args =>
      (exit_code (main env host) = 0%Z
       ∧ stderr (main env host) = []
       ∧ ∃ result before,
           (main_body env host args).1 = inr result
           ∧ effects (main env host) = before ++ print_result result)
      ∨ (exit_code (main env host) = 1%Z
         ∧ ∃ e, (main_body env host args).1 = inl e
                ∧ stderr (main env host) = ["Error: " +:+ exn_str e])
  end.
Proof.
  unfold main. destruct (parse_args host) as [args|status out err]; [|done].
  destruct (main_body env host args) as [[e|r] t] eqn:H; cbn.
  { right. split; [reflexivity|]. by exists e. }
  left. split; [reflexivity|]. split; [reflexivity|].
  exists r. unfold main_body in H.
  destruct (negb _); [discriminate|].
  apply bind_inv in H as (loaded & t1 & t2 & _ & H & ->).
  destruct (str_or _ None); [|discriminate].
  apply bind_inv in H as (? & t3 & t4 & _ & H & ->).
  apply bind_inv in H as (r' & t5 & t6 & _ & H & ->).
  apply bind_inv in H as (? & t7 & t8 & _ & H & ->).
  apply bind_inv in H as (? & t9 & t10 & H & H' & ->).
  injection H' as <- <-. injection H as _ <-.
  exists (t1 ++ t3 ++ t5 ++ t7). split; [reflexivity|].
  by rewrite app_nil_r, <- !app_assoc.
Qed.

(** Without a GitHub token the default client cannot be built: the run
    of the example then ends with status 1 before the agent does
    anything. *)
Example main_without_github_token :
  main Example.env
    {| parse_args := Parsed Cli.args;
       environ _ := None;
       httpx_client _ := inr tt;
       path_exists := path_exists Cli.host;
       load_plan := load_plan Cli.host;
       path_str := path_str Cli.host;
       dumps := dumps Cli.host;
       write_text := write_text Cli.host |}
  = {| exit_code := 1;
       effects := [];
       stderr := ["Error: 'GitHubClient' object has no attribute '_installation_token'"] |}.
Proof. reflexivity. Qed.

(** ** Repository URLs *)

Lemma lstrip_char_head c s r : Text.lstrip_char c s ≠ String c r.
Proof.
  induction s as [|d s IH]; [done|]. cbn [Text.lstrip_char].
  destruct (Ascii.eqb_spec d c) as [->|Hne]; [done|]. congruence.
Qed.

Lemma rstrip_char_head c s :
  (∀ r, s ≠ String c r) → ∀ r, Text.rstrip_char c s ≠ String c r.
Proof.
  destruct s as [|d s]; [done|]. intros Hs r. cbn [Text.rstrip_char].
  assert (d ≠ c) as Hne by (intros ->; by apply (Hs s)).
  destruct (Text.rstrip_char c s).
  - destruct (Ascii.eqb_spec d c); [done|congruence].
  - congruence.
Qed.

Lemma rstrip_char_keeps c s t :
  Str.contains_char c t = false → t ≠ "" →
  Text.rstrip_char c (s +:+ t) = s +:+ t.
Proof.
  intros Ht Hne. induction s as [|d s IH].
  - rewrite str_app_nil_l. clear Hne.
    induction t as [|d t IH]; [done|]. cbn [Str.contains_char] in Ht.
    apply orb_false_iff in Ht as [Hd Ht]. cbn [Text.rstrip_char].
    rewrite (IH Ht). destruct t; [|done].
    rewrite Ascii.eqb_sym, Hd. done.
  - rewrite str_app_cons. cbn [Text.rstrip_char]. rewrite IH.
    destruct (s +:+ t) eqn:E; [|done].
    destruct s; [|by rewrite str_app_cons in E].
    rewrite str_app_nil_l in E. done.
Qed.

Lemma split_single sep s :
  Str.contains_char sep s = false → Str.split sep s = [s].
Proof.
  induction s as [|c r IH]; [done|]. cbn [Str.contains_char Str.split].
  intros [Hc Hr]%orb_false_iff. rewrite Ascii.eqb_sym, Hc, (IH Hr). done.
Qed.

Lemma split_app sep a b :
  Str.split sep (a +:+ String sep b) = Str.split sep a ++ Str.split sep b.
Proof.
  induction a as [|c r IH].
  - rewrite str_app_nil_l. cbn [Str.split]. by rewrite Ascii.eqb_refl.
  - rewrite str_app_cons. cbn [Str.split]. rewrite IH.
    destruct (Ascii.eqb c sep); [done|].
    pose proof (split_nonempty sep r).
    by destruct (Str.split sep r).
Qed.

Lemma drop_prefix_spec p s r : Text.drop_prefix p s = Some r → s = p +:+ r.
Proof.
  revert s. induction p as [|a p IH]; intros s.
  - destruct s; cbn; by intros [= <-].
  - destruct s as [|b s]; [done|]. cbn [Text.drop_prefix].
    destruct (Ascii.eqb_spec a b) as [->|]; [|done].
    intros H%IH. by rewrite H, str_app_cons.
Qed.

Lemma drop_prefix_app p r : Text.drop_prefix p (p +:+ r) = Some r.
Proof.
  induction p as [|a p IH].
  - rewrite str_app_nil_l. destruct r; reflexivity.
  - rewrite str_app_cons. cbn [Text.drop_prefix]. rewrite Ascii.eqb_refl. exact IH.
Qed.

Lemma prefix_drop p s : String.prefix p s = false → Text.drop_prefix p s = None.
Proof.
  revert s. induction p as [|a p IH]; intros s; [by destruct s|].
  destruct s as [|b s]; [done|]. cbn [String.prefix Text.drop_prefix].
  destruct (ascii_dec a b) as [->|Hne].
  - rewrite Ascii.eqb_refl. apply IH.
  - intros _. by apply Ascii.eqb_neq in Hne as ->.
Qed.

Lemma drop_prefix_shorter a p s r :
  Text.drop_prefix (String a p) s = Some r → (String.length r < String.length s)%nat.
Proof.
  intros ->%drop_prefix_spec. rewrite str_length_app. cbn. lia.
Qed.

Lemma replace_from_fuel n m a p new s :
  (String.length s ≤ n)%nat → (String.length s ≤ m)%nat →
  Text.replace_from n (String a p) new s = Text.replace_from m (String a p) new s.
Proof.
  revert m s. induction n as [|n IH]; intros m s Hn Hm.
  - destruct s; [|cbn in Hn; lia]. by destruct m.
  - destruct m as [|m].
    { destruct s; [done | cbn in Hm; lia]. }
    cbn [Text.replace_from].
    destruct (Text.drop_prefix (String a p) s) as [rest|] eqn:E.
    + apply drop_prefix_shorter in E. f_equal. apply IH; lia.
    + destruct s as [|c r]; [done|]. cbn in Hn, Hm. f_equal. apply IH; lia.
Qed.

Lemma replace_match a p new s rest :
  Text.drop_prefix (String a p) s = Some rest →
  Text.replace (String a p) new s = new +:+ Text.replace (String a p) new rest.
Proof.
  intros E. pose proof (drop_prefix_shorter _ _ _ _ E) as Hlt.
  unfold Text.replace. destruct (String.length s) as [|n] eqn:El; [lia|].
  cbn [Text.replace_from]. rewrite E. f_equal. apply replace_from_fuel; lia.
Qed.

Lemma replace_skip a p new c r :
  Text.drop_prefix (String a p) (String c r) = None →
  Text.replace (String a p) new (String c r)
  = String c (Text.replace (String a p) new r).
Proof.
  intros E. unfold Text.replace. cbn [String.length Text.replace_from].
  by rewrite E.
Qed.

Lemma replace_absent a p new s :
  Str.contains (String a p) s = false → Text.replace (String a p) new s = s.
Proof.
  induction s as [|c r IH]; [done|]. cbn [Str.contains].
  intros [Hp Hr]%orb_false_iff. rewrite replace_skip.
  - by rewrite (IH Hr).
  - by apply prefix_drop.
Qed.

Lemma replace_without_char c a p new s :
  Str.contains_char c new = false → Str.contains_char c s = false →
  Str.contains_char c (Text.replace (String a p) new s) = false.
Proof.
  intros Hnew. remember (String.length s) as n eqn:Hn.
  revert s Hn. induction (lt_wf n) as [n _ IH]. intros s -> Hs.
  destruct (Text.drop_prefix (String a p) s) as [rest|] eqn:E.
  - rewrite (replace_match _ _ _ _ _ E), contains_char_app, Hnew. cbn [orb].
    pose proof (drop_prefix_shorter _ _ _ _ E).
    apply (IH (String.length rest)); [done..|].
    apply drop_prefix_spec in E. rewrite E, contains_char_app in Hs.
    by apply orb_false_iff in Hs as [_ ?].
  - destruct s as [|d r]; [done|]. rewrite (replace_skip _ _ _ _ _ E).
    cbn [Str.contains_char] in Hs |- *. apply orb_false_iff in Hs as [Hd Hr].
    rewrite Hd. cbn [orb]. apply (IH (String.length r)); [cbn; lia|done..].
Qed.

(** The marker [.git] is found wherever it stands: before it, a text
    without the marker is kept as it is. *)
Lemma replace_git_marker new a b :
  Str.contains ".git" a = false →
  Text.replace ".git" new (a +:+ ".git" +:+ b) = a +:+ new +:+ Text.replace ".git" new b.
Proof.
  induction a as [|c r IH]; intros Ha.
  - rewrite !str_app_nil_l. by apply replace_match, (drop_prefix_app ".git").
  - cbn [Str.contains] in Ha. apply orb_false_iff in Ha as [Hp Hr].
    rewrite (str_app_cons c r (".git" +:+ b)), (str_app_cons c r).
    rewrite replace_skip; [by rewrite (IH Hr)|].
    apply prefix_drop in Hp. revert Hp. clear.
    cbn [Text.drop_prefix].
    destruct (Ascii.eqb_spec "." c) as [<-|]; [|done].
    destruct r as [|c1 r]; [done|]. rewrite (str_app_cons c1 r).
    destruct (Ascii.eqb_spec "g" c1) as [<-|]; [|done].
    destruct r as [|c2 r]; [done|]. rewrite (str_app_cons c2 r).
    destruct (Ascii.eqb_spec "i" c2) as [<-|]; [|done].
    destruct r as [|c3 r]; [done|]. rewrite (str_app_cons c3 r).
    destruct (Ascii.eqb_spec "t" c3) as [<-|]; [|done].
    by destruct r.
Qed.

Lemma split_second sep s :
  Str.contains_char sep s = true →
  ∃ first second rest,
    Str.split sep s = first :: second :: rest
    ∧ s = first +:+ String sep (String.concat (String sep "") (second :: rest))
    ∧ Str.contains_char sep first = false
    ∧ Str.contains_char sep second = false.
Proof.
  intros Hs. pose proof (split_first sep s) as [Hfirst Hrest].
  rewrite Hs in Hrest. destruct Hrest as [rest Heq].
  set (first := default "" (head (Str.split sep s))) in *.
  pose proof (split_nonempty sep rest) as Hne.
  pose proof (split_pieces_without sep rest) as Hall.
  destruct (Str.split sep rest) as [|second more] eqn:E; [done|].
  exists first, second, more.
  assert (Str.split sep s = first :: second :: more) as Hsplit.
  { rewrite Heq at 1. by rewrite split_app, (split_single _ _ Hfirst), E. }
  split; [exact Hsplit|]. split.
  - rewrite Heq at 1. do 2 f_equal. clear -E.
    revert second more E. induction rest as [|c r IH]; intros second more.
    + by intros [= <- <-].
    + cbn [Str.split]. destruct (Ascii.eqb_spec c sep) as [->|Hne].
      * intros [= <- <-]. pose proof (split_nonempty sep r).
        destruct (Str.split sep r) as [|w ws] eqn:Er; [done|].
        cbn [String.concat]. by rewrite (IH w ws eq_refl).
      * pose proof (split_nonempty sep r).
        destruct (Str.split sep r) as [|w ws] eqn:Er; [done|].
        intros [= <- <-]. rewrite (IH w ws eq_refl).
        by destruct ws.
  - split; [exact Hfirst|]. by apply Forall_cons in Hall as [? _].
Qed.

Lemma startswith_app p r : Str.startswith p (p +:+ r) = true.
Proof.
  unfold Str.startswith. induction p as [|c p IH]; [by destruct r|].
  rewrite str_app_cons. cbn [String.prefix]. by destruct (ascii_dec c c).
Qed.

(** X15: the GitHub client accepts a repository URL exactly when its path,
    without the slashes at its two ends, still holds a slash.  The owner
    it returns is then the non-empty text before the first slash, and
    neither the owner nor the repository name holds a slash; any other
    URL raises [ValueError]. *)
Theorem github_repo_url_parts url_path repo_url path :
  url_path repo_url = inr path →
  if Str.contains_char "/" (Text.strip_char "/" path)
  then ∃ owner repo,
         GitHubClient._parse_repo_url url_path repo_url = inr (owner, repo)
         ∧ owner ≠ ""
         ∧ Str.startswith (owner +:+ "/") (Text.strip_char "/" path) = true
         ∧ Str.contains_char "/" owner = false
         ∧ Str.contains_char "/" repo = false
  else GitHubClient._parse_repo_url url_path repo_url
       = inl (ValueError ("Invalid repository URL: " +:+ repo_url)).
Proof.
  intros Hpath. unfold GitHubClient._parse_repo_url. rewrite Hpath.
  destruct (Str.contains_char "/" (Text.strip_char "/" path)) eqn:Hs.
  - destruct (split_second _ _ Hs) as (owner & name & rest & -> & Heq & Ho & Hn).
    exists owner, (Text.replace ".git" "" name).
    split; [reflexivity|]. split; [|split; [|split]].
    + intros ->. rewrite str_app_nil_l in Heq.
      unfold Text.strip_char in Heq.
      by eapply rstrip_char_head; [apply lstrip_char_head|exact Heq].
    + rewrite Heq. generalize (String.concat "/" (name :: rest)). intros x.
      change (String "/" x) with ("/" +:+ x).
      rewrite <- (str_app_assoc owner "/" x). apply startswith_app.
    + exact Ho.
    + by apply replace_without_char.
  - by rewrite (split_single _ _ Hs).
Qed.

Lemma github_repo_url_parts_witness :
  ∃ owner repo,
    GitHubClient._parse_repo_url (λ _, inr "/acme/orders-enricher.git/")
      Example.repo_url = inr (owner, repo)
    ∧ owner ≠ ""
    ∧ Str.startswith (owner +:+ "/")
        (Text.strip_char "/" "/acme/orders-enricher.git/") = true
    ∧ Str.contains_char "/" owner = false
    ∧ Str.contains_char "/" repo = false.
Proof.
  exact (github_repo_url_parts (λ _, inr "/acme/orders-enricher.git/")
           Example.repo_url "/acme/orders-enricher.git/" eq_refl).
Defined.

(** X16: the marker [.git] is removed from the repository name wherever it
    stands, not only at its end: for a path [/owner/a.gitb], where
    neither [a] nor [b] holds the marker, the name returned is [ab].  With
    an empty [b] this drops the suffix of a clone URL; with any other [b]
    it changes the name. *)
Theorem github_git_marker_removed_anywhere url_path repo_url owner a b :
  url_path repo_url = inr ("/" +:+ owner +:+ "/" +:+ a +:+ ".git" +:+ b) →
  owner ≠ "" →
  Str.contains_char "/" owner = false →
  Str.contains_char "/" a = false →
  Str.contains_char "/" b = false →
  Str.contains ".git" a = false →
  Str.contains ".git" b = false →
  GitHubClient._parse_repo_url url_path repo_url = inr (owner, a +:+ b).
Proof.
  intros Hpath Hne Ho Ha Hb Hma Hmb.
  unfold GitHubClient._parse_repo_url. rewrite Hpath.
  assert (Hname : Str.contains_char "/" (a +:+ ".git" +:+ b) = false).
  { rewrite !contains_char_app, Ha, Hb. reflexivity. }
  assert (Text.strip_char "/" ("/" +:+ owner +:+ "/" +:+ a +:+ ".git" +:+ b)
          = owner +:+ "/" +:+ a +:+ ".git" +:+ b) as ->.
  { unfold Text.strip_char. rewrite (str_app_cons "/" ""), str_app_nil_l.
    cbn [Text.lstrip_char]. rewrite Ascii.eqb_refl.
    destruct owner as [|c r]; [done|].
    cbn [Str.contains_char] in Ho. apply orb_false_iff in Ho as [Hc Hr].
    rewrite str_app_cons. cbn [Text.lstrip_char].
    rewrite Ascii.eqb_sym, Hc. rewrite <- str_app_cons.
    replace (String c r +:+ "/" +:+ a +:+ ".git" +:+ b)
      with ((String c r +:+ "/") +:+ (a +:+ ".git" +:+ b)).
    - apply rstrip_char_keeps; [exact Hname|]. by destruct a.
    - by rewrite !str_app_assoc. }
  change (owner +:+ "/" +:+ a +:+ ".git" +:+ b)
    with (owner +:+ String "/" (a +:+ ".git" +:+ b)).
  rewrite split_app, (split_single _ _ Ho), (split_single _ _ Hname).
  cbn [app]. by rewrite replace_git_marker, str_app_nil_l, (replace_absent _ _ _ _ Hmb).
Qed.

Lemma github_git_marker_removed_anywhere_witness :
  GitHubClient._parse_repo_url (λ _, inr "/acme/acme.github.io")
    "https://github.com/acme/acme.github.io" = inr ("acme", "acmehub.io").
Proof.
  apply (github_git_marker_removed_anywhere _ _ "acme" "acme" "hub.io");
    [reflexivity | discriminate | reflexivity..].
Defined.

Lemma hex_digit_unreserved n : Text.unreserved (Text.hex_digit n) = true.
Proof. do 16 (destruct n as [|n]; [reflexivity|]). reflexivity. Qed.

Lemma quote_chars c s :
  Text.unreserved c = false → c ≠ "%"%char →
  Str.contains_char c (Text.quote s) = false.
Proof.
  intros Hc Hpct.
  assert (Hd : ∀ d, Text.unreserved d = true → Ascii.eqb c d = false).
  { intros d Hd. apply Ascii.eqb_neq. congruence. }
  induction s as [|d s IH]; [done|]. cbn [Text.quote].
  destruct (Text.unreserved d) eqn:Ed; cbn [Str.contains_char].
  - by rewrite (Hd d Ed), IH.
  - rewrite (Hd _ (hex_digit_unreserved _)), (Hd _ (hex_digit_unreserved _)), IH.
    rewrite !orb_false_r. by apply Ascii.eqb_neq.
Qed.

(** X17: the project id the GitLab client puts into its endpoints is one
    path segment: apart from the percent sign of the escapes it holds
    only characters that [quote] never escapes, hence no slash, question
    mark or hash. *)
Theorem gitlab_project_id_one_segment url_path repo_url id :
  GitLabClient._parse_repo_url url_path repo_url = inr id →
  (∀ c, Text.unreserved c = false → c ≠ "%"%char → Str.contains_char c id = false)
  ∧ Str.contains_char "/" id = false
  ∧ Str.contains_char "?" id = false
  ∧ Str.contains_char "#" id = false.
Proof.
  unfold GitLabClient._parse_repo_url.
  destruct (url_path repo_url) as [e|path]; [done|]. intros [= <-].
  split; [intros c; apply quote_chars|].
  split; [|split]; by apply quote_chars.
Qed.

Lemma gitlab_project_id_one_segment_witness :
  GitLabClient._parse_repo_url (λ _, inr "/acme/platform/orders.git") "" 
  = inr "acme%2Fplatform%2Forders"
  ∧ Str.contains_char "/" "acme%2Fplatform%2Forders" = false.
Proof.
  split; [reflexivity|].
  apply (gitlab_project_id_one_segment (λ _, inr "/acme/platform/orders.git") ""
           "acme%2Fplatform%2Forders" eq_refl).
Defined.

(** The value of a hexadecimal digit of [quote]. *)
Lemma hex_digit_inj m n :
  (m < 16)%nat → (n < 16)%nat → Text.hex_digit m = Text.hex_digit n → m = n.
Proof.
  intros Hm Hn.
  do 16 (destruct m as [|m]; [do 16 (destruct n as [|n]; [by vm_compute|]); lia|]).
  lia.
Qed.

Lemma quote_escape_inj c d :
  Text.hex_digit (nat_of_ascii c / 16) = Text.hex_digit (nat_of_ascii d / 16) →
  Text.hex_digit (nat_of_ascii c mod 16) = Text.hex_digit (nat_of_ascii d mod 16) →
  c = d.
Proof.
  intros Hhi Hlo.
  pose proof (nat_ascii_bounded c) as Hc. pose proof (nat_ascii_bounded d) as Hd.
  apply hex_digit_inj in Hhi; [|apply Nat.Div0.div_lt_upper_bound; lia..].
  apply hex_digit_inj in Hlo; [|apply Nat.mod_upper_bound; lia..].
  rewrite <- (ascii_nat_embedding c), <- (ascii_nat_embedding d). f_equal.
  rewrite (Nat.div_mod_eq (nat_of_ascii c) 16), (Nat.div_mod_eq (nat_of_ascii d) 16).
  by rewrite Hhi, Hlo.
Qed.

Lemma string_cons_inj a b s t : String a s = String b t → a = b ∧ s = t.
Proof. by intros [= -> ->]. Qed.

(** X18: [quote] loses nothing: two texts with the same encoding are the
    same text, so project paths that differ after the removal of [.git]
    get different project ids. *)
Theorem quote_injective s t : Text.quote s = Text.quote t → s = t.
Proof.
  assert (Hpct : ∀ c, Text.unreserved c = true → c ≠ "%"%char).
  { intros c Hc ->. discriminate Hc. }
  revert t. induction s as [|c s IH]; intros [|d t]; cbn [Text.quote].
  - done.
  - by destruct (Text.unreserved d).
  - by destruct (Text.unreserved c).
  - destruct (Text.unreserved c) eqn:Ec, (Text.unreserved d) eqn:Ed.
    + intros [= -> H]. by rewrite (IH t H).
    + intros [= -> _]. by destruct (Hpct _ Ec).
    + intros [= <- _]. by destruct (Hpct _ Ed).
    + intros [_ [Hhi [Hlo H]%string_cons_inj]%string_cons_inj]%string_cons_inj.
      rewrite (IH t H). f_equal. by apply quote_escape_inj.
Qed.

Lemma quote_injective_witness :
  Text.quote "acme/orders" = Text.quote "acme/orders" ∧ "acme/orders" = "acme/orders".
Proof.
  split; [reflexivity|]. exact (quote_injective "acme/orders" "acme/orders" eq_refl).
Defined.

(** ** CODEOWNERS *)

Lemma lstrip_char_not_prefix c s : Str.startswith (String c "") (Text.lstrip_char c s) = false.
Proof.
  pose proof (lstrip_char_head c s) as H. unfold Str.startswith.
  destruct (Text.lstrip_char c s) as [|d r]; [done|]. cbn [String.prefix].
  destruct (ascii_dec c d) as [->|]; [by destruct (H r)|done].
Qed.

(** X19: no owner read from a CODEOWNERS file starts with [@]: every
    leading [@] of a token is removed, so [@@team] and [@team] name the
    same owner. *)
Theorem codeowners_without_at content :
  Forall (λ owner, Str.startswith "@" owner = false) (parse_codeowners content).
Proof.
  unfold parse_codeowners. apply Forall_forall. intros owner Hin.
  apply list_elem_of_join in Hin as (owners & Hin & Hline).
  apply list_elem_of_fmap in Hline as (line & -> & _).
  unfold line_owners in Hin. destruct (_ && _); [|by apply elem_of_nil in Hin].
  apply list_elem_of_fmap in Hin as (token & -> & _).
  apply lstrip_char_not_prefix.
Qed.

(** X20: a CODEOWNERS file is read line by line: the owners of two texts
    joined by a line break are the owners of the first followed by the
    owners of the second, whatever the lines hold. *)
Theorem codeowners_by_line a b :
  parse_codeowners (a +:+ Str.nl +:+ b) = parse_codeowners a ++ parse_codeowners b.
Proof.
  unfold parse_codeowners.
  change (a +:+ Str.nl +:+ b) with (a +:+ String (ascii_of_nat 10) b).
  by rewrite split_app, fmap_app, join_app.
Qed.

(** ** Requests with retries *)

Import Http.

Lemma sends_app t1 t2 : sends (t1 ++ t2) = (sends t1 + sends t2)%nat.
Proof. unfold sends. by rewrite List.filter_app, length_app. Qed.

Lemma pauses_app t1 t2 : pauses (t1 ++ t2) = pauses t1 ++ pauses t2.
Proof. unfold pauses. apply omap_app. Qed.

Lemma after_fst {A} t (m : IO A) : (after t m).1 = m.1.
Proof. reflexivity. Qed.

Lemma after_snd {A} t (m : IO A) : (after t m).2 = t ++ m.2.
Proof. reflexivity. Qed.

Lemma sleep_then_cases {A} rt seconds (m : IO A) :
  (∃ c msg, sleep_then rt seconds m = (inl (Exception c msg), []))
  ∨ sleep_then rt seconds m = after [Slept seconds] m.
Proof.
  unfold sleep_then, sleep_overflows.
  destruct (_ || _); [left; by eauto|].
  destruct (float_lt seconds 0); [left; by eauto|].
  destruct (float_lt 60 seconds); [|by right].
  destruct (long_sleep rt seconds) as [[c msg]|]; [left; by eauto | by right].
Qed.

Lemma float_of_int_error n e : float_of_int n = inl e → ∃ c msg, e = Exception c msg.
Proof. unfold float_of_int. destruct (_ <? _)%Z; [done|]. intros [= <-]. by eauto. Qed.

Lemma float_of_int_inr n :
  (Z.abs n < float_limit)%Z → float_of_int n = inr (inject_Z n).
Proof. intros H. unfold float_of_int. by apply Z.ltb_lt in H as ->. Qed.

Lemma int_header_error rt response name dflt e :
  int_header rt response name dflt = inl e → ∃ message, e = Exception "ValueError" message.
Proof.
  unfold int_header. destruct (header response name); [|done].
  destruct (int rt _); [|done]. intros [= <-]. by eexists.
Qed.

Lemma request_ok_step rt method url kw sent remaining attempt (m : IO Response) pre :
  sends pre = 0%nat →
  Forall (λ ev, is_sent ev = true → ev = Sent method url kw) pre →
  request_ok rt method url kw sent remaining (S attempt) m →
  request_ok rt method url kw sent (S remaining) attempt
    (after (Sent method url kw :: pre) m).
Proof.
  intros Hpre Hall (Hle & Hsent & Hres). unfold request_ok.
  rewrite after_fst, after_snd. change (Sent method url kw :: pre) with ([Sent method url kw] ++ pre).
  rewrite <- app_assoc, !sends_app, Hpre. change (sends [Sent method url kw]) with 1%nat.
  split; [lia|]. split.
  { apply Forall_app. split; [by repeat constructor|]. by apply Forall_app. }
  destruct m.1 as [[r|c msg]|r]; [|done|].
  - destruct Hres as (Hs & Hpos & Hreq). split; [lia|]. split; [lia|].
    replace (sent + attempt + (S remaining - 1))%nat
      with (sent + S attempt + (remaining - 1))%nat by lia. exact Hreq.
  - destruct Hres as (Hr & Hpos & Hreq). split; [exact Hr|]. split; [lia|].
    replace (sent + attempt + (1 + (0 + sends m.2) - 1))%nat
      with (sent + S attempt + (sends m.2 - 1))%nat by lia. exact Hreq.
Qed.

Lemma request_ok_raise rt method url kw sent remaining attempt c msg pre :
  sends pre = 0%nat →
  Forall (λ ev, is_sent ev = true → ev = Sent method url kw) pre →
  request_ok rt method url kw sent (S remaining) attempt
    (after (Sent method url kw :: pre) (inl (Exception c msg), [])).
Proof.
  intros Hpre Hall. unfold request_ok. rewrite after_fst, after_snd, app_nil_r.
  change (Sent method url kw :: pre) with ([Sent method url kw] ++ pre).
  rewrite sends_app, Hpre. cbn [fst].
  split; [unfold sends; cbn; lia|]. split; [|done].
  apply Forall_app. split; [by repeat constructor | exact Hall].
Qed.

Lemma request_ok_stop rt method url kw sent remaining attempt c msg :
  request_ok rt method url kw sent (S remaining) attempt
    (after [Sent method url kw] (inl (Exception c msg), [])).
Proof.
  unfold request_ok. rewrite after_fst, after_snd. cbn.
  split; [unfold sends; cbn; lia|]. split; [by repeat constructor|done].
Qed.

Lemma github_attempts_ok rt config method url kw sent remaining attempt :
  (attempt + remaining = Z.to_nat (GitHubClient.max_retries config))%nat →
  request_ok rt method url kw sent remaining attempt
    (GitHubClient.attempts rt config method url kw remaining attempt sent).
Proof.
  revert attempt. induction remaining as [|remaining IH]; intros attempt Hn.
  { cbn. unfold request_ok, sends. cbn. split; [lia|]. split; [constructor|done]. }
  specialize (IH (S attempt) ltac:(lia)).
  cbn [GitHubClient.attempts].
  set (next := GitHubClient.attempts rt config method url kw remaining (S attempt) sent) in *.
  assert (Hfailed : ∀ e (line : Q → string) (line' : bool → string),
    request rt (sent + attempt) method url kw = inr e
    ∨ request rt (sent + attempt) method url kw = inl (HTTPStatusError e) →
    request_ok rt method url kw sent (S remaining) attempt
      (after [Sent method url kw]
         (if (Z.of_nat attempt <? GitHubClient.max_retries config - 1)%Z
          then
            match float_of_int (2 ^ Z.of_nat attempt) with
            | inl overflow => (inl overflow, [])
            | inr factor =>
                match float_mul (GitHubClient.retry_delay config) factor with
                | Finite delay => after [Printed (line delay)] (sleep_then rt delay next)
                | Infinity negative =>
                    after [Printed (line' negative)] (sleep_overflows rt)
                end
            end
          else (inl (HTTPStatusError e), [])))).
  { intros e line line' He.
    destruct (Z.ltb_spec (Z.of_nat attempt) (GitHubClient.max_retries config - 1)).
    - destruct (float_of_int (2 ^ Z.of_nat attempt)) as [o|factor] eqn:Hfloat.
      { destruct (float_of_int_error _ _ Hfloat) as (c & msg & ->).
        apply request_ok_stop. }
      destruct (float_mul (GitHubClient.retry_delay config) factor) as [delay|negative].
      + destruct (sleep_then_cases rt delay next) as [(c & msg & ->)| ->].
        * apply (request_ok_raise _ _ _ _ _ _ _ _ _ [Printed (line delay)]);
            [done | by repeat constructor].
        * apply (request_ok_step _ _ _ _ _ _ _ next [Printed (line delay); Slept delay]);
            [done|by repeat constructor|exact IH].
      + apply (request_ok_raise _ _ _ _ _ _ _ _ _ [Printed (line' negative)]);
          [done | by repeat constructor].
    - assert (remaining = 0)%nat as -> by lia.
      unfold request_ok. rewrite after_fst, after_snd. cbn.
      split; [unfold sends; cbn; lia|]. split; [by repeat constructor|].
      split; [done|]. split; [lia|]. by rewrite Nat.add_0_r. }
  destruct (request rt (sent + attempt) method url kw) as [[e|c msg]|response] eqn:Hreq.
  - apply (Hfailed e (λ delay, _) (λ negative, _)). by right.
  - apply request_ok_stop.
  - destruct (_ && _).
    + destruct (int_header rt response "X-RateLimit-Reset" 0) as [e|reset] eqn:Hint.
      * destruct (int_header_error _ _ _ _ _ Hint) as [msg ->]. apply request_ok_stop.
      * destruct (float_of_int reset) as [o|reset'] eqn:Hfloat.
        { destruct (float_of_int_error _ _ Hfloat) as (c & msg & ->).
          apply request_ok_stop. }
        match goal with |- context [sleep_then rt ?d next] =>
          destruct (sleep_then_cases rt d next) as [(c & msg & ->)| ->] end.
        -- eapply (request_ok_raise _ _ _ _ _ _ _ _ _ [Printed _]);
             [done | by repeat constructor].
        -- eapply (request_ok_step _ _ _ _ _ _ _ next [Printed _; Slept _]);
             [done|by repeat constructor|exact IH].
    + destruct (raises_for_status rt response) eqn:Hraises.
      * apply (Hfailed response (λ delay, _) (λ negative, _)). by left.
      * unfold request_ok. rewrite after_fst, after_snd. cbn.
        split; [unfold sends; cbn; lia|]. split; [by repeat constructor|].
        split; [exact Hraises|]. split; [unfold sends; cbn; lia|].
        unfold sends. cbn. by rewrite Nat.add_0_r.
Qed.

(** X21: [_request] of the GitHub client sends the same request at most
    [max_retries] times and makes no other request.  A response it
    returns is the answer to the last request it sent, and one for which
    [raise_for_status] does not raise; an HTTP status error reaches the
    caller only when all [max_retries] attempts were used. *)
Theorem github_request_outcome rt config method endpoint kw sent :
  (sends (GitHubClient._request rt config method endpoint kw sent).2
   ≤ Z.to_nat (GitHubClient.max_retries config))%nat
  ∧ Forall (λ ev, is_sent ev = true
                  → ev = Sent method (GitHubClient.api_url config +:+ endpoint) kw)
      (GitHubClient._request rt config method endpoint kw sent).2
  ∧ match (GitHubClient._request rt config method endpoint kw sent).1 with
    | inr response =>
        raises_for_status rt response = false
        ∧ (0 < sends (GitHubClient._request rt config method endpoint kw sent).2)%nat
        ∧ request rt
            (sent + (sends (GitHubClient._request rt config method endpoint kw sent).2 - 1))
            method (GitHubClient.api_url config +:+ endpoint) kw
          = inr response
    | inl (HTTPStatusError _) =>
        sends (GitHubClient._request rt config method endpoint kw sent).2
        = Z.to_nat (GitHubClient.max_retries config)
    | inl (Exception _ _) => True
    end.
Proof.
  pose proof (github_attempts_ok rt config method
                (GitHubClient.api_url config +:+ endpoint) kw sent
                (Z.to_nat (GitHubClient.max_retries config)) 0 eq_refl)
    as (Hle & Hall & Hres).
  fold (GitHubClient._request rt config method endpoint kw sent) in Hle, Hall, Hres.
  split; [exact Hle|]. split; [exact Hall|].
  destruct (GitHubClient._request rt config method endpoint kw sent).1
    as [[r|c msg]|r]; [by destruct Hres|done|].
  destruct Hres as (? & ? & Hreq). rewrite Nat.add_0_r in Hreq. done.
Qed.

Lemma wait_bounds x : (1 <= py_min (py_max x 1) 60 <= 60)%Q.
Proof.
  unfold py_min, py_max.
  destruct (float_lt x 1) eqn:E1.
  - by vm_compute.
  - apply float_lt_false in E1. destruct (float_lt 60 x) eqn:E2.
    + by vm_compute.
    + apply float_lt_false in E2. done.
Qed.

Lemma sleep_then_short {A} rt seconds (m : IO A) :
  (0 <= seconds <= 60)%Q → sleep_then rt seconds m = after [Slept seconds] m.
Proof.
  intros [H0 H60]. unfold sleep_then.
  assert (float_lt seconds sleep_min = false) as ->.
  { apply float_lt_false. apply Qle_trans with 0%Q; [by vm_compute | exact H0]. }
  assert (float_lt sleep_max seconds = false) as ->.
  { apply float_lt_false. apply Qle_trans with 60%Q; [exact H60 | by vm_compute]. }
  apply float_lt_false in H0 as ->. by apply float_lt_false in H60 as ->.
Qed.

Lemma sleeps_spec rt seconds :
  sleeps rt seconds = true →
  (0 <= seconds <= sleep_max)%Q
  ∧ (float_lt 60 seconds = true → long_sleep rt seconds = None).
Proof.
  unfold sleeps. intros [[H0 Hmax]%andb_true_iff Hlong]%andb_true_iff.
  apply negb_true_iff, float_lt_false in H0, Hmax. split; [done|].
  intros H60. rewrite H60 in Hlong. cbn in Hlong. by apply bool_decide_eq_true in Hlong.
Qed.

Lemma sleep_then_sleeps {A} rt seconds (m : IO A) :
  sleeps rt seconds = true → sleep_then rt seconds m = after [Slept seconds] m.
Proof.
  intros [[H0 Hmax] Hlong]%sleeps_spec. unfold sleep_then.
  assert (float_lt seconds sleep_min = false) as ->.
  { apply float_lt_false. apply Qle_trans with 0%Q; [by vm_compute | exact H0]. }
  apply float_lt_false in Hmax as ->. apply float_lt_false in H0 as ->. cbn [orb].
  destruct (float_lt 60 seconds); [|done]. by rewrite Hlong.
Qed.

Lemma github_attempts_rate_limited rt config method url kw sent remaining attempt :
  (∀ k, (attempt ≤ k < attempt + remaining)%nat →
        ∃ response, request rt (sent + k) method url kw = inr response
                    ∧ github_rate_limited rt response) →
  ∃ trace,
    GitHubClient.attempts rt config method url kw remaining attempt sent
    = (inl (Exception "RuntimeError" "Max retries exceeded"), trace)
    ∧ sends trace = remaining
    ∧ length (pauses trace) = remaining
    ∧ Forall (λ d, (1 <= d <= 60)%Q) (pauses trace).
Proof.
  revert attempt. induction remaining as [|remaining IH]; intros attempt Hall.
  { exists []. by repeat split. }
  destruct (Hall attempt ltac:(lia))
    as (response & Hreq & Hstatus & Hrem & reset & Hreset & Hfloat).
  destruct (IH (S attempt)) as (trace & Hnext & Hsends & Hlen & Hpauses).
  { intros k Hk. apply Hall. lia. }
  cbn [GitHubClient.attempts].
  rewrite Hreq, Hstatus, Hrem, Hreset, (float_of_int_inr _ Hfloat), Hnext.
  cbn [Z.eqb Pos.eqb andb]. rewrite String.eqb_refl.
  rewrite sleep_then_short.
  2:{ split; [|apply wait_bounds].
      apply Qle_trans with 1%Q; [by vm_compute | apply wait_bounds]. }
  unfold after. cbn [fst snd app].
  match goal with |- context [Printed ?line :: Slept ?d :: trace] =>
    exists ([Sent method url kw; Printed line; Slept d] ++ trace) end.
  split; [reflexivity|]. rewrite sends_app, pauses_app, length_app, Hsends, Hlen.
  split; [reflexivity|]. split; [reflexivity|].
  apply Forall_app. split; [|exact Hpauses].
  constructor; [apply wait_bounds | constructor].
Qed.

(** X22: when every answer is a rate limit (status 403 with no remaining
    quota) whose reset time is an integer that a float holds, that is,
    one below [2**1024 - 2**970] in absolute value, [_request] of the
    GitHub client sends [max_retries] requests, pauses after each of
    them, the last one included, for at least one and at most sixty
    seconds, and then raises [RuntimeError] with the message
    [Max retries exceeded]. *)
Theorem github_rate_limit_exhausts rt config method endpoint kw sent :
  (∀ k, (k < Z.to_nat (GitHubClient.max_retries config))%nat →
        ∃ response,
          request rt (sent + k) method (GitHubClient.api_url config +:+ endpoint) kw
          = inr response
          ∧ status_code response = 403%Z
          ∧ default "0" (header response "X-RateLimit-Remaining") = "0"
          ∧ ∃ reset, int_header rt response "X-RateLimit-Reset" 0 = inr reset
                     ∧ (Z.abs reset < float_limit)%Z) →
  ∃ trace,
    GitHubClient._request rt config method endpoint kw sent
    = (inl (Exception "RuntimeError" "Max retries exceeded"), trace)
    ∧ sends trace = Z.to_nat (GitHubClient.max_retries config)
    ∧ length (pauses trace) = Z.to_nat (GitHubClient.max_retries config)
    ∧ Forall (λ d, (1 <= d <= 60)%Q) (pauses trace).
Proof.
  intros Hall. apply github_attempts_rate_limited.
  intros k Hk. destruct (Hall k ltac:(lia)) as (r & ? & ? & ? & ?).
  exists r. by repeat split.
Qed.

Lemma float_of_pow2 k :
  (k < 1024)%nat → float_of_int (2 ^ Z.of_nat k) = inr (inject_Z (2 ^ Z.of_nat k)).
Proof.
  intros Hk. apply float_of_int_inr.
  rewrite Z.abs_eq by (apply Z.pow_nonneg; lia).
  apply Z.le_lt_trans with (2 ^ 1023)%Z; [apply Z.pow_le_mono_r; lia|].
  by vm_compute.
Qed.

Lemma float_mul_finite x y :
  (0 <= x * y <= sleep_max)%Q → float_mul x y = Finite (x * y)%Q.
Proof.
  intros [H0 Hmax]. unfold float_mul. cbn zeta.
  assert (float_lt (- inject_Z float_limit) (x * y) = true) as ->.
  { apply float_lt_spec. apply Qlt_le_trans with 0%Q; [by vm_compute | exact H0]. }
  assert (float_lt (x * y) (inject_Z float_limit) = true) as ->.
  { apply float_lt_spec. apply Qle_lt_trans with sleep_max; [exact Hmax | by vm_compute]. }
  reflexivity.
Qed.

Lemma github_attempts_failing rt config method url kw sent remaining attempt
    (answers : nat → Response) :
  (∀ k, (attempt ≤ k < attempt + S remaining)%nat →
        request rt (sent + k) method url kw = inr (answers k)
        ∧ raises_for_status rt (answers k) = true
        ∧ status_code (answers k) ≠ 403%Z) →
  (∀ k, (attempt ≤ k < attempt + remaining)%nat →
        (k < 1024)%nat
        ∧ sleeps rt (GitHubClient.retry_delay config * inject_Z (2 ^ Z.of_nat k)) = true) →
  (attempt + S remaining = Z.to_nat (GitHubClient.max_retries config))%nat →
  ∃ trace,
    GitHubClient.attempts rt config method url kw (S remaining) attempt sent
    = (inl (HTTPStatusError (answers (attempt + remaining)%nat)), trace)
    ∧ sends trace = S remaining
    ∧ pauses trace
      = (λ k, (GitHubClient.retry_delay config * inject_Z (2 ^ Z.of_nat k))%Q)
        <$> seq attempt remaining.
Proof.
  revert attempt.
  induction remaining as [|remaining IH]; intros attempt Hall Hsleeps Hn.
  - destruct (Hall attempt ltac:(lia)) as (Hreq & Hraises & Hstatus).
    cbn [GitHubClient.attempts]. rewrite Hreq, Hraises.
    apply Z.eqb_neq in Hstatus as ->. cbn [andb].
    destruct (Z.ltb_spec (Z.of_nat attempt) (GitHubClient.max_retries config - 1)); [lia|].
    rewrite Nat.add_0_r. by eexists.
  - destruct (Hall attempt ltac:(lia)) as (Hreq & Hraises & Hstatus).
    destruct (Hsleeps attempt ltac:(lia)) as (Hpow & Hsleep).
    destruct (IH (S attempt)) as (trace & Hnext & Hsends & Hpauses).
    { intros k Hk. apply Hall. lia. }
    { intros k Hk. apply Hsleeps. lia. }
    { lia. }
    cbn [GitHubClient.attempts] in Hnext |- *. rewrite Hreq, Hraises.
    apply Z.eqb_neq in Hstatus as ->. cbn [andb].
    destruct (Z.ltb_spec (Z.of_nat attempt) (GitHubClient.max_retries config - 1)); [|lia].
    rewrite (float_of_pow2 _ Hpow), float_mul_finite.
    2:{ by apply sleeps_spec in Hsleep as [? _]. }
    rewrite (sleep_then_sleeps _ _ _ Hsleep).
    rewrite Hnext. unfold after. cbn [fst snd app].
    match goal with |- context [Printed ?line :: Slept ?d :: trace] =>
      exists ([Sent method url kw; Printed line; Slept d] ++ trace) end.
    replace (attempt + S remaining)%nat with (S attempt + remaining)%nat by lia.
    split; [reflexivity|]. rewrite sends_app, pauses_app, Hsends, Hpauses.
    split; reflexivity.
Qed.

(** X23: when every answer is an HTTP error other than 403, [max_retries]
    is at most 1025, so that every factor [2 ** attempt] is one a float
    holds, and [time.sleep] takes each of the pauses asked for,
    [_request] of the GitHub client sends [max_retries] requests, pauses
    between them for [retry_delay], twice that, four times that and so
    on, does not pause after the last one, and raises the status error of
    the last answer. *)
Theorem github_backoff_schedule rt config method endpoint kw sent
    (answers : nat → Response) :
  (0 < GitHubClient.max_retries config ≤ 1025)%Z →
  (∀ k, (k < Z.to_nat (GitHubClient.max_retries config) - 1)%nat →
        sleeps rt (GitHubClient.retry_delay config * inject_Z (2 ^ Z.of_nat k)) = true) →
  (∀ k, (k < Z.to_nat (GitHubClient.max_retries config))%nat →
        request rt (sent + k) method (GitHubClient.api_url config +:+ endpoint) kw
        = inr (answers k)
        ∧ raises_for_status rt (answers k) = true
        ∧ status_code (answers k) ≠ 403%Z) →
  ∃ trace,
    GitHubClient._request rt config method endpoint kw sent
    = (inl (HTTPStatusError
              (answers (Z.to_nat (GitHubClient.max_retries config) - 1)%nat)), trace)
    ∧ sends trace = Z.to_nat (GitHubClient.max_retries config)
    ∧ pauses trace
      = (λ k, (GitHubClient.retry_delay config * inject_Z (2 ^ Z.of_nat k))%Q)
        <$> seq 0 (Z.to_nat (GitHubClient.max_retries config) - 1).
Proof.
  intros Hmax Hsleeps Hall. unfold GitHubClient._request.
  destruct (Z.to_nat (GitHubClient.max_retries config)) as [|n] eqn:En; [lia|].
  replace (S n - 1)%nat with n in * by lia.
  destruct (github_attempts_failing rt config method
              (GitHubClient.api_url config +:+ endpoint) kw sent n 0 answers)
    as (trace & Heq & Hsends & Hpauses); [| |lia|].
  { intros k Hk. apply Hall. lia. }
  { intros k Hk. split; [lia|]. apply Hsleeps. lia. }
  exists trace. done.
Qed.

Lemma gitlab_attempts_ok rt config method url kw sent remaining attempt :
  (attempt + remaining = Z.to_nat (GitLabClient.max_retries config))%nat →
  request_ok rt method url kw sent remaining attempt
    (GitLabClient.attempts rt config method url kw remaining attempt sent).
Proof.
  revert attempt. induction remaining as [|remaining IH]; intros attempt Hn.
  { cbn. unfold request_ok, sends. cbn. split; [lia|]. split; [constructor|done]. }
  specialize (IH (S attempt) ltac:(lia)).
  cbn [GitLabClient.attempts].
  set (next := GitLabClient.attempts rt config method url kw remaining (S attempt) sent) in *.
  assert (Hfailed : ∀ e (line : Q → string) (line' : bool → string),
    request rt (sent + attempt) method url kw = inr e
    ∨ request rt (sent + attempt) method url kw = inl (HTTPStatusError e) →
    request_ok rt method url kw sent (S remaining) attempt
      (after [Sent method url kw]
         (if (Z.of_nat attempt <? GitLabClient.max_retries config - 1)%Z
          then
            match float_of_int (2 ^ Z.of_nat attempt) with
            | inl overflow => (inl overflow, [])
            | inr factor =>
                match float_mul (GitLabClient.retry_delay config) factor with
                | Finite delay => after [Printed (line delay)] (sleep_then rt delay next)
                | Infinity negative =>
                    after [Printed (line' negative)] (sleep_overflows rt)
                end
            end
          else (inl (HTTPStatusError e), [])))).
  { intros e line line' He.
    destruct (Z.ltb_spec (Z.of_nat attempt) (GitLabClient.max_retries config - 1)).
    - destruct (float_of_int (2 ^ Z.of_nat attempt)) as [o|factor] eqn:Hfloat.
      { destruct (float_of_int_error _ _ Hfloat) as (c & msg & ->).
        apply request_ok_stop. }
      destruct (float_mul (GitLabClient.retry_delay config) factor) as [delay|negative].
      + destruct (sleep_then_cases rt delay next) as [(c & msg & ->)| ->].
        * apply (request_ok_raise _ _ _ _ _ _ _ _ _ [Printed (line delay)]);
            [done | by repeat constructor].
        * apply (request_ok_step _ _ _ _ _ _ _ next [Printed (line delay); Slept delay]);
            [done|by repeat constructor|exact IH].
      + apply (request_ok_raise _ _ _ _ _ _ _ _ _ [Printed (line' negative)]);
          [done | by repeat constructor].
    - assert (remaining = 0)%nat as -> by lia.
      unfold request_ok. rewrite after_fst, after_snd. cbn.
      split; [unfold sends; cbn; lia|]. split; [by repeat constructor|].
      split; [done|]. split; [lia|]. by rewrite Nat.add_0_r. }
  destruct (request rt (sent + attempt) method url kw) as [[e|c msg]|response] eqn:Hreq.
  - apply (Hfailed e (λ delay, _) (λ negative, _)). by right.
  - apply request_ok_stop.
  - destruct (status_code response =? 429)%Z.
    + destruct (int_header rt response "Retry-After" 60) as [e|retry_after] eqn:Hint.
      * destruct (int_header_error _ _ _ _ _ Hint) as [msg ->]. apply request_ok_stop.
      * match goal with |- context [sleep_then rt ?d next] =>
          destruct (sleep_then_cases rt d next) as [(c & msg & ->)| ->] end.
        -- eapply (request_ok_raise _ _ _ _ _ _ _ _ _ [Printed _]);
             [done | by repeat constructor].
        -- eapply (request_ok_step _ _ _ _ _ _ _ next [Printed _; Slept _]);
             [done|by repeat constructor|exact IH].
    + destruct (raises_for_status rt response) eqn:Hraises.
      * apply (Hfailed response (λ delay, _) (λ negative, _)). by left.
      * unfold request_ok. rewrite after_fst, after_snd. cbn.
        split; [unfold sends; cbn; lia|]. split; [by repeat constructor|].
        split; [exact Hraises|]. split; [unfold sends; cbn; lia|].
        unfold sends. cbn. by rewrite Nat.add_0_r.
Qed.

(** X24: [_request] of the GitLab client keeps the same bounds: at most
    [max_retries] requests, all the same; a returned response is the
    answer to the last request and passes [raise_for_status]; a status
    error is raised only after [max_retries] requests. *)
Theorem gitlab_request_outcome rt config method endpoint kw sent :
  (sends (GitLabClient._request rt config method endpoint kw sent).2
   ≤ Z.to_nat (GitLabClient.max_retries config))%nat
  ∧ Forall (λ ev, is_sent ev = true
                  → ev = Sent method (GitLabClient.api_url config +:+ endpoint) kw)
      (GitLabClient._request rt config method endpoint kw sent).2
  ∧ match (GitLabClient._request rt config method endpoint kw sent).1 with
    | inr response =>
        raises_for_status rt response = false
        ∧ (0 < sends (GitLabClient._request rt config method endpoint kw sent).2)%nat
        ∧ request rt
            (sent + (sends (GitLabClient._request rt config method endpoint kw sent).2 - 1))
            method (GitLabClient.api_url config +:+ endpoint) kw
          = inr response
    | inl (HTTPStatusError _) =>
        sends (GitLabClient._request rt config method endpoint kw sent).2
        = Z.to_nat (GitLabClient.max_retries config)
    | inl (Exception _ _) => True
    end.
Proof.
  pose proof (gitlab_attempts_ok rt config method
                (GitLabClient.api_url config +:+ endpoint) kw sent
                (Z.to_nat (GitLabClient.max_retries config)) 0 eq_refl)
    as (Hle & Hall & Hres).
  fold (GitLabClient._request rt config method endpoint kw sent) in Hle, Hall, Hres.
  split; [exact Hle|]. split; [exact Hall|].
  destruct (GitLabClient._request rt config method endpoint kw sent).1
    as [[r|c msg]|r]; [by destruct Hres|done|].
  destruct Hres as (? & ? & Hreq). rewrite Nat.add_0_r in Hreq. done.
Qed.

Lemma float_lt_inject_Z n : float_lt (inject_Z n) 0 = (n <? 0)%Z.
Proof.
  destruct (Z.ltb_spec n 0) as [H|H].
  - apply float_lt_spec. change 0%Q with (inject_Z 0). by rewrite <- Zlt_Qlt.
  - apply float_lt_false. change 0%Q with (inject_Z 0). by rewrite <- Zle_Qle.
Qed.

Lemma gitlab_attempts_rate_limited rt config method url kw sent remaining attempt :
  (∀ k, (attempt ≤ k < attempt + remaining)%nat →
        ∃ response retry_after,
          request rt (sent + k) method url kw = inr response
          ∧ status_code response = 429%Z
          ∧ int_header rt response "Retry-After" 60 = inr retry_after
          ∧ (0 ≤ retry_after)%Z) →
  ∃ trace,
    GitLabClient.attempts rt config method url kw remaining attempt sent
    = (inl (Exception "RuntimeError" "Max retries exceeded"), trace)
    ∧ sends trace = remaining
    ∧ length (pauses trace) = remaining
    ∧ Forall (λ d, (0 <= d <= 60)%Q) (pauses trace).
Proof.
  revert attempt. induction remaining as [|remaining IH]; intros attempt Hall.
  { exists []. by repeat split. }
  destruct (Hall attempt ltac:(lia)) as (response & ra & Hreq & Hstatus & Hra & Hpos).
  destruct (IH (S attempt)) as (trace & Hnext & Hsends & Hlen & Hpauses).
  { intros k Hk. apply Hall. lia. }
  cbn [GitLabClient.attempts]. rewrite Hreq, Hstatus, Hra, Hnext.
  cbn [Z.eqb Pos.eqb].
  assert (Hpause : (0 <= inject_Z (Z.min ra 60) <= 60)%Q).
  { change 0%Q with (inject_Z 0). change 60%Q with (inject_Z 60).
    rewrite <- !Zle_Qle. lia. }
  rewrite (sleep_then_short _ _ _ Hpause).
  unfold after. cbn [fst snd app].
  match goal with |- context [Printed ?line :: Slept ?d :: trace] =>
    exists ([Sent method url kw; Printed line; Slept d] ++ trace) end.
  split; [reflexivity|]. rewrite sends_app, pauses_app, length_app, Hsends, Hlen.
  split; [reflexivity|]. split; [reflexivity|].
  apply Forall_app. split; [|exact Hpauses].
  constructor; [exact Hpause | constructor].
Qed.

(** X25: when every answer is a rate limit (status 429) with a
    non-negative [Retry-After], [_request] of the GitLab client sends
    [max_retries] requests, pauses after each for at most sixty seconds,
    whatever the header asks for, and then raises [RuntimeError] with the
    message [Max retries exceeded]. *)
Theorem gitlab_rate_limit_exhausts rt config method endpoint kw sent :
  (∀ k, (k < Z.to_nat (GitLabClient.max_retries config))%nat →
        ∃ response retry_after,
          request rt (sent + k) method (GitLabClient.api_url config +:+ endpoint) kw
          = inr response
          ∧ status_code response = 429%Z
          ∧ int_header rt response "Retry-After" 60 = inr retry_after
          ∧ (0 ≤ retry_after)%Z) →
  ∃ trace,
    GitLabClient._request rt config method endpoint kw sent
    = (inl (Exception "RuntimeError" "Max retries exceeded"), trace)
    ∧ sends trace = Z.to_nat (GitLabClient.max_retries config)
    ∧ length (pauses trace) = Z.to_nat (GitLabClient.max_retries config)
    ∧ Forall (λ d, (0 <= d <= 60)%Q) (pauses trace).
Proof.
  intros Hall. apply gitlab_attempts_rate_limited.
  intros k Hk. apply Hall. lia.
Qed.

(** X26: a negative [Retry-After] makes [_request] of the GitLab client
    fail at once: the pause of that length is refused, with [ValueError]
    down to -9223372036 seconds and, below that, with the
    [OverflowError] of a length that 64 bits of nanoseconds do not hold;
    neither is caught, so no further attempt is made. *)
Theorem gitlab_negative_retry_after rt config method endpoint kw sent
    response retry_after :
  (0 < GitLabClient.max_retries config)%Z →
  request rt sent method (GitLabClient.api_url config +:+ endpoint) kw = inr response →
  status_code response = 429%Z →
  int_header rt response "Retry-After" 60 = inr retry_after →
  (retry_after < 0)%Z →
  GitLabClient._request rt config method endpoint kw sent
  = (inl (if (retry_after <? -9223372036)%Z
          then Exception "OverflowError" (sleep_overflow rt)
          else Exception "ValueError" "sleep length must be non-negative"),
     [Sent method (GitLabClient.api_url config +:+ endpoint) kw;
      Printed ("Rate limited, waiting " +:+ pretty retry_after +:+ "s...")]).
Proof.
  intros Hmax Hreq Hstatus Hra Hneg. unfold GitLabClient._request.
  destruct (Z.to_nat (GitLabClient.max_retries config)) as [|n] eqn:En; [lia|].
  cbn [GitLabClient.attempts]. rewrite Nat.add_0_r, Hreq, Hstatus, Hra.
  cbn [Z.eqb Pos.eqb]. rewrite Z.min_l by lia.
  unfold sleep_then, sleep_overflows.
  assert (float_lt sleep_max (inject_Z retry_after) = false) as ->.
  { apply float_lt_false. apply Qle_trans with 0%Q; [|by vm_compute].
    change 0%Q with (inject_Z 0). rewrite <- Zle_Qle. lia. }
  rewrite orb_false_r, float_lt_inject_Z.
  destruct (Z.ltb_spec retry_after (-9223372036)) as [Hlow|Hlow].
  - assert (float_lt (inject_Z retry_after) sleep_min = true) as ->; [|done].
    apply float_lt_spec. unfold Qlt, sleep_min, inject_Z. cbn [Qnum Qden]. lia.
  - assert (float_lt (inject_Z retry_after) sleep_min = false) as ->.
    { apply float_lt_false. unfold Qle, sleep_min, inject_Z. cbn [Qnum Qden]. lia. }
    by apply Z.ltb_lt in Hneg as ->.
Qed.

Lemma github_rate_limit_exhausts_witness :
  ∃ trace,
    GitHubClient._request
      (Wire.server (Wire.answer 403 [("X-RateLimit-Remaining", "0");
                                     ("X-RateLimit-Reset", "1700000030")]))
      GitHubClient.default_config "GET" "/repos/acme/orders" NoKwargs 0
    = (inl (Exception "RuntimeError" "Max retries exceeded"), trace)
    ∧ sends trace = 3%nat
    ∧ length (pauses trace) = 3%nat
    ∧ Forall (λ d, (1 <= d <= 60)%Q) (pauses trace).
Proof.
  apply (github_rate_limit_exhausts
           (Wire.server (Wire.answer 403 [("X-RateLimit-Remaining", "0");
                                          ("X-RateLimit-Reset", "1700000030")]))
           GitHubClient.default_config "GET" "/repos/acme/orders" NoKwargs 0).
  intros k _. eexists. split; [reflexivity|]. split; [reflexivity|].
  split; [reflexivity|]. exists 1700000030%Z. split; reflexivity.
Defined.

Lemma github_backoff_schedule_witness :
  ∃ trace,
    GitHubClient._request (Wire.server (Wire.answer 502 []))
      GitHubClient.default_config "GET" "/repos/acme/orders" NoKwargs 0
    = (inl (HTTPStatusError (Wire.answer 502 [])), trace)
    ∧ sends trace = 3%nat
    ∧ pauses trace = [(2 * inject_Z 1)%Q; (2 * inject_Z 2)%Q].
Proof.
  apply (github_backoff_schedule (Wire.server (Wire.answer 502 []))
           GitHubClient.default_config "GET" "/repos/acme/orders" NoKwargs 0
           (λ _, Wire.answer 502 []));
    [split; [reflexivity | discriminate] | | ].
  - intros [|[|k]] Hk; [reflexivity | reflexivity | cbn in Hk; lia].
  - intros k _. split; [reflexivity|]. split; [reflexivity | discriminate].
Defined.

Lemma gitlab_rate_limit_exhausts_witness :
  ∃ trace,
    GitLabClient._request (Wire.server (Wire.answer 429 [("Retry-After", "120")]))
      GitLabClient.default_config "GET" "/projects/acme%2Forders" NoKwargs 0
    = (inl (Exception "RuntimeError" "Max retries exceeded"), trace)
    ∧ sends trace = 3%nat
    ∧ length (pauses trace) = 3%nat
    ∧ Forall (λ d, (0 <= d <= 60)%Q) (pauses trace).
Proof.
  apply (gitlab_rate_limit_exhausts
           (Wire.server (Wire.answer 429 [("Retry-After", "120")]))
           GitLabClient.default_config "GET" "/projects/acme%2Forders" NoKwargs 0).
  intros k _. exists (Wire.answer 429 [("Retry-After", "120")]), 120%Z.
  split; [reflexivity|]. split; [reflexivity|]. split; [reflexivity | lia].
Defined.

Lemma gitlab_negative_retry_after_witness :
  GitLabClient._request (Wire.server (Wire.answer 429 [("Retry-After", "-5")]))
    GitLabClient.default_config "GET" "/projects/acme%2Forders" NoKwargs 0
  = (inl (Exception "ValueError" "sleep length must be non-negative"),
     [Sent "GET" "https://gitlab.com/api/v4/projects/acme%2Forders" NoKwargs;
      Printed "Rate limited, waiting -5s..."]).
Proof.
  apply (gitlab_negative_retry_after
           (Wire.server (Wire.answer 429 [("Retry-After", "-5")]))
           GitLabClient.default_config "GET" "/projects/acme%2Forders" NoKwargs 0
           (Wire.answer 429 [("Retry-After", "-5")]) (-5));
    [reflexivity | reflexivity | reflexivity | reflexivity | reflexivity].
Defined.

(** A [Retry-After] of less than -9223372036 seconds is refused before
    its sign is looked at. *)
Example gitlab_retry_after_overflow :
  GitLabClient._request
    (Wire.server (Wire.answer 429 [("Retry-After", "-9223372037")]))
    GitLabClient.default_config "GET" "/projects/acme%2Forders" NoKwargs 0
  = (inl (Exception "OverflowError" "timestamp too large to convert to C _PyTime_t"),
     [Sent "GET" "https://gitlab.com/api/v4/projects/acme%2Forders" NoKwargs;
      Printed "Rate limited, waiting -9223372037s..."]).
Proof. by vm_compute. Qed.

(** From the attempt 1024 on the factor of the delay is an integer that
    no float holds: the failed request is then not retried, and the
    error of the conversion reaches the caller in place of the status
    error. *)
Example github_backoff_overflow :
  GitHubClient.attempts (Wire.server (Wire.answer 502 []))
    {| GitHubClient.api_url := "https://api.github.com";
       GitHubClient.max_retries := 2000;
       GitHubClient.retry_delay := 2 |}
    "GET" "https://api.github.com/repos/acme/orders" NoKwargs 1 1024 0
  = (inl (Exception "OverflowError" "int too large to convert to float"),
     [Sent "GET" "https://api.github.com/repos/acme/orders" NoKwargs]).
Proof. by vm_compute. Qed.

(** ** The methods of the clients *)


Section client_facts.
Context {A B : Type}.
Implicit Types (m : Client A) (k : A → Client B).

Lemma client_bind_eq m k sent :
  (m ≫= k) sent
  = match m sent with
    | (inl e, trace) => (inl e, trace)
    | (inr a, trace) => after trace (k a (sent + sends trace)%nat)
    end.
Proof. reflexivity. Qed.

Lemma clean_bind Q m k : clean Q m → (∀ a, clean Q (k a)) → clean Q (m ≫= k).
Proof.
  intros Hm Hk sent. rewrite client_bind_eq. specialize (Hm sent).
  destruct (m sent) as [[e|a] t]; [exact Hm|].
  rewrite after_snd. apply Forall_app. split; [exact Hm | apply Hk].
Qed.

Lemma at_least_bind n1 n2 m k :
  at_least n1 m → (∀ a, at_least n2 (k a)) → at_least (n1 + n2) (m ≫= k).
Proof.
  intros Hm Hk sent. rewrite client_bind_eq. specialize (Hm sent).
  destruct (m sent) as [[e|a] t]; [done|].
  rewrite after_fst, after_snd, sends_app. specialize (Hk a (sent + sends t)%nat).
  destruct (k a (sent + sends t)%nat).1; [done|]. cbn [fst snd] in Hm. lia.
Qed.

End client_facts.

Lemma clean_ret Q {A} (a : A) : clean Q (mret a).
Proof. intros sent. constructor. Qed.

Lemma clean_lift Q {A} (r : failure + A) : clean Q (client_lift r).
Proof. intros sent. constructor. Qed.

Lemma at_least_0 {A} (m : Client A) : at_least 0 m.
Proof. intros sent. destruct (m sent).1; [done | lia]. Qed.

Lemma clean_except Q {A} (m handler : Client A) :
  clean Q m → clean Q handler → clean Q (except_status m handler).
Proof.
  intros Hm Hh sent. unfold except_status. specialize (Hm sent).
  destruct (m sent) as [[[r|c msg]|a] t]; [|exact Hm..].
  rewrite after_snd. apply Forall_app. split; [exact Hm | apply Hh].
Qed.

Lemma github_request_clean (Q : effect → Prop) rt config method endpoint kw :
  Q (Sent method (GitHubClient.api_url config +:+ endpoint) kw) →
  (∀ ev, is_sent ev = false → Q ev) →
  clean Q (GitHubClient._request rt config method endpoint kw).
Proof.
  intros Hsent Hother sent.
  destruct (github_attempts_ok rt config method
              (GitHubClient.api_url config +:+ endpoint) kw sent
              (Z.to_nat (GitHubClient.max_retries config)) 0 eq_refl)
    as (_ & Hall & _).
  eapply Forall_impl; [exact Hall|]. intros ev Hev. cbn beta in Hev.
  destruct (is_sent ev) eqn:E; [by rewrite Hev | by apply Hother].
Qed.

Lemma github_request_at_least rt config method endpoint kw :
  at_least 1 (GitHubClient._request rt config method endpoint kw).
Proof.
  intros sent.
  destruct (github_attempts_ok rt config method
              (GitHubClient.api_url config +:+ endpoint) kw sent
              (Z.to_nat (GitHubClient.max_retries config)) 0 eq_refl)
    as (_ & _ & Hres).
  fold (GitHubClient._request rt config method endpoint kw sent) in Hres.
  destruct (GitHubClient._request rt config method endpoint kw sent).1; [done|].
  destruct Hres as (_ & ? & _). lia.
Qed.

Lemma gitlab_request_clean (Q : effect → Prop) rt config method endpoint kw :
  Q (Sent method (GitLabClient.api_url config +:+ endpoint) kw) →
  (∀ ev, is_sent ev = false → Q ev) →
  clean Q (GitLabClient._request rt config method endpoint kw).
Proof.
  intros Hsent Hother sent.
  destruct (gitlab_attempts_ok rt config method
              (GitLabClient.api_url config +:+ endpoint) kw sent
              (Z.to_nat (GitLabClient.max_retries config)) 0 eq_refl)
    as (_ & Hall & _).
  eapply Forall_impl; [exact Hall|]. intros ev Hev. cbn beta in Hev.
  destruct (is_sent ev) eqn:E; [by rewrite Hev | by apply Hother].
Qed.

Lemma patch_last_bind n1 n2 {A B} (m : Client A) (k : A → Client B) :
  clean (λ ev, ∀ url kw, ev ≠ Sent "PATCH" url kw) m →
  at_least n1 m →
  (∀ a, patch_last n2 (k a)) →
  patch_last (n1 + n2) (m ≫= k).
Proof.
  intros Hclean Hn Hk sent. rewrite client_bind_eq.
  specialize (Hclean sent). specialize (Hn sent).
  destruct (m sent) as [[e|a] t].
  - exists t, []. rewrite app_nil_r. split; [done|]. split; [exact Hclean|].
    split; [constructor|]. split; [unfold sends; cbn; lia | done].
  - destruct (Hk a (sent + sends t)%nat) as (pre & post & Heq & Hpre & Hpost & Hcount & Hret).
    exists (t ++ pre), post. rewrite after_fst, after_snd, Heq, app_assoc.
    split; [done|]. split; [by apply Forall_app|]. split; [exact Hpost|].
    split; [|exact Hret]. intros Hp. specialize (Hcount Hp).
    rewrite sends_app. cbn [fst snd] in Hn. lia.
Qed.

Lemma not_patch method url kw :
  method ≠ "PATCH" → ∀ url' kw', Sent method url kw ≠ Sent "PATCH" url' kw'.
Proof. intros Hm url' kw' [= ? _ _]. done. Qed.

Lemma not_sent_not_patch ev :
  is_sent ev = false → ∀ url kw, ev ≠ Sent "PATCH" url kw.
Proof. by destruct ev. Qed.

Local Ltac no_patch :=
  repeat first
    [ apply clean_bind; [|intros ?]
    | apply clean_lift
    | apply clean_ret
    | apply github_request_clean; [by apply not_patch | apply not_sent_not_patch] ].

Lemma get_branch_sha_clean rt config repo_url branch :
  clean (λ ev, ∀ url kw, ev ≠ Sent "PATCH" url kw)
    (GitHubClient.get_branch_sha rt config repo_url branch).
Proof. unfold GitHubClient.get_branch_sha, GitHubClient.parse. no_patch. Qed.

Lemma get_branch_sha_at_least rt config repo_url branch :
  at_least 1 (GitHubClient.get_branch_sha rt config repo_url branch).
Proof.
  unfold GitHubClient.get_branch_sha.
  apply (at_least_bind 0 1); [apply at_least_0|]. intros parts.
  apply (at_least_bind 1 0); [apply github_request_at_least|]. intros r.
  apply at_least_0.
Qed.

Lemma create_blobs_clean rt config parts files items :
  clean (λ ev, ∀ url kw, ev ≠ Sent "PATCH" url kw)
    (GitHubClient.create_blobs rt config parts files items).
Proof.
  revert items. induction files as [|[path content] files IH]; intros items.
  - apply clean_ret.
  - cbn [GitHubClient.create_blobs]. no_patch. apply IH.
Qed.

Lemma create_blobs_at_least rt config parts files items :
  at_least (length files) (GitHubClient.create_blobs rt config parts files items).
Proof.
  revert items. induction files as [|[path content] files IH]; intros items.
  - apply at_least_0.
  - cbn [GitHubClient.create_blobs length].
    apply (at_least_bind 1 (length files)); [apply github_request_at_least|].
    intros r. apply (at_least_bind 0 (length files)); [apply at_least_0|].
    intros sha. apply IH.
Qed.

(** X27: [commit_files] of the GitHub client moves the branch last.  Its
    requests split into a first part without any [PATCH] and a second
    part of [PATCH] requests only; the second part starts after at least
    four requests and one per file were sent (the two reads, a blob per
    file, the tree and the commit, each answered), and it is there
    whenever the method returns. *)
Theorem github_commit_moves_branch_last rt config repo_url branch_name files
    message sent :
  ∃ pre post,
    (GitHubClient.commit_files rt config repo_url branch_name files message sent).2
    = pre ++ post
    ∧ Forall (λ ev, ∀ url kw, ev ≠ Sent "PATCH" url kw) pre
    ∧ Forall (λ ev, is_sent ev = true → ∃ url kw, ev = Sent "PATCH" url kw) post
    ∧ ((0 < sends post)%nat → (4 + length files ≤ sends pre)%nat)
    ∧ (∀ commit,
         (GitHubClient.commit_files rt config repo_url branch_name files message sent).1
         = inr commit →
         (0 < sends post)%nat).
Proof.
  revert sent. change (patch_last (4 + length files)
    (GitHubClient.commit_files rt config repo_url branch_name files message)).
  unfold GitHubClient.commit_files.
  apply (patch_last_bind 0 (4 + length files));
    [unfold GitHubClient.parse; no_patch | apply at_least_0 | intros parts].
  apply (patch_last_bind 1 (3 + length files));
    [apply get_branch_sha_clean | apply get_branch_sha_at_least | intros current_sha].
  apply (patch_last_bind 1 (2 + length files));
    [no_patch | apply github_request_at_least | intros commit_response].
  apply (patch_last_bind 0 (2 + length files));
    [no_patch | apply at_least_0 | intros base_tree_sha].
  replace (2 + length files)%nat with (length files + 2)%nat by lia.
  apply (patch_last_bind (length files) 2);
    [apply create_blobs_clean | apply create_blobs_at_least | intros tree_items].
  apply (patch_last_bind 1 1);
    [no_patch | apply github_request_at_least | intros tree_response].
  apply (patch_last_bind 0 1); [no_patch | apply at_least_0 | intros new_tree_sha].
  apply (patch_last_bind 1 0);
    [no_patch | apply github_request_at_least | intros commit_response'].
  apply (patch_last_bind 0 0); [no_patch | apply at_least_0 | intros new_commit_sha].
  intros sent'. rewrite client_bind_eq.
  pose proof (github_request_clean
                (λ ev, is_sent ev = true → ∃ url kw, ev = Sent "PATCH" url kw)
                rt config "PATCH"
                (GitHubClient.repos parts +:+ "/git/refs/heads/" +:+ branch_name)
                (JsonBody (JDict [("sha", new_commit_sha)]))) as Hpatch.
  specialize (Hpatch ltac:(by eexists _, _) ltac:(intros ev H1 H2; congruence) sent').
  pose proof (github_request_at_least rt config "PATCH"
                (GitHubClient.repos parts +:+ "/git/refs/heads/" +:+ branch_name)
                (JsonBody (JDict [("sha", new_commit_sha)])) sent') as Hone.
  destruct (GitHubClient._request rt config "PATCH" _ _ sent') as [[e|r] t].
  - exists [], t. split; [done|]. split; [constructor|]. split; [exact Hpatch|].
    split; [intros _; unfold sends; cbn; lia | done].
  - exists [], (t ++ []). rewrite after_snd. split; [done|]. split; [constructor|].
    rewrite app_nil_r. split; [exact Hpatch|]. cbn [fst snd] in Hone.
    split; [intros _; unfold sends; cbn; lia | intros; lia].
Qed.

Lemma clean_bind_post (Q : effect → Prop) {A B} (P : A → Prop)
    (m : Client A) (k : A → Client B) :
  clean Q m →
  (∀ sent a, (m sent).1 = inr a → P a) →
  (∀ a, P a → clean Q (k a)) →
  clean Q (m ≫= k).
Proof.
  intros Hm HP Hk sent. rewrite client_bind_eq.
  specialize (Hm sent). specialize (HP sent).
  destruct (m sent) as [[e|a] t]; [exact Hm|].
  rewrite after_snd. apply Forall_app. split; [exact Hm|]. by apply Hk, HP.
Qed.

Lemma bind_returns {A B} (m : Client A) (k : A → Client B) sent b :
  ((m ≫= k) sent).1 = inr b →
  ∃ a, (m sent).1 = inr a ∧ (k a (sent + sends (m sent).2)%nat).1 = inr b.
Proof.
  rewrite client_bind_eq. destruct (m sent) as [[e|a] t]; [done|].
  rewrite after_fst. intros H. by exists a.
Qed.

Lemma build_actions_returns rt config project_path branch_name files actions sent result :
  (GitLabClient.build_actions rt config project_path branch_name files actions sent).1
  = inr result →
  ∃ kinds,
    length kinds = length files
    ∧ Forall (λ kind, kind = "create" ∨ kind = "update") kinds
    ∧ result = actions ++ zip_with gitlab_action kinds files.
Proof.
  revert actions sent. induction files as [|[path content] files IH]; intros actions sent.
  - cbn. intros [= <-]. exists []. by rewrite app_nil_r.
  - cbn [GitLabClient.build_actions]. intros (kind & Hkind & Hrest)%bind_returns.
    apply IH in Hrest as (kinds & Hlen & Hall & ->).
    exists (kind :: kinds). cbn [length zip_with]. rewrite Hlen.
    split; [done|]. split; [|by rewrite <- app_assoc].
    constructor; [|exact Hall]. clear -Hkind.
    unfold except_status in Hkind. rewrite client_bind_eq in Hkind.
    destruct (GitLabClient._request _ _ _ _ _ sent) as [[[r|c msg]|r] t];
      cbn in Hkind; [|done|]; injection Hkind as <-; [by left | by right].
Qed.

Lemma not_sent_not_post (R : string → kwargs → Prop) ev :
  is_sent ev = false → ∀ url kw, ev = Sent "POST" url kw → R url kw.
Proof. by destruct ev. Qed.

Lemma build_actions_clean (R : string → kwargs → Prop) rt config project_path
    branch_name files actions :
  clean (λ ev, ∀ url kw, ev = Sent "POST" url kw → R url kw)
    (GitLabClient.build_actions rt config project_path branch_name files actions).
Proof.
  revert actions. induction files as [|[path content] files IH]; intros actions.
  - apply clean_ret.
  - cbn [GitLabClient.build_actions]. apply clean_bind; [|intros kind; apply IH].
    apply clean_except; [|apply clean_ret].
    apply clean_bind; [|intros ?; apply clean_ret].
    apply gitlab_request_clean; [by intros url kw [= ]|apply not_sent_not_post].
Qed.

(** X28: [commit_files] of the GitLab client commits all the files in one
    request: every [POST] it sends is the same request to the commits
    endpoint of the project, with the branch, the message and one action
    per file, in the order of the files, each a [create] or an [update]
    of that file with its content. *)
Theorem gitlab_commit_single_request rt config repo_url branch_name files message sent :
  Forall (λ ev, ∀ url kw, ev = Sent "POST" url kw →
            ∃ project_path kinds,
              GitLabClient._parse_repo_url (url_path rt) repo_url = inr project_path
              ∧ url = GitLabClient.api_url config +:+ "/projects/" +:+ project_path
                      +:+ "/repository/commits"
              ∧ length kinds = length files
              ∧ Forall (λ kind, kind = "create" ∨ kind = "update") kinds
              ∧ kw = JsonBody (JDict [("branch", JStr branch_name);
                                      ("commit_message", JStr message);
                                      ("actions",
                                       JList (zip_with gitlab_action kinds files))]))
    (GitLabClient.commit_files rt config repo_url branch_name files message sent).2.
Proof.
  revert sent. unfold GitLabClient.commit_files.
  apply (clean_bind_post _
           (λ p, GitLabClient._parse_repo_url (url_path rt) repo_url = inr p)).
  { apply clean_lift. }
  { intros sent p. unfold GitLabClient.parse, client_lift. cbn.
    by destruct (GitLabClient._parse_repo_url _ _); intros [= <-]. }
  intros project_path Hparse.
  apply (clean_bind_post _
           (λ actions, ∃ kinds,
              length kinds = length files
              ∧ Forall (λ kind, kind = "create" ∨ kind = "update") kinds
              ∧ actions = zip_with gitlab_action kinds files)).
  { apply build_actions_clean. }
  { intros sent actions H. by apply build_actions_returns in H. }
  intros actions (kinds & Hlen & Hkinds & ->).
  apply clean_bind; [|intros r; apply clean_lift].
  apply gitlab_request_clean; [|apply not_sent_not_post].
  intros url kw [= <- <-]. exists project_path, kinds. done.
Qed.

Lemma at_most_bind n1 n2 {A B} (m : Client A) (k : A → Client B) :
  at_most n1 m → (∀ a, at_most n2 (k a)) → at_most (n1 + n2) (m ≫= k).
Proof.
  intros Hm Hk sent. rewrite client_bind_eq. specialize (Hm sent).
  destruct (m sent) as [[e|a] t]; cbn [fst snd] in *; [lia|].
  rewrite after_snd, sends_app. specialize (Hk a (sent + sends t)%nat). lia.
Qed.

Lemma at_most_weaken n n' {A} (m : Client A) :
  at_most n m → (n ≤ n')%nat → at_most n' m.
Proof. intros Hm Hle sent. specialize (Hm sent). lia. Qed.

Lemma at_most_pure {A} (r : failure + A) : at_most 0 (client_lift r).
Proof. intros sent. unfold sends. cbn. lia. Qed.

Lemma at_most_ret {A} (a : A) : at_most 0 (mret a).
Proof. intros sent. unfold sends. cbn. lia. Qed.

Lemma at_most_except n1 n2 {A} (m handler : Client A) :
  at_most n1 m → at_most n2 handler → at_most (n1 + n2) (except_status m handler).
Proof.
  intros Hm Hh sent. unfold except_status. specialize (Hm sent).
  destruct (m sent) as [[[r|c msg]|a] t]; cbn [fst snd] in *; [|lia..].
  rewrite after_snd, sends_app. specialize (Hh (sent + sends t)%nat). lia.
Qed.

Lemma no_status_error_except {A} (m handler : Client A) :
  no_status_error handler → no_status_error (except_status m handler).
Proof.
  intros Hh sent response. unfold except_status.
  destruct (m sent) as [[[r|c msg]|a] t]; [|done..].
  rewrite after_fst. apply Hh.
Qed.

Lemma github_request_at_most rt config method endpoint kw :
  at_most (Z.to_nat (GitHubClient.max_retries config))
    (GitHubClient._request rt config method endpoint kw).
Proof.
  intros sent.
  by destruct (github_attempts_ok rt config method
                 (GitHubClient.api_url config +:+ endpoint) kw sent
                 (Z.to_nat (GitHubClient.max_retries config)) 0 eq_refl) as (? & _).
Qed.

Lemma gitlab_request_at_most rt config method endpoint kw :
  at_most (Z.to_nat (GitLabClient.max_retries config))
    (GitLabClient._request rt config method endpoint kw).
Proof.
  intros sent.
  by destruct (gitlab_attempts_ok rt config method
                 (GitLabClient.api_url config +:+ endpoint) kw sent
                 (Z.to_nat (GitLabClient.max_retries config)) 0 eq_refl) as (? & _).
Qed.

Lemma github_find_codeowners_facts rt config parts paths :
  no_status_error (GitHubClient.find_codeowners rt config parts paths)
  ∧ at_most (length paths * Z.to_nat (GitHubClient.max_retries config))
      (GitHubClient.find_codeowners rt config parts paths).
Proof.
  induction paths as [|path paths [IH1 IH2]].
  - split; [by intros sent response | apply at_most_ret].
  - cbn [GitHubClient.find_codeowners length]. split.
    + by apply no_status_error_except.
    + apply (at_most_except _ _ _ _); [|exact IH2].
      apply (at_most_weaken (Z.to_nat (GitHubClient.max_retries config) + 0));
        [|lia].
      apply at_most_bind; [apply github_request_at_most|]. intros r.
      apply (at_most_bind 0 0); [apply at_most_pure|]. intros ?.
      apply (at_most_bind 0 0); [apply at_most_pure|]. intros ?.
      apply at_most_ret.
Qed.

Lemma gitlab_find_codeowners_facts rt config project_path paths :
  no_status_error (GitLabClient.find_codeowners rt config project_path paths)
  ∧ at_most (length paths * Z.to_nat (GitLabClient.max_retries config))
      (GitLabClient.find_codeowners rt config project_path paths).
Proof.
  induction paths as [|path paths [IH1 IH2]].
  - split; [by intros sent response | apply at_most_ret].
  - cbn [GitLabClient.find_codeowners length]. split.
    + by apply no_status_error_except.
    + apply (at_most_except _ _ _ _); [|exact IH2].
      apply (at_most_weaken (Z.to_nat (GitLabClient.max_retries config) + 0));
        [|lia].
      apply at_most_bind; [apply gitlab_request_at_most|]. intros r.
      apply at_most_ret.
Qed.

(** X29: [get_codeowners] of either client never raises an HTTP status
    error, whatever the server answers: the error of a location is
    caught and the next location is tried.  The method sends at most
    three times [max_retries] requests. *)
Theorem get_codeowners_absorbs_status_errors rt github gitlab repo_url sent :
  (∀ response,
     (GitHubClient.get_codeowners rt github repo_url sent).1
     ≠ inl (HTTPStatusError response))
  ∧ (sends (GitHubClient.get_codeowners rt github repo_url sent).2
     ≤ 3 * Z.to_nat (GitHubClient.max_retries github))%nat
  ∧ (∀ response,
       (GitLabClient.get_codeowners rt gitlab repo_url sent).1
       ≠ inl (HTTPStatusError response))
  ∧ (sends (GitLabClient.get_codeowners rt gitlab repo_url sent).2
     ≤ 3 * Z.to_nat (GitLabClient.max_retries gitlab))%nat.
Proof.
  unfold GitHubClient.get_codeowners, GitLabClient.get_codeowners.
  rewrite !client_bind_eq.
  unfold GitHubClient.parse, GitLabClient.parse, client_lift.
  split; [|split; [|split]].
  - destruct (GitHubClient._parse_repo_url _ _) as [e|parts]; [by destruct e|].
    intros response. rewrite after_fst. apply github_find_codeowners_facts.
  - destruct (GitHubClient._parse_repo_url _ _) as [e|parts];
      [unfold sends; cbn; lia|].
    rewrite after_snd, app_nil_l.
    apply (github_find_codeowners_facts rt github parts
             ["CODEOWNERS"; ".github/CODEOWNERS"; "docs/CODEOWNERS"]).
  - destruct (GitLabClient._parse_repo_url _ _) as [e|project_path]; [by destruct e|].
    intros response. rewrite after_fst. apply gitlab_find_codeowners_facts.
  - destruct (GitLabClient._parse_repo_url _ _) as [e|project_path];
      [unfold sends; cbn; lia|].
    rewrite after_snd, app_nil_l.
    apply (gitlab_find_codeowners_facts rt gitlab project_path
             ["CODEOWNERS"; ".gitlab/CODEOWNERS"; "docs/CODEOWNERS"]).
Qed.

Lemma resolve_reviewers_clean (R : string → kwargs → Prop) rt config reviewers ids :
  clean (λ ev, ∀ url kw, ev = Sent "POST" url kw → R url kw)
    (GitLabClient.resolve_reviewers rt config reviewers ids).
Proof.
  revert ids. induction reviewers as [|username reviewers IH]; intros ids.
  - apply clean_ret.
  - cbn [GitLabClient.resolve_reviewers]. apply clean_bind; [|intros ids'; apply IH].
    apply clean_except; [|apply clean_ret].
    apply clean_bind.
    { apply gitlab_request_clean; [by intros url kw [= ]|apply not_sent_not_post]. }
    intros r. apply clean_bind; [apply clean_lift|]. intros users.
    destruct (truthy users); [|apply clean_ret].
    apply clean_bind; [apply clean_lift | intros ?; apply clean_ret].
Qed.

Lemma first_sent_app (P : effect → Prop) t1 t2 :
  Forall (λ ev, is_sent ev = true → P ev) t1 →
  ((0 < sends t1)%nat ∨ t2 = []) →
  ∀ ev, head (List.filter is_sent (t1 ++ t2)) = Some ev → P ev.
Proof.
  intros Hall Hor ev. rewrite List.filter_app.
  assert (Hin : ∀ ev, head (List.filter is_sent t1) = Some ev → P ev).
  { intros ev' Hhead. apply head_Some_elem_of in Hhead as Hin.
    apply list_elem_of_In, filter_In in Hin as [Hin Hs].
    apply list_elem_of_In in Hin. by apply (proj1 (Forall_forall _ _) Hall). }
  destruct Hor as [Hpos| ->]; [|rewrite app_nil_r; apply Hin].
  unfold sends in Hpos. destruct (List.filter is_sent t1) as [|ev' l]; [cbn in Hpos; lia|].
  cbn. apply Hin.
Qed.

(** X30: how the two clients open the request.  The first request
    [create_pull_request] of the GitHub client sends creates the pull
    request, with the title, body, branches and draft flag it was given;
    labels and reviewers follow in later requests.  Every [POST] of the
    GitLab client creates the merge request in one piece: source and
    target branch, the title (after [Draft: ] for a draft), the
    description, the removal of the source branch switched on, and the
    labels, when there are any, joined by commas. *)
Theorem pull_request_payloads rt github gitlab repo_url title body head_branch
    base_branch labels reviewers draft sent :
  (∀ ev,
     head (List.filter is_sent
             (GitHubClient.create_pull_request rt github repo_url title body
                head_branch base_branch labels reviewers draft sent).2) = Some ev →
     ∃ parts,
       GitHubClient._parse_repo_url (url_path rt) repo_url = inr parts
       ∧ ev = Sent "POST"
                (GitHubClient.api_url github +:+ GitHubClient.repos parts +:+ "/pulls")
                (JsonBody (JDict [("title", JStr title); ("body", JStr body);
                                  ("head", JStr head_branch);
                                  ("base", JStr base_branch);
                                  ("draft", JBool draft)])))
  ∧ Forall (λ ev, ∀ url kw, ev = Sent "POST" url kw →
              ∃ project_path more,
                GitLabClient._parse_repo_url (url_path rt) repo_url = inr project_path
                ∧ url = GitLabClient.api_url gitlab +:+ "/projects/" +:+ project_path
                        +:+ "/merge_requests"
                ∧ kw = JsonBody (JDict
                         ([("source_branch", JStr head_branch);
                           ("target_branch", JStr base_branch);
                           ("title", JStr (if draft then "Draft: " +:+ title else title));
                           ("description", JStr body);
                           ("remove_source_branch", JBool true)]
                          ++ (if bool_decide (labels = []) then []
                              else [("labels", JStr (Str.join "," labels))])
                          ++ more))
                ∧ Forall (λ field, fst field = "reviewer_ids") more)
      (GitLabClient.create_pull_request rt gitlab repo_url title body head_branch
         base_branch labels reviewers draft sent).2.
Proof.
  split.
  - unfold GitHubClient.create_pull_request. rewrite client_bind_eq.
    unfold GitHubClient.parse at 1. unfold client_lift at 1.
    destruct (GitHubClient._parse_repo_url (url_path rt) repo_url) as [e|parts];
      [by intros ev|].
    rewrite after_snd, app_nil_l. rewrite client_bind_eq.
    set (payload := JsonBody (JDict [("title", JStr title); ("body", JStr body);
                                     ("head", JStr head_branch);
                                     ("base", JStr base_branch);
                                     ("draft", JBool draft)])).
    set (pulls := Sent "POST"
                    (GitHubClient.api_url github +:+ GitHubClient.repos parts
                     +:+ "/pulls") payload).
    pose proof (github_request_clean (λ ev, is_sent ev = true → ev = pulls)
                  rt github "POST" (GitHubClient.repos parts +:+ "/pulls") payload
                  ltac:(done) ltac:(intros ev H1 H2; congruence) (0 + sent)%nat) as Hall.
    pose proof (github_request_at_least rt github "POST"
                  (GitHubClient.repos parts +:+ "/pulls") payload (0 + sent)%nat)
      as Hone.
    replace (sent + sends [])%nat with (0 + sent)%nat by (unfold sends; cbn; lia).
    destruct (GitHubClient._request rt github "POST" _ payload (0 + sent)%nat)
      as [[e|r] t]; cbn [fst snd] in Hall, Hone |- *.
    + intros ev Hev. exists parts. split; [done|].
      apply (first_sent_app (λ ev, ev = pulls) t [] Hall); [by right|].
      by rewrite app_nil_r.
    + rewrite after_snd. intros ev Hev. exists parts. split; [done|].
      eapply (first_sent_app (λ ev, ev = pulls) t _ Hall); [left; lia | exact Hev].
  - revert sent. unfold GitLabClient.create_pull_request.
    apply (clean_bind_post _
             (λ p, GitLabClient._parse_repo_url (url_path rt) repo_url = inr p)).
    { apply clean_lift. }
    { intros sent p. unfold GitLabClient.parse, client_lift. cbn.
      by destruct (GitLabClient._parse_repo_url _ _); intros [= <-]. }
    intros project_path Hparse.
    apply clean_bind; [apply resolve_reviewers_clean|]. intros reviewer_ids.
    cbv zeta. apply clean_bind.
    2:{ intros r. repeat (apply clean_bind; [apply clean_lift|intros ?]).
        apply clean_ret. }
    apply gitlab_request_clean; [|apply not_sent_not_post].
    intros url kw [= <- <-]. eexists project_path, _.
    split; [done|]. split; [done|]. split; [reflexivity|].
    destruct (bool_decide (reviewer_ids = [])); by repeat constructor.
Qed.
